(** * The guest side of the embed protocol: [embed-iframe.ts]

    A shallow embedding of [packages/embeds/embed-core/src/embed-iframe.ts].
    The module keeps one mutable store ([embedStore]), reads the browser
    ([window], [document]) whenever one of its callbacks runs, and schedules
    further callbacks with [requestAnimationFrame] and [setTimeout].

    - Every function takes the state it mutates ([Sys]) and returns the new
      one; a function that runs in the browser also takes the [window] as the
      browser shows it at that moment (URL, plan flag, document sizes).
    - A callback returns an [outcome]: the new state, the callbacks it has
      scheduled, and the error it has thrown, if any.
    - [World] adds the queue of scheduled callbacks; [step] lets the browser
      run one of them, deliver a window message, or lets the UI layer call one
      of the exported hooks. *)

From Stdlib Require Import ZArith.
From stdpp Require Import base strings list gmap.

Local Open Scope Z_scope.
Local Open Scope string_scope.
Local Open Scope list_scope.

(** ** JavaScript values *)

(** The values the module stores in [embedStore.namespace] and
    [embedStore.theme] and reads from the global flags: [undefined], [null],
    a string, or (for a repeated query parameter of the router) an array of
    strings. *)
Inductive jsval :=
| JUndefined
| JNull
| JStr (s : string)
| JArr (l : list string).

#[global] Instance jsval_eq_dec : EqDecision jsval.
Proof. solve_decision. Defined.

(** JavaScript truthiness: what [if (v)] and [!v] test. *)
Definition truthy (v : jsval) : bool :=
  match v with
  | JUndefined | JNull => false
  | JStr s => negb (String.eqb s "")
  | JArr _ => true
  end.

(** [v === "..."] for a string literal. *)
Definition is_str (lit : string) (v : jsval) : bool :=
  match v with
  | JStr s => String.eqb s lit
  | _ => false
  end.

(** [v == "..."] for a string literal, the loose comparison: a string is
    compared as it is, an array through its [toString()] (its elements
    joined with commas), and [undefined] and [null] equal no string. *)
Definition loosely_equals (lit : string) (v : jsval) : bool :=
  match v with
  | JUndefined | JNull => false
  | JStr s => String.eqb s lit
  | JArr l => String.eqb (String.concat "," l) lit
  end.

(** ** Styles *)

(** [EmbedStyles] and [EmbedStylesBranding]: an object from element names
    ([body], [eventTypeListItem], ..., [branding]) to objects from CSS
    attribute names to values. *)
Abbreviation CSSProps := (gmap string string).
Abbreviation EmbedStyles := (gmap string (gmap string string)).

Record UiConfig := {
  ui_theme : string;
  ui_styles : EmbedStyles;
}.

(** The argument a React state setter is called with: a value, or the
    updater [(styles) => ({...styles, ...stylesConfig})] of [setEmbedStyles],
    which is determined by the [stylesConfig] it closes over. *)
Inductive SetStateAction :=
| SetValue (v : EmbedStyles)
| SpreadOver (stylesConfig : EmbedStyles).

(** The object spread [{...a, ...b}]: the keys of [b] win. *)
Definition spread (a b : EmbedStyles) : EmbedStyles := b ∪ a.

(** What React makes of the component's state for an action. *)
Definition apply_action (a : SetStateAction) (prev : EmbedStyles) : EmbedStyles :=
  match a with
  | SetValue v => v
  | SpreadOver stylesConfig => spread prev stylesConfig
  end.

(** [styles[elementName] || {}], what [useEmbedStyles] returns. *)
Definition slice (elementName : string) (st : EmbedStyles) : CSSProps :=
  default ∅ (st !! elementName).

(** ** The store *)

(** [reactStylesStateSetters] is an object used as a map whose entries
    [setEmbedStyles] walks with [Object.entries], that is in insertion order:
    an association list.  A setter is identified by a number. *)
Record embedStore := {
  styles : EmbedStyles;
  namespace : jsval;
  theme : jsval;
  reactStylesStateSetters : list (string * nat);
  parentInformedAboutContentHeight : bool;
  windowLoadEventFired : bool;
}.

Definition embedStore_init : embedStore :=
  {| styles := ∅; namespace := JNull; theme := JNull;
     reactStylesStateSetters := [];
     parentInformedAboutContentHeight := false;
     windowLoadEventFired := false |}.

(** [obj[k] = v]: an existing key keeps its place, a new one goes last.  The
    keys are the element names of [EmbedStyles] and [EmbedStylesBranding],
    none of them integer-like or [__proto__]. *)
Fixpoint obj_set (k : string) (v : nat) (o : list (string * nat)) : list (string * nat) :=
  match o with
  | [] => [(k, v)]
  | (k', v') :: o' =>
      if String.eqb k' k then (k, v) :: o' else (k', v') :: obj_set k v o'
  end.

(** [delete obj[k]]. *)
Fixpoint obj_delete (k : string) (o : list (string * nat)) : list (string * nat) :=
  match o with
  | [] => []
  | (k', v') :: o' =>
      if String.eqb k' k then o' else (k', v') :: obj_delete k o'
  end.

(** ** The browser *)

(** What the module reads from [window], [navigator] and [document] when one
    of its callbacks runs.  [searchParams] is [new URL(document.URL).searchParams],
    the query string as the browser has parsed it, in order. *)
Record window := {
  userAgent : string;
  documentURL : string;
  searchParams : list (string * string);
  isTop : bool;
  CalComPageStatus : jsval;
  CalComPlan : jsval;
  readyState : string;
  scrollHeight : Z;
  scrollWidth : Z;
  offsetHeight : Z;
  offsetWidth : Z;
}.

(** [isBrowser = typeof window !== "undefined"]. *)
Inductive runtime :=
| Server
| Browser (w : window).

(** [URLSearchParams.get]: the first value of the name, or [null]. *)
Fixpoint searchParams_get (name : string) (ps : list (string * string)) : jsval :=
  match ps with
  | [] => JNull
  | (k, v) :: ps' => if String.eqb k name then JStr v else searchParams_get name ps'
  end.

(** [String.prototype.includes] and [toLowerCase] for the user-agent test;
    the user agent is taken to be ASCII text, on which [toLowerCase] changes
    the letters [A] to [Z] only. *)
Fixpoint includes (needle s : string) : bool :=
  String.prefix needle s ||
  match s with
  | EmptyString => false
  | String _ s' => includes needle s'
  end.

Definition lower_ascii (c : Ascii.ascii) : Ascii.ascii :=
  let n := Ascii.nat_of_ascii c in
  if (Nat.leb 65 n && Nat.leb n 90)%bool then Ascii.ascii_of_nat (n + 32) else c.

Fixpoint toLowerCase (s : string) : string :=
  match s with
  | EmptyString => EmptyString
  | String c s' => String (lower_ascii c) (toLowerCase s')
  end.

(** ** Events, logs and scheduled callbacks *)

(** The events the module fires on the action manager, with their data. *)
Inductive sdk_event :=
| iframeReady
| linkReady
| windowLoadComplete
| linkFailed (code : jsval) (url : string)
| dimension_changed (iframeHeight iframeWidth : Z) (isFirstTime : bool).

(** The texts the module logs: ["CAL:"], ["Safari Detected: Using setTimeout
    instead of rAF"], ["Method: ui called"], the upgrade-to-PRO notice,
    ["Method: `parentKnowsIframeReady` called"], ["Initializing embed-iframe"]. *)
Inductive log_text :=
| TextCAL
| TextSafariDetected
| TextMethodUiCalled
| TextUpgradeToPro
| TextMethodParentKnowsIframeReadyCalled
| TextInitializing.

Inductive log_arg :=
| LText (t : log_text)
| LUiConfig (c : option UiConfig)
| LVal (v : jsval)
| LDetail (e : sdk_event)
| LMeta (ns : jsval) (url : string).

Inductive console_line :=
| ConsoleLog (args : list log_arg)
| ConsoleWarn (msg : string).

Inductive timer :=
| AnimationFrame
| Timeout (ms : Z).

(** The functions the module passes to [runAsap], [requestAnimationFrame]
    and [setTimeout]. *)
Inductive callback :=
| CbInformAboutScroll        (* informAboutScroll *)
| CbWindowLoadSettled        (* () => { isWindowLoadComplete = true; informAboutScroll(); } *)
| CbTryInformingLinkReady    (* tryInformingLinkReady *)
| CbUnhideBody               (* unhideBody *)
| CbRetryUi (uiConfig : option UiConfig).   (* () => { style(uiConfig); } *)

Definition task : Type := timer * callback.

Inductive js_error := TypeError.

(** ** The state of the module and of the page *)

(** The variables of [keepParentInformedAboutDimensionChanges], which its
    callbacks close over. *)
Record watcher_locals := {
  knownIframeHeight : option Z;
  numDimensionChanges : nat;
  isFirstTime : bool;
  isWindowLoadComplete : bool;
}.

Definition watcher_init : watcher_locals :=
  {| knownIframeHeight := None; numDimensionChanges := 0%nat;
     isFirstTime := true; isWindowLoadComplete := false |}.

Record Sys := {
  store : embedStore;
  isSafariBrowser : bool;
  watcher : watcher_locals;
  body_display : option string;       (* document.body.style.display, when this module has set it *)
  body_background : option string;    (* document.body.style.background, likewise *)
  logQueue : list (list log_arg);     (* window.CalEmbed.__logQueue *)
  console : list console_line;
  fired : list sdk_event;             (* calls of sdkActionManager.fire *)
  posted : list sdk_event;            (* calls of parent.postMessage *)
  wildcardHandler : bool;             (* sdkActionManager.on("*", ...) is installed *)
  messageListener : bool;             (* window.addEventListener("message", ...) is installed *)
  setterCalls : list (nat * SetStateAction);
}.

Definition Sys_init : Sys :=
  {| store := embedStore_init; isSafariBrowser := false; watcher := watcher_init;
     body_display := None; body_background := None;
     logQueue := []; console := []; fired := []; posted := [];
     wildcardHandler := false; messageListener := false; setterCalls := [] |}.

Record outcome := {
  after : Sys;
  scheduled : list task;
  thrown : option js_error;
}.

Definition finished (s : Sys) : outcome :=
  {| after := s; scheduled := []; thrown := None |}.
Definition later (s : Sys) (t : task) : outcome :=
  {| after := s; scheduled := [t]; thrown := None |}.
Definition throw (e : js_error) (s : Sys) : outcome :=
  {| after := s; scheduled := []; thrown := Some e |}.

(** ** Field updates

 [set_f v x] is the assignment [x.f = v]. *)

Definition store_set_styles v (e : embedStore) : embedStore :=
  {| styles := v; namespace := namespace e; theme := theme e; reactStylesStateSetters := reactStylesStateSetters e; parentInformedAboutContentHeight := parentInformedAboutContentHeight e; windowLoadEventFired := windowLoadEventFired e |}.
Definition store_set_namespace v (e : embedStore) : embedStore :=
  {| styles := styles e; namespace := v; theme := theme e; reactStylesStateSetters := reactStylesStateSetters e; parentInformedAboutContentHeight := parentInformedAboutContentHeight e; windowLoadEventFired := windowLoadEventFired e |}.
Definition store_set_theme v (e : embedStore) : embedStore :=
  {| styles := styles e; namespace := namespace e; theme := v; reactStylesStateSetters := reactStylesStateSetters e; parentInformedAboutContentHeight := parentInformedAboutContentHeight e; windowLoadEventFired := windowLoadEventFired e |}.
Definition store_set_reactStylesStateSetters v (e : embedStore) : embedStore :=
  {| styles := styles e; namespace := namespace e; theme := theme e; reactStylesStateSetters := v; parentInformedAboutContentHeight := parentInformedAboutContentHeight e; windowLoadEventFired := windowLoadEventFired e |}.
Definition store_set_parentInformedAboutContentHeight v (e : embedStore) : embedStore :=
  {| styles := styles e; namespace := namespace e; theme := theme e; reactStylesStateSetters := reactStylesStateSetters e; parentInformedAboutContentHeight := v; windowLoadEventFired := windowLoadEventFired e |}.
Definition store_set_windowLoadEventFired v (e : embedStore) : embedStore :=
  {| styles := styles e; namespace := namespace e; theme := theme e; reactStylesStateSetters := reactStylesStateSetters e; parentInformedAboutContentHeight := parentInformedAboutContentHeight e; windowLoadEventFired := v |}.
Definition watcher_set_knownIframeHeight v (l : watcher_locals) : watcher_locals :=
  {| knownIframeHeight := v; numDimensionChanges := numDimensionChanges l; isFirstTime := isFirstTime l; isWindowLoadComplete := isWindowLoadComplete l |}.
Definition watcher_set_numDimensionChanges v (l : watcher_locals) : watcher_locals :=
  {| knownIframeHeight := knownIframeHeight l; numDimensionChanges := v; isFirstTime := isFirstTime l; isWindowLoadComplete := isWindowLoadComplete l |}.
Definition watcher_set_isFirstTime v (l : watcher_locals) : watcher_locals :=
  {| knownIframeHeight := knownIframeHeight l; numDimensionChanges := numDimensionChanges l; isFirstTime := v; isWindowLoadComplete := isWindowLoadComplete l |}.
Definition watcher_set_isWindowLoadComplete v (l : watcher_locals) : watcher_locals :=
  {| knownIframeHeight := knownIframeHeight l; numDimensionChanges := numDimensionChanges l; isFirstTime := isFirstTime l; isWindowLoadComplete := v |}.
Definition set_store v (s : Sys) : Sys :=
  {| store := v; isSafariBrowser := isSafariBrowser s; watcher := watcher s; body_display := body_display s; body_background := body_background s; logQueue := logQueue s; console := console s; fired := fired s; posted := posted s; wildcardHandler := wildcardHandler s; messageListener := messageListener s; setterCalls := setterCalls s |}.
Definition set_isSafariBrowser v (s : Sys) : Sys :=
  {| store := store s; isSafariBrowser := v; watcher := watcher s; body_display := body_display s; body_background := body_background s; logQueue := logQueue s; console := console s; fired := fired s; posted := posted s; wildcardHandler := wildcardHandler s; messageListener := messageListener s; setterCalls := setterCalls s |}.
Definition set_watcher v (s : Sys) : Sys :=
  {| store := store s; isSafariBrowser := isSafariBrowser s; watcher := v; body_display := body_display s; body_background := body_background s; logQueue := logQueue s; console := console s; fired := fired s; posted := posted s; wildcardHandler := wildcardHandler s; messageListener := messageListener s; setterCalls := setterCalls s |}.
Definition set_body_display v (s : Sys) : Sys :=
  {| store := store s; isSafariBrowser := isSafariBrowser s; watcher := watcher s; body_display := v; body_background := body_background s; logQueue := logQueue s; console := console s; fired := fired s; posted := posted s; wildcardHandler := wildcardHandler s; messageListener := messageListener s; setterCalls := setterCalls s |}.
Definition set_body_background v (s : Sys) : Sys :=
  {| store := store s; isSafariBrowser := isSafariBrowser s; watcher := watcher s; body_display := body_display s; body_background := v; logQueue := logQueue s; console := console s; fired := fired s; posted := posted s; wildcardHandler := wildcardHandler s; messageListener := messageListener s; setterCalls := setterCalls s |}.
Definition set_logQueue v (s : Sys) : Sys :=
  {| store := store s; isSafariBrowser := isSafariBrowser s; watcher := watcher s; body_display := body_display s; body_background := body_background s; logQueue := v; console := console s; fired := fired s; posted := posted s; wildcardHandler := wildcardHandler s; messageListener := messageListener s; setterCalls := setterCalls s |}.
Definition set_console v (s : Sys) : Sys :=
  {| store := store s; isSafariBrowser := isSafariBrowser s; watcher := watcher s; body_display := body_display s; body_background := body_background s; logQueue := logQueue s; console := v; fired := fired s; posted := posted s; wildcardHandler := wildcardHandler s; messageListener := messageListener s; setterCalls := setterCalls s |}.
Definition set_fired v (s : Sys) : Sys :=
  {| store := store s; isSafariBrowser := isSafariBrowser s; watcher := watcher s; body_display := body_display s; body_background := body_background s; logQueue := logQueue s; console := console s; fired := v; posted := posted s; wildcardHandler := wildcardHandler s; messageListener := messageListener s; setterCalls := setterCalls s |}.
Definition set_posted v (s : Sys) : Sys :=
  {| store := store s; isSafariBrowser := isSafariBrowser s; watcher := watcher s; body_display := body_display s; body_background := body_background s; logQueue := logQueue s; console := console s; fired := fired s; posted := v; wildcardHandler := wildcardHandler s; messageListener := messageListener s; setterCalls := setterCalls s |}.
Definition set_wildcardHandler v (s : Sys) : Sys :=
  {| store := store s; isSafariBrowser := isSafariBrowser s; watcher := watcher s; body_display := body_display s; body_background := body_background s; logQueue := logQueue s; console := console s; fired := fired s; posted := posted s; wildcardHandler := v; messageListener := messageListener s; setterCalls := setterCalls s |}.
Definition set_messageListener v (s : Sys) : Sys :=
  {| store := store s; isSafariBrowser := isSafariBrowser s; watcher := watcher s; body_display := body_display s; body_background := body_background s; logQueue := logQueue s; console := console s; fired := fired s; posted := posted s; wildcardHandler := wildcardHandler s; messageListener := v; setterCalls := setterCalls s |}.
Definition set_setterCalls v (s : Sys) : Sys :=
  {| store := store s; isSafariBrowser := isSafariBrowser s; watcher := watcher s; body_display := body_display s; body_background := body_background s; logQueue := logQueue s; console := console s; fired := fired s; posted := posted s; wildcardHandler := wildcardHandler s; messageListener := messageListener s; setterCalls := v |}.

(** [embedStore.f = v] and [local = v] inside the whole state. *)
Definition set_styles v (s : Sys) : Sys := set_store (store_set_styles v (store s)) s.
Definition set_namespace v (s : Sys) : Sys := set_store (store_set_namespace v (store s)) s.
Definition set_theme v (s : Sys) : Sys := set_store (store_set_theme v (store s)) s.
Definition set_reactStylesStateSetters v (s : Sys) : Sys :=
  set_store (store_set_reactStylesStateSetters v (store s)) s.
Definition set_parentInformedAboutContentHeight v (s : Sys) : Sys :=
  set_store (store_set_parentInformedAboutContentHeight v (store s)) s.
Definition set_windowLoadEventFired v (s : Sys) : Sys :=
  set_store (store_set_windowLoadEventFired v (store s)) s.
Definition set_knownIframeHeight v (s : Sys) : Sys :=
  set_watcher (watcher_set_knownIframeHeight v (watcher s)) s.
Definition set_numDimensionChanges v (s : Sys) : Sys :=
  set_watcher (watcher_set_numDimensionChanges v (watcher s)) s.
Definition set_isFirstTime v (s : Sys) : Sys :=
  set_watcher (watcher_set_isFirstTime v (watcher s)) s.
Definition set_isWindowLoadComplete v (s : Sys) : Sys :=
  set_watcher (watcher_set_isWindowLoadComplete v (watcher s)) s.

(** ** Namespace, log and the event bus *)

Definition isValidNamespace (ns : jsval) : bool :=
  match ns with
  | JUndefined | JNull => false
  | _ => true
  end.

(** [getNamespace()]: the value returned and the state afterwards. *)
Definition getNamespace (r : runtime) (s : Sys) : jsval * Sys :=
  if isValidNamespace (namespace (store s)) then (namespace (store s), s)
  else
    match r with
    | Browser w =>
        let ns := searchParams_get "embed" (searchParams w) in
        (ns, set_namespace ns s)
    | Server => (JUndefined, s)
    end.

Definition isEmbed (r : runtime) (s : Sys) : bool * Sys :=
  let '(ns, s1) := getNamespace r s in (isValidNamespace ns, s1).

(** [log(...args)]. *)
Definition log (r : runtime) (args : list log_arg) (s : Sys) : Sys :=
  match r with
  | Server => s
  | Browser w =>
      let '(ns, s1) := getNamespace r s in
      let entry := LText TextCAL :: args ++ [LMeta ns (documentURL w)] in
      let s2 := set_logQueue (logQueue s1 ++ [entry]) s1 in
      if truthy (searchParams_get "debug" (searchParams w))
      then set_console (console s2 ++ [ConsoleLog entry]) s2
      else s2
  end.

(** [messageParent(data)]: [parent.postMessage({originator: "CAL", ...data}, "*")]. *)
Definition messageParent (data : sdk_event) (s : Sys) : Sys :=
  set_posted (posted s ++ [data]) s.

(** Modelled from the spec: [sdkActionManager] of [./sdk-event], which is not
    among the sources.  The bus is used "purely via two operations,
    [fire(eventName, detail)] and [on(eventName, handler)]", with wildcard
    subscription: [fire] hands the event to the handler this module has
    installed with [on("*", ...)], which logs the detail and forwards it to
    the parent. *)
Definition fire (w : window) (e : sdk_event) (s : Sys) : Sys :=
  let s1 := set_fired (fired s ++ [e]) s in
  if wildcardHandler s1
  then messageParent e (log (Browser w) [LDetail e] s1)
  else s1.

(** [runAsap(fn)]: the task it schedules. *)
Definition runAsap (s : Sys) (fn : callback) : task :=
  if isSafariBrowser s then (Timeout 50, fn) else (AnimationFrame, fn).

(** ** The style registry *)

Definition setEmbedStyles (stylesConfig : EmbedStyles) (s : Sys) : Sys :=
  let s1 := set_styles stylesConfig s in
  set_setterCalls
    (setterCalls s1 ++
     map (fun entry : string * nat => (entry.2, SpreadOver stylesConfig))
         (reactStylesStateSetters (store s1)))
    s1.

Definition registerNewSetter (elementName : string) (setStyles : nat) (s : Sys) : Sys :=
  let s1 :=
    set_reactStylesStateSetters
      (obj_set elementName setStyles (reactStylesStateSetters (store s))) s in
  set_setterCalls (setterCalls s1 ++ [(setStyles, SetValue (styles (store s1)))]) s1.

Definition removeFromEmbedStylesSetterMap (elementName : string) (s : Sys) : Sys :=
  set_reactStylesStateSetters
    (obj_delete elementName (reactStylesStateSetters (store s))) s.

(** [useEmbedTheme()], with [query_theme] the value of [router.query.theme]. *)
Definition useEmbedTheme (query_theme : jsval) (s : Sys) : jsval * Sys :=
  if truthy (theme (store s)) then (theme (store s), s)
  else (query_theme, set_theme query_theme s).

Definition unhideBody (s : Sys) : Sys := set_body_display (Some "block") s.

(** ** The instructions *)

(** [stylesConfig.body?.background], when it is truthy. *)
Definition body_background_of (stylesConfig : EmbedStyles) : option string :=
  match stylesConfig !! "body" with
  | Some body =>
      match body !! "background" with
      | Some bg => if String.eqb bg "" then None else Some bg
      | None => None
      end
  | None => None
  end.

(** [methods.ui].  The argument is [data.arg] of the message: a [UiConfig],
    or [undefined] ([None]), on which [uiConfig.styles] throws. *)
Definition methods_ui (w : window) (uiConfig : option UiConfig) (s : Sys) : outcome :=
  let s1 := log (Browser w) [LText TextMethodUiCalled; LUiConfig uiConfig] s in
  if truthy (CalComPlan w) && negb (is_str "PRO" (CalComPlan w)) then
    finished (log (Browser w) [LText TextUpgradeToPro; LVal (CalComPlan w)] s1)
  else
    match uiConfig with
    | None => throw TypeError s1
    | Some c =>
        let stylesConfig := ui_styles c in
        if negb (truthy (CalComPlan w)) then
          later s1 (AnimationFrame, CbRetryUi uiConfig)
        else
          let s2 :=
            match body_background_of stylesConfig with
            | Some bg => set_body_background (Some bg) s1
            | None => s1
            end in
          finished (setEmbedStyles stylesConfig s2)
    end.

(** The callback [tryInformingLinkReady]. *)
Definition run_tryInformingLinkReady (w : window) (s : Sys) : outcome :=
  if negb (parentInformedAboutContentHeight (store s)) then
    later s (runAsap s CbTryInformingLinkReady)
  else
    later (fire w linkReady s) (AnimationFrame, CbUnhideBody).

(** [methods.parentKnowsIframeReady]. *)
Definition methods_parentKnowsIframeReady (w : window) (s : Sys) : outcome :=
  let s1 := log (Browser w) [LText TextMethodParentKnowsIframeReadyCalled] s in
  later s1 (runAsap s1 CbTryInformingLinkReady).

(** ** The dimension watcher *)

(** The callback [informAboutScroll]. *)
Definition run_informAboutScroll (w : window) (s : Sys) : outcome :=
  if negb (String.eqb (readyState w) "complete") then
    later s (runAsap s CbInformAboutScroll)
  else if negb (isWindowLoadComplete (watcher s)) then
    later s (Timeout 10, CbWindowLoadSettled)
  else
    let s1 :=
      if negb (windowLoadEventFired (store s)) then fire w windowLoadComplete s else s in
    let s2 := set_windowLoadEventFired true s1 in
    let first := isFirstTime (watcher s2) in
    let iframeHeight := if first then scrollHeight w else offsetHeight w in
    let iframeWidth := if first then scrollWidth w else offsetWidth w in
    let s3 := set_parentInformedAboutContentHeight true s2 in
    let s4 :=
      if decide (knownIframeHeight (watcher s3) = Some iframeHeight) then s3
      else
        fire w (dimension_changed iframeHeight iframeWidth first)
          (set_numDimensionChanges (S (numDimensionChanges (watcher s3)))
             (set_knownIframeHeight (Some iframeHeight) s3)) in
    let s5 := set_isFirstTime false s4 in
    if Nat.ltb 50 (numDimensionChanges (watcher s5)) then
      finished (set_console (console s5 ++ [ConsoleWarn "Too many dimension changes detected."]) s5)
    else
      later s5 (runAsap s5 CbInformAboutScroll).

(** The callback given to [setTimeout(..., 10)]. *)
Definition run_windowLoadSettled (w : window) (s : Sys) : outcome :=
  run_informAboutScroll w (set_isWindowLoadComplete true s).

(** [keepParentInformedAboutDimensionChanges()]: fresh locals, and the first
    [runAsap(informAboutScroll)]. *)
Definition keepParentInformedAboutDimensionChanges (s : Sys) : outcome :=
  let s1 := set_watcher watcher_init s in
  later s1 (runAsap s1 CbInformAboutScroll).

(** A scheduled callback, run by the browser. *)
Definition run_callback (w : window) (cb : callback) (s : Sys) : outcome :=
  match cb with
  | CbInformAboutScroll => run_informAboutScroll w s
  | CbWindowLoadSettled => run_windowLoadSettled w s
  | CbTryInformingLinkReady => run_tryInformingLinkReady w s
  | CbUnhideBody => finished (unhideBody s)
  | CbRetryUi uiConfig => methods_ui w uiConfig s
  end.

(** ** The message listener *)

(** [e.data] of a window message, when it is truthy: its [originator] and
    [method] fields ([JUndefined] when missing) and its [arg]. *)
Record message_data := {
  originator : jsval;
  method : jsval;
  arg : option UiConfig;
}.

(** What a property of [Object.prototype] does when the listener calls it as
    [methods[method]?.(data.arg)]: a built-in function that returns without
    effect; [__defineGetter__] and [__defineSetter__], which throw because
    their second argument is not a function; and [__proto__], whose value is
    an object, not a function. *)
Inductive inherited :=
| PureBuiltin
| ThrowingBuiltin
| NotCallable.

Definition Object_prototype (name : string) : option inherited :=
  if bool_decide (name ∈ ["constructor"; "hasOwnProperty"; "isPrototypeOf";
                          "propertyIsEnumerable"; "toString"; "toLocaleString";
                          "valueOf"; "__lookupGetter__"; "__lookupSetter__"])
  then Some PureBuiltin
  else if bool_decide (name ∈ ["__defineGetter__"; "__defineSetter__"])
  then Some ThrowingBuiltin
  else if String.eqb name "__proto__" then Some NotCallable
  else None.

(** [methods[method]?.(data.arg)]: the two own properties of [methods], then
    the properties every object literal inherits, then [undefined], which
    the optional call skips. *)
Definition call_method (w : window) (name : string) (a : option UiConfig) (s : Sys) : outcome :=
  if String.eqb name "ui" then methods_ui w a s
  else if String.eqb name "parentKnowsIframeReady" then methods_parentKnowsIframeReady w s
  else
    match Object_prototype name with
    | Some PureBuiltin => finished s
    | Some ThrowingBuiltin => throw TypeError s
    | Some NotCallable => throw TypeError s
    | None => finished s
    end.

(** The listener of [window.addEventListener("message", ...)]; [None] is a
    falsy [e.data]. *)
Definition on_message (w : window) (data : option message_data) (s : Sys) : outcome :=
  match data with
  | None => finished s
  | Some d =>
      match method d with
      | JStr name =>
          if is_str "CAL" (originator d) then call_method w name (arg d) s
          else finished s
      | _ => finished s
      end
  end.

(** ** Loading the module *)

Record World := {
  sys : Sys;
  pending : list task;
}.

Definition enqueue (o : outcome) (rest : list task) : World :=
  {| sys := after o; pending := rest ++ scheduled o |}.

(** The test of [navigator.userAgent] at the top of the module. *)
Definition detectSafari (w : window) : bool :=
  let ua := toLowerCase (userAgent w) in
  includes "safari" ua && negb (includes "chrome" ua).

(** The last block of the module, [if (isBrowser) { ... }]. *)
Definition bootstrap (w : window) (s : Sys) : outcome :=
  if negb (is_str "true" (searchParams_get "prerender" (searchParams w))) then
    let '(embedded, s1) := isEmbed (Browser w) s in
    if embedded then
      let s2 := log (Browser w) [LText TextInitializing] s1 in
      let pageStatus := CalComPageStatus w in
      let s3 := if isTop w then unhideBody s2 else s2 in
      let s4 := set_wildcardHandler true s3 in
      let s5 := set_messageListener true s4 in
      if negb (truthy pageStatus) || loosely_equals "200" pageStatus then
        let o := keepParentInformedAboutDimensionChanges s5 in
        {| after := fire w iframeReady (after o);
           scheduled := scheduled o; thrown := None |}
      else
        finished (fire w (linkFailed pageStatus (documentURL w)) s5)
    else finished s1
  else finished s.

(** The module as evaluated once, on the server or in a document. *)
Definition module_init (r : runtime) : World :=
  match r with
  | Server => {| sys := Sys_init; pending := [] |}
  | Browser w =>
      let s1 := set_isSafariBrowser (detectSafari w) Sys_init in
      let s2 := if isSafariBrowser s1 then log r [LText TextSafariDetected] s1 else s1 in
      enqueue (bootstrap w s2) []
  end.

(** ** The event loop *)

(** What can happen next in the document: the browser runs the [i]-th
    scheduled callback, or delivers a window message; or the UI layer renders
    a component that calls [useEmbedTheme] (with the router's [theme] query
    value), runs the effect of [useIsEmbed], mounts a component using
    [useEmbedStyles] or [useEmbedBranding] (which registers its setter), or
    unmounts it. *)
Inductive action :=
| RunTask (i : nat)
| Message (data : option message_data)
| CallUseEmbedTheme (query_theme : jsval)
| CallIsEmbed
| Mount (elementName : string) (setStyles : nat)
| Unmount (elementName : string).

Definition step (w : window) (a : action) (W : World) : World :=
  match a with
  | RunTask i =>
      match pending W !! i with
      | Some (_, cb) => enqueue (run_callback w cb (sys W)) (delete i (pending W))
      | None => W
      end
  | Message data =>
      if messageListener (sys W)
      then enqueue (on_message w data (sys W)) (pending W)
      else W
  | CallUseEmbedTheme q =>
      {| sys := (useEmbedTheme q (sys W)).2; pending := pending W |}
  | CallIsEmbed =>
      {| sys := (isEmbed (Browser w) (sys W)).2; pending := pending W |}
  | Mount elementName setStyles =>
      {| sys := registerNewSetter elementName setStyles (sys W); pending := pending W |}
  | Unmount elementName =>
      {| sys := removeFromEmbedStylesSetterMap elementName (sys W); pending := pending W |}
  end.

(** A run: each event with the browser as it is when the event happens. *)
Definition run (evs : list (window * action)) (W : World) : World :=
  foldl (fun W ev => step ev.1 ev.2 W) W evs.

(** ** Threads of callbacks *)

(** One thread of control: a callback, and then whatever it schedules, each
    run with the browser as it is at that wake-up.  The thread ends when a
    callback schedules nothing; [Some cb] is the callback still waiting when
    the wake-ups run out. *)
Fixpoint follow (ws : list window) (cb : callback) (s : Sys) : Sys * option callback :=
  match ws with
  | [] => (s, Some cb)
  | w :: ws' =>
      let o := run_callback w cb s in
      match scheduled o with
      | [] => (after o, None)
      | (_, cb') :: _ => follow ws' cb' (after o)
      end
  end.

Definition follow_outcome (ws : list window) (o : outcome) : Sys * option callback :=
  match scheduled o with
  | [] => (after o, None)
  | (_, cb) :: _ => follow ws cb (after o)
  end.

(** The watcher, started on [s] and woken at each of [ws]. *)
Definition watch (ws : list window) (s : Sys) : Sys * option callback :=
  follow_outcome ws (keepParentInformedAboutDimensionChanges s).

(** A [ui] instruction handled at [w0], and its retries at [ws]. *)
Definition ui_instruction (w0 : window) (ws : list window) (uiConfig : UiConfig) (s : Sys)
  : Sys * option callback :=
  follow_outcome ws (methods_ui w0 (Some uiConfig) s).

(** The [dimension-changed] events among the events fired. *)
Definition is_dimension_changed (e : sdk_event) : bool :=
  match e with
  | dimension_changed _ _ _ => true
  | _ => false
  end.

Definition dimension_events (l : list sdk_event) : list sdk_event :=
  List.filter is_dimension_changed l.


(** ** Runs and inputs used in the statements *)

(** Further calls of [getNamespace], each in the runtime (and with the URL)
    of its moment. *)
Definition getNamespace_calls (rs : list runtime) (s : Sys) : Sys :=
  foldl (fun s r => (getNamespace r s).2) s rs.

(** A document inside an iframe, fully loaded, in a browser that is not
    Safari: its query string, its plan flag and its height. *)
Definition example_window (query : list (string * string)) (plan : jsval) (h : Z) : window :=
  {| userAgent := "Mozilla/5.0 Chrome/100.0";
     documentURL := "https://cal.com/pro/30min";
     searchParams := query;
     isTop := false;
     CalComPageStatus := JStr "200";
     CalComPlan := plan;
     readyState := "complete";
     scrollHeight := h; scrollWidth := 640;
     offsetHeight := h; offsetWidth := 640 |}.

(** ** Predicates used in the statements *)

(** What "unchanged" means for the two identity fields between two states:
    the theme is the same, and so is the namespace if it was resolved. *)
Definition identity_kept (s s' : Sys) : Prop :=
  theme (store s') = theme (store s) ∧
  (isValidNamespace (namespace (store s)) = true →
   namespace (store s') = namespace (store s)) ∧
  (namespace (store s') = JUndefined → namespace (store s) = JUndefined).


(** A document in which the protocol has not been started: no listener, no
    bus handler, nothing scheduled, nothing fired, nothing posted. *)
Definition quiet (W : World) : Prop :=
  messageListener (sys W) = false ∧
  wildcardHandler (sys W) = false ∧
  pending W = [] ∧
  fired (sys W) = [] ∧
  posted (sys W) = [].

(** The state with the log queue and the console left out. *)
Definition without_logs (s : Sys) : Sys := set_console [] (set_logQueue [] s).

(** Instructions can only arrive, and retries can only be pending, in a
    document whose namespace has been resolved. *)
Definition resolved_if_active (W : World) : Prop :=
  (messageListener (sys W) = false ∧ pending W = []) ∨
  isValidNamespace (namespace (store (sys W))) = true.

(** The wire message [{originator: "CAL", method: name, arg: a}]. *)
Definition cal_message (name : string) (a : option UiConfig) : message_data :=
  {| originator := JStr "CAL"; method := JStr name; arg := a |}.

(** [uiConfig] with another [theme]. *)
Definition with_theme (t : string) (c : UiConfig) : UiConfig :=
  {| ui_theme := t; ui_styles := ui_styles c |}.

(** The merge of a broadcast as the specification words it, "shallow merge
    per target, last-write-wins per attribute": a target of both
    configurations keeps the attributes of both, the new ones winning. *)
Definition merge_styles_spec (stored newStyles : EmbedStyles) : EmbedStyles :=
  union_with (fun new old => Some (new ∪ old)) newStyles stored.

(** The state of the component that owns [setter], which starts as
    [useState({})] and takes every action its setter has been called with. *)
Definition component_state (setter : nat) (calls : list (nat * SetStateAction)) : EmbedStyles :=
  foldl (fun st call => if Nat.eqb call.1 setter then apply_action call.2 st else st) ∅ calls.

(** The setters [setEmbedStyles] finds in the registry. *)
Definition registered (setter : nat) (s : Sys) : Prop :=
  setter ∈ (reactStylesStateSetters (store s)).*2.

(** What a [ui] instruction may touch: the stored styles, the registry,
    the background of the body, and the calls of the setters. *)
Definition style_view (s : Sys)
  : EmbedStyles * list (string * nat) * option string * list (nat * SetStateAction) :=
  (styles (store s), reactStylesStateSetters (store s), body_background s, setterCalls s).

(** Nothing of the styles has been touched, and nothing has been fired or
    posted, between [s] and [s']. *)
Definition untouched (s s' : Sys) : Prop :=
  style_view s' = style_view s ∧ fired s' = fired s ∧ posted s' = posted s.

(** The plan flag is not set: [!window.CalComPlan]. *)
Definition plan_unset (w : window) : Prop := truthy (CalComPlan w) = false.

(** ** The watcher's samples *)

(** The document is fully loaded at the wake-up. *)
Definition loaded (w : window) : Prop := readyState w = "complete".

(** What the watcher measures at a sample: the scroll size the first time,
    the offset size afterwards. *)
Definition sample_height (first : bool) (w : window) : Z :=
  if first then scrollHeight w else offsetHeight w.

Definition sample_width (first : bool) (w : window) : Z :=
  if first then scrollWidth w else offsetWidth w.

(** The heights measured over consecutive samples, the first being the
    first sample of the watcher. *)
Definition measured (ws : list window) : list Z :=
  match ws with
  | [] => []
  | w :: ws' => sample_height true w :: map (sample_height false) ws'
  end.

(** The measured height changes on every sample: each one differs from the
    height known from the sample before ([known], at first [null]). *)
Fixpoint changes_every_sample (known : option Z) (first : bool) (ws : list window) : Prop :=
  match ws with
  | [] => True
  | w :: ws' =>
      known ≠ Some (sample_height first w) ∧
      changes_every_sample (Some (sample_height first w)) false ws'
  end.

(** The watcher is past its two gates when [cb] runs on [s]. *)
Definition sampling (cb : callback) (s : Sys) : Prop :=
  cb = CbWindowLoadSettled ∨
  (cb = CbInformAboutScroll ∧ isWindowLoadComplete (watcher s) = true).

(** A callback of the watcher. *)
Definition of_watcher (cb : callback) : Prop :=
  cb = CbInformAboutScroll ∨ cb = CbWindowLoadSettled.

Definition too_many_warning : console_line :=
  ConsoleWarn "Too many dimension changes detected.".

(** The body of [informAboutScroll] past its two gates, block by block: the
    [windowLoadComplete] event (fired once), the measurement and the report,
    and the test of the counter. *)
Definition announce_load (w : window) (s : Sys) : Sys :=
  set_windowLoadEventFired true
    (if negb (windowLoadEventFired (store s)) then fire w windowLoadComplete s else s).

Definition measure_and_report (w : window) (s : Sys) : Sys :=
  let first := isFirstTime (watcher s) in
  let iframeHeight := if first then scrollHeight w else offsetHeight w in
  let iframeWidth := if first then scrollWidth w else offsetWidth w in
  let s3 := set_parentInformedAboutContentHeight true s in
  let s4 :=
    if decide (knownIframeHeight (watcher s3) = Some iframeHeight) then s3
    else
      fire w (dimension_changed iframeHeight iframeWidth first)
        (set_numDimensionChanges (S (numDimensionChanges (watcher s3)))
           (set_knownIframeHeight (Some iframeHeight) s3)) in
  set_isFirstTime false s4.

Definition reschedule_or_stop (s : Sys) : outcome :=
  if Nat.ltb 50 (numDimensionChanges (watcher s)) then
    finished (set_console (console s ++ [ConsoleWarn "Too many dimension changes detected."]) s)
  else
    later s (runAsap s CbInformAboutScroll).

(** A document that grows by one pixel at every wake-up: the wake-up that
    arms the watcher, then samples of heights [1], [2], ..., [n]. *)
Definition growing_document (n : nat) : list window :=
  map (fun k => example_window [("embed", "abc")] JUndefined (Z.of_nat k)) (seq 0 (S n)).

(** The number of [dimension-changed] events fired so far. *)
Definition dimension_changes_fired (s : Sys) : nat :=
  length (dimension_events (fired s)).

(** ** The readiness handshake *)

Definition is_linkReady (e : sdk_event) : bool :=
  match e with
  | linkReady => true
  | _ => false
  end.

(** How many times [linkReady] has been fired. *)
Definition linkReady_fired (s : Sys) : nat :=
  length (List.filter is_linkReady (fired s)).

Definition is_poll (t : task) : bool :=
  match t.2 with
  | CbTryInformingLinkReady => true
  | _ => false
  end.

Definition is_unhide (t : task) : bool :=
  match t.2 with
  | CbUnhideBody => true
  | _ => false
  end.

Definition count_tasks (p : task → bool) (l : list task) : nat :=
  length (List.filter p l).

(** The event is the arrival of a [parentKnowsIframeReady] instruction. *)
Definition is_parentKnowsIframeReady (a : action) : bool :=
  match a with
  | Message (Some d) =>
      is_str "CAL" (originator d) && is_str "parentKnowsIframeReady" (method d)
  | _ => false
  end.

(** How many [parentKnowsIframeReady] instructions the events deliver. *)
Definition instructions_received (evs : list (window * action)) : nat :=
  length (List.filter (fun ev : window * action => is_parentKnowsIframeReady ev.2) evs).

(** What a callback leaves alone as far as the handshake goes: the listener
    and the display of the body stay, and the acknowledgement flag is not
    taken back. *)
Definition handshake_frame (s s' : Sys) : Prop :=
  messageListener s' = messageListener s ∧
  body_display s' = body_display s ∧
  (parentInformedAboutContentHeight (store s) = true →
   parentInformedAboutContentHeight (store s') = true).

(** The invariant of the handshake, [n] being the number of
    [parentKnowsIframeReady] instructions received so far: every [linkReady]
    fired and every poll still pending stems from one of them, and the body
    is unhidden, or about to be, only after a [linkReady] fired with the
    acknowledgement flag set. *)
Definition handshake_inv (n : nat) (W : World) : Prop :=
  (linkReady_fired (sys W) + count_tasks is_poll (pending W) ≤ n)%nat ∧
  ((body_display (sys W) ≠ None ∨ (0 < count_tasks is_unhide (pending W))%nat) →
   (1 ≤ linkReady_fired (sys W))%nat ∧
   parentInformedAboutContentHeight (store (sys W)) = true) ∧
  (body_display (sys W) = None ∨ body_display (sys W) = Some "block").

(** ** The hooks of the UI layer *)

(** What [useEmbedStyles(elementName)] and [useEmbedBranding(elementName)]
    return in the component that owns [setStyles], once their effect has
    registered it: [styles[elementName] || {}] of the component's state. *)
Definition useEmbedStyles (elementName : string) (setStyles : nat) (s : Sys) : CSSProps :=
  slice elementName (component_state setStyles (setterCalls s)).

(** [useIsBackgroundTransparent()]:
    [bodyEmbedStyles?.background === "transparent"]. *)
Definition useIsBackgroundTransparent (setStyles : nat) (s : Sys) : bool :=
  match useEmbedStyles "body" setStyles s !! "background" with
  | Some bg => String.eqb bg "transparent"
  | None => false
  end.

(** [useBrandColors()]. *)
Definition useBrandColors (setStyles : nat) (s : Sys) : CSSProps :=
  useEmbedStyles "branding" setStyles s.

(** ** Predicates of the further properties *)

Definition is_windowLoadComplete (e : sdk_event) : bool :=
  match e with
  | windowLoadComplete => true
  | _ => false
  end.

(** No [linkReady] stands in [l] before the first [dimension-changed]. *)
Definition linkReady_after_dimensions (l : list sdk_event) : Prop :=
  ∀ l1 l2, l = l1 ++ linkReady :: l2 → ∃ e, e ∈ l1 ∧ is_dimension_changed e = true.

(** The callback belongs to the dimension watcher. *)
Definition is_watcher_task (t : task) : bool :=
  match t.2 with
  | CbInformAboutScroll | CbWindowLoadSettled => true
  | _ => false
  end.

(** The [isFirstTime] field of a [dimension-changed] event. *)
Definition event_isFirstTime (e : sdk_event) : bool :=
  match e with
  | dimension_changed _ _ first => first
  | _ => false
  end.

(** The height reported by a [dimension-changed] event. *)
Definition event_height (e : sdk_event) : option Z :=
  match e with
  | dimension_changed h _ _ => Some h
  | _ => None
  end.

(** The names under which a setter is registered are pairwise distinct. *)
Definition registry_keys_distinct (s : Sys) : Prop :=
  NoDup (reactStylesStateSetters (store s)).*1.

(** How many times [windowLoadComplete] has been fired. *)
Definition windowLoadComplete_fired (s : Sys) : nat :=
  length (List.filter is_windowLoadComplete (fired s)).

(** What holds of the state of a document in which the protocol has been
    started: the bus handler is installed and has forwarded every event
    fired; [windowLoadComplete] has been fired at most once, and not at all
    while its flag is unset; the acknowledgement flag is set only once a
    height is known, a height is known only once a [dimension-changed] event
    has been fired, and no [linkReady] stands before the first of them. *)
Definition protocol_inv (s : Sys) : Prop :=
  wildcardHandler s = true ∧
  posted s = fired s ∧
  (windowLoadEventFired (store s) = false → windowLoadComplete_fired s = 0%nat) ∧
  (windowLoadComplete_fired s ≤ 1)%nat ∧
  (parentInformedAboutContentHeight (store s) = true →
   knownIframeHeight (watcher s) ≠ None) ∧
  (knownIframeHeight (watcher s) ≠ None →
   ∃ e, e ∈ fired s ∧ is_dimension_changed e = true) ∧
  linkReady_after_dimensions (fired s).

(** The [dimension-changed] events fired so far, [l], against the watcher's
    variables: before the first report the watcher is at its first time and
    knows no height; afterwards it is past its first time and the height it
    knows is the last one reported; the first report, and no later one,
    carries [isFirstTime = true]; and no two consecutive reports carry the
    same height. *)
Definition reports_ok (l : list sdk_event) (known : option Z) (first : bool) : Prop :=
  (l = [] → first = true ∧ known = None) ∧
  (l ≠ [] → first = false ∧ known = last l ≫= event_height) ∧
  (∀ e, head l = Some e → event_isFirstTime e = true) ∧
  (∀ i e, l !! S i = Some e → event_isFirstTime e = false) ∧
  (∀ i a b, l !! i = Some a → l !! S i = Some b → event_height a ≠ event_height b).

Definition report_inv (s : Sys) : Prop :=
  reports_ok (dimension_events (fired s))
             (knownIframeHeight (watcher s)) (isFirstTime (watcher s)).

(** A document whose page failed to load: [e] is all that was ever fired,
    the acknowledgement flag is unset, the display of the body is as the
    bootstrap left it, and neither the watcher nor [unhideBody] is
    scheduled. *)
Definition failed_inv (e : sdk_event) (display : option string) (W : World) : Prop :=
  fired (sys W) = [e] ∧
  parentInformedAboutContentHeight (store (sys W)) = false ∧
  body_display (sys W) = display ∧
  count_tasks is_watcher_task (pending W) = 0%nat ∧
  count_tasks is_unhide (pending W) = 0%nat.

(** No style has ever been applied: the store holds none, the background of
    the body has not been set, and every setter has only ever been handed
    the empty styles. *)
Definition no_style_applied (s : Sys) : Prop :=
  styles (store s) = ∅ ∧
  body_background s = None ∧
  Forall (fun call : nat * SetStateAction => call.2 = SetValue ∅) (setterCalls s).

(** [searchParams.get("debug")] is truthy: [log] also prints to the console. *)
Definition debug (w : window) : bool :=
  truthy (searchParams_get "debug" (searchParams w)).

(** An entry of the log queue as [log] builds it: ["CAL:"] first, the
    [{ns, url}] record last. *)
Definition tagged (entry : list log_arg) : Prop :=
  ∃ args ns url, entry = LText TextCAL :: args ++ [LMeta ns url].

(** The arguments of the [console.log] calls among the lines of the console. *)
Definition printed (lines : list console_line) : list (list log_arg) :=
  omap (fun l => match l with ConsoleLog e => Some e | ConsoleWarn _ => None end) lines.

(** From [s] to [s'] the log queue and the console have only grown, by
    tagged entries, each of them printed if and only if [debug] is on. *)
Definition logs_extend (w : window) (s s' : Sys) : Prop :=
  ∃ entries lines,
    logQueue s' = logQueue s ++ entries ∧
    console s' = console s ++ lines ∧
    printed lines = (if debug w then entries else []) ∧
    Forall tagged entries.

(** The timer each callback is scheduled on: the two polling loops go
    through [runAsap], the settling of the window load through
    [setTimeout(..., 10)], the others through [requestAnimationFrame]. *)
Definition timer_of (safari : bool) (cb : callback) : timer :=
  match cb with
  | CbInformAboutScroll | CbTryInformingLinkReady =>
      if safari then Timeout 50 else AnimationFrame
  | CbWindowLoadSettled => Timeout 10
  | CbUnhideBody | CbRetryUi _ => AnimationFrame
  end.

Definition paced (safari : bool) (W : World) : Prop :=
  isSafariBrowser (sys W) = safari ∧
  Forall (fun t : task => t.1 = timer_of safari t.2) (pending W).

(** * The Jitsi adapter ([jitsivideo/lib/VideoApiAdapter.ts]) *)

Module Jitsi.

Record VideoCallData := {
  type : string;
  id : string;
  password : string;
  url : string;
}.

(** [createMeeting()], with [meetingID] the string [uuidv4()] returns. *)
Definition createMeeting (meetingID : string) : VideoCallData :=
  {| type := "jitsi_video";
     id := meetingID;
     password := EmptyString;
     url := ("https://meet.jit.si/cal/" ++ meetingID)%string |}.

End Jitsi.
(** * Properties *)

Arguments store_set_styles _ _ /.
Arguments store_set_namespace _ _ /.
Arguments store_set_theme _ _ /.
Arguments store_set_reactStylesStateSetters _ _ /.
Arguments store_set_parentInformedAboutContentHeight _ _ /.
Arguments store_set_windowLoadEventFired _ _ /.
Arguments watcher_set_knownIframeHeight _ _ /.
Arguments watcher_set_numDimensionChanges _ _ /.
Arguments watcher_set_isFirstTime _ _ /.
Arguments watcher_set_isWindowLoadComplete _ _ /.
Arguments set_store _ _ /.
Arguments set_isSafariBrowser _ _ /.
Arguments set_watcher _ _ /.
Arguments set_body_display _ _ /.
Arguments set_body_background _ _ /.
Arguments set_logQueue _ _ /.
Arguments set_console _ _ /.
Arguments set_fired _ _ /.
Arguments set_posted _ _ /.
Arguments set_wildcardHandler _ _ /.
Arguments set_messageListener _ _ /.
Arguments set_setterCalls _ _ /.
Arguments set_styles _ _ /.
Arguments set_namespace _ _ /.
Arguments set_theme _ _ /.
Arguments set_reactStylesStateSetters _ _ /.
Arguments set_parentInformedAboutContentHeight _ _ /.
Arguments set_windowLoadEventFired _ _ /.
Arguments set_knownIframeHeight _ _ /.
Arguments set_numDimensionChanges _ _ /.
Arguments set_isFirstTime _ _ /.
Arguments set_isWindowLoadComplete _ _ /.
Arguments finished _ /.
Arguments later _ _ /.
Arguments throw _ _ /.
Arguments log : simpl never.
Arguments fire : simpl never.
Arguments getNamespace : simpl never.
Arguments without_logs : simpl never.

(** ** What [getNamespace], [log] and [fire] touch *)

Lemma set_namespace_same (s : Sys) : set_namespace (namespace (store s)) s = s.
Proof. by destruct s as [[] ? ? ? ? ? ? ? ? ? ? ?]. Qed.

(** [getNamespace] writes at most the [namespace] field, and only while the
    stored one is [null]. *)
Lemma getNamespace_shape (r : runtime) (s : Sys) :
  ∃ ns, (getNamespace r s).2 = set_namespace ns s ∧
        (isValidNamespace (namespace (store s)) = true →
           ns = namespace (store s) ∧ (getNamespace r s).1 = namespace (store s)) ∧
        (isValidNamespace (getNamespace r s).1 = true → (getNamespace r s).1 = ns) ∧
        (ns = JUndefined → namespace (store s) = JUndefined).
Proof.
  unfold getNamespace.
  destruct (isValidNamespace (namespace (store s))) eqn:Hv.
  - exists (namespace (store s)). rewrite set_namespace_same. naive_solver.
  - destruct r as [|w].
    + exists (namespace (store s)). rewrite set_namespace_same. naive_solver.
    + exists (searchParams_get "embed" (searchParams w)). cbn [fst snd].
      repeat split; try done.
      induction (searchParams w) as [|[k v] ps IH]; simpl; [done|].
      by destruct (String.eqb k "embed").
Qed.

Lemma log_shape (r : runtime) (args : list log_arg) (s : Sys) :
  ∃ ns q c, log r args s = set_console c (set_logQueue q (set_namespace ns s)) ∧
            (isValidNamespace (namespace (store s)) = true → ns = namespace (store s)) ∧
            (ns = JUndefined → namespace (store s) = JUndefined).
Proof.
  unfold log. destruct r as [|w].
  - exists (namespace (store s)), (logQueue s), (console s).
    split; [by destruct s as [[] ? ? ? ? ? ? ? ? ? ? ?]|naive_solver].
  - destruct (getNamespace_shape (Browser w) s) as (ns & Hs & Hval & _ & Hund).
    destruct (getNamespace (Browser w) s) as [v s1]. cbn [fst snd] in *. subst s1.
    exists ns.
    exists (logQueue s ++ [LText TextCAL :: args ++ [LMeta v (documentURL w)]]).
    exists (if truthy (searchParams_get "debug" (searchParams w))
            then console s ++ [ConsoleLog (LText TextCAL :: args ++ [LMeta v (documentURL w)])]
            else console s).
    split; [destruct (truthy _); reflexivity|].
    split; [intros Hok; by destruct (Hval Hok)|exact Hund].
Qed.

Lemma fire_shape (w : window) (e : sdk_event) (s : Sys) :
  ∃ ns q c, fire w e s =
              set_posted (if wildcardHandler s then posted s ++ [e] else posted s)
                (set_console c (set_logQueue q (set_namespace ns
                   (set_fired (fired s ++ [e]) s)))) ∧
            (isValidNamespace (namespace (store s)) = true → ns = namespace (store s)) ∧
            (ns = JUndefined → namespace (store s) = JUndefined).
Proof.
  unfold fire. set (s1 := set_fired (fired s ++ [e]) s).
  change (wildcardHandler s1) with (wildcardHandler s).
  destruct (wildcardHandler s) eqn:Hw.
  - destruct (log_shape (Browser w) [LDetail e] s1) as (ns & q & c & -> & Hv & Hu).
    exists ns, q, c. split; [reflexivity|]. done.
  - exists (namespace (store s)), (logQueue s), (console s).
    split; [by destruct s as [[] ? ? ? ? ? ? ? ? ? ? ?]|naive_solver].
Qed.

(** Replaces every [log] and [fire] in the goal by its shape, innermost first. *)
Ltac shape_one :=
  match goal with
  | |- context [fire ?w ?e ?s] =>
      lazymatch s with
      | context [fire _ _ _] => fail
      | context [log _ _ _] => fail
      | _ =>
          let ns := fresh "ns" in let q := fresh "q" in let c := fresh "c" in
          let Heq := fresh "Heq" in
          let Hv := fresh "Hvalid" in let Hu := fresh "Hundef" in
          destruct (fire_shape w e s) as (ns & q & c & Heq & Hv & Hu);
          rewrite Heq in *; clear Heq
      end
  | |- context [log ?r ?a ?s] =>
      lazymatch s with
      | context [fire _ _ _] => fail
      | context [log _ _ _] => fail
      | _ =>
          let ns := fresh "ns" in let q := fresh "q" in let c := fresh "c" in
          let Heq := fresh "Heq" in
          let Hv := fresh "Hvalid" in let Hu := fresh "Hundef" in
          destruct (log_shape r a s) as (ns & q & c & Heq & Hv & Hu);
          rewrite Heq in *; clear Heq
      end
  end.

Ltac shapes := repeat shape_one.

(** What [log] and [fire] leave alone, field by field. *)

Lemma log_styles (r : runtime) (args : list log_arg) (s : Sys) :
  styles (store (log r args s)) = styles (store s).
Proof. by shapes. Qed.

Lemma fire_styles (w : window) (e : sdk_event) (s : Sys) :
  styles (store (fire w e s)) = styles (store s).
Proof. by shapes. Qed.

Lemma log_theme (r : runtime) (args : list log_arg) (s : Sys) :
  theme (store (log r args s)) = theme (store s).
Proof. by shapes. Qed.

Lemma fire_theme (w : window) (e : sdk_event) (s : Sys) :
  theme (store (fire w e s)) = theme (store s).
Proof. by shapes. Qed.

Lemma log_reactStylesStateSetters (r : runtime) (args : list log_arg) (s : Sys) :
  reactStylesStateSetters (store (log r args s)) = reactStylesStateSetters (store s).
Proof. by shapes. Qed.

Lemma fire_reactStylesStateSetters (w : window) (e : sdk_event) (s : Sys) :
  reactStylesStateSetters (store (fire w e s)) = reactStylesStateSetters (store s).
Proof. by shapes. Qed.

Lemma log_parentInformedAboutContentHeight (r : runtime) (args : list log_arg) (s : Sys) :
  parentInformedAboutContentHeight (store (log r args s)) = parentInformedAboutContentHeight (store s).
Proof. by shapes. Qed.

Lemma fire_parentInformedAboutContentHeight (w : window) (e : sdk_event) (s : Sys) :
  parentInformedAboutContentHeight (store (fire w e s)) = parentInformedAboutContentHeight (store s).
Proof. by shapes. Qed.

Lemma log_windowLoadEventFired (r : runtime) (args : list log_arg) (s : Sys) :
  windowLoadEventFired (store (log r args s)) = windowLoadEventFired (store s).
Proof. by shapes. Qed.

Lemma fire_windowLoadEventFired (w : window) (e : sdk_event) (s : Sys) :
  windowLoadEventFired (store (fire w e s)) = windowLoadEventFired (store s).
Proof. by shapes. Qed.

Lemma log_isSafariBrowser (r : runtime) (args : list log_arg) (s : Sys) :
  isSafariBrowser (log r args s) = isSafariBrowser s.
Proof. by shapes. Qed.

Lemma fire_isSafariBrowser (w : window) (e : sdk_event) (s : Sys) :
  isSafariBrowser (fire w e s) = isSafariBrowser s.
Proof. by shapes. Qed.

Lemma log_watcher (r : runtime) (args : list log_arg) (s : Sys) :
  watcher (log r args s) = watcher s.
Proof. by shapes. Qed.

Lemma fire_watcher (w : window) (e : sdk_event) (s : Sys) :
  watcher (fire w e s) = watcher s.
Proof. by shapes. Qed.

Lemma log_body_display (r : runtime) (args : list log_arg) (s : Sys) :
  body_display (log r args s) = body_display s.
Proof. by shapes. Qed.

Lemma fire_body_display (w : window) (e : sdk_event) (s : Sys) :
  body_display (fire w e s) = body_display s.
Proof. by shapes. Qed.

Lemma log_body_background (r : runtime) (args : list log_arg) (s : Sys) :
  body_background (log r args s) = body_background s.
Proof. by shapes. Qed.

Lemma fire_body_background (w : window) (e : sdk_event) (s : Sys) :
  body_background (fire w e s) = body_background s.
Proof. by shapes. Qed.

Lemma log_wildcardHandler (r : runtime) (args : list log_arg) (s : Sys) :
  wildcardHandler (log r args s) = wildcardHandler s.
Proof. by shapes. Qed.

Lemma fire_wildcardHandler (w : window) (e : sdk_event) (s : Sys) :
  wildcardHandler (fire w e s) = wildcardHandler s.
Proof. by shapes. Qed.

Lemma log_messageListener (r : runtime) (args : list log_arg) (s : Sys) :
  messageListener (log r args s) = messageListener s.
Proof. by shapes. Qed.

Lemma fire_messageListener (w : window) (e : sdk_event) (s : Sys) :
  messageListener (fire w e s) = messageListener s.
Proof. by shapes. Qed.

Lemma log_setterCalls (r : runtime) (args : list log_arg) (s : Sys) :
  setterCalls (log r args s) = setterCalls s.
Proof. by shapes. Qed.

Lemma fire_setterCalls (w : window) (e : sdk_event) (s : Sys) :
  setterCalls (fire w e s) = setterCalls s.
Proof. by shapes. Qed.

Lemma log_fired (r : runtime) (args : list log_arg) (s : Sys) :
  fired (log r args s) = fired s.
Proof. by shapes. Qed.

Lemma log_posted (r : runtime) (args : list log_arg) (s : Sys) :
  posted (log r args s) = posted s.
Proof. by shapes. Qed.

Lemma fire_fired (w : window) (e : sdk_event) (s : Sys) :
  fired (fire w e s) = fired s ++ [e].
Proof. by shapes. Qed.

Lemma fire_posted (w : window) (e : sdk_event) (s : Sys) :
  posted (fire w e s) = if wildcardHandler s then posted s ++ [e] else posted s.
Proof. by shapes. Qed.

Create Rewrite HintDb sys.
#[local] Hint Rewrite
  log_styles
  fire_styles
  log_theme
  fire_theme
  log_reactStylesStateSetters
  fire_reactStylesStateSetters
  log_parentInformedAboutContentHeight
  fire_parentInformedAboutContentHeight
  log_windowLoadEventFired
  fire_windowLoadEventFired
  log_isSafariBrowser
  fire_isSafariBrowser
  log_watcher
  fire_watcher
  log_body_display
  fire_body_display
  log_body_background
  fire_body_background
  log_wildcardHandler
  fire_wildcardHandler
  log_messageListener
  fire_messageListener
  log_setterCalls
  fire_setterCalls
  log_fired
  log_posted
  fire_fired
  fire_posted : sys.

Ltac sys_simpl := repeat (progress (cbn; autorewrite with sys)).

(** ** The namespace resolver *)

Lemma getNamespace_cached (r : runtime) (s : Sys) :
  isValidNamespace (namespace (store s)) = true →
  getNamespace r s = (namespace (store s), s).
Proof. intros Hv. unfold getNamespace. by rewrite Hv. Qed.

Lemma getNamespace_calls_cached (rs : list runtime) (s : Sys) :
  isValidNamespace (namespace (store s)) = true →
  getNamespace_calls rs s = s.
Proof.
  intros Hv. induction rs as [|r rs IH]; [done|].
  unfold getNamespace_calls in *. simpl. by rewrite getNamespace_cached.
Qed.

Lemma searchParams_get_not_undefined (name : string) (ps : list (string * string)) :
  searchParams_get name ps ≠ JUndefined.
Proof.
  induction ps as [|[k v] ps IH]; simpl; [done|]. by destruct (String.eqb k name).
Qed.

(** C5, as stated, fails: a first call on a URL without [embed] returns
    [null], and the next call, after the URL has gained [?embed=foo], returns
    ["foo"] instead of the first result. *)
Lemma getNamespace_null_is_not_cached :
  let w1 := example_window [] JUndefined 500 in
  let w2 := example_window [("embed", "foo")] JUndefined 500 in
  let first := getNamespace (Browser w1) Sys_init in
  let second := getNamespace (Browser w2) first.2 in
  first.1 = JNull ∧ second.1 = JStr "foo" ∧ second.1 ≠ first.1.
Proof. vm_compute. repeat split; discriminate. Qed.

(** C5, amended: the first call of the namespace resolver in a document
    parses the [embed] query parameter and stores the result; when that
    result is not [null], every later call returns it, whatever the URL (or
    runtime) has become, and leaves the state alone; when it is [null], the
    stored namespace is [null] as before, and the next call parses the URL
    of its own moment. *)
Theorem getNamespace_first_call_caches_non_null (w : window) (s : Sys) :
  isValidNamespace (namespace (store s)) = false →
  let first := getNamespace (Browser w) s in
  first.1 = searchParams_get "embed" (searchParams w) ∧
  first.2 = set_namespace first.1 s ∧
  (first.1 ≠ JNull →
   ∀ (rs : list runtime) (r : runtime),
     getNamespace r (getNamespace_calls rs first.2) = (first.1, first.2)) ∧
  (first.1 = JNull →
   ∀ w' : window,
     (getNamespace (Browser w') first.2).1 = searchParams_get "embed" (searchParams w')).
Proof.
  intros Hv first.
  set (ns := searchParams_get "embed" (searchParams w)).
  assert (first = (ns, set_namespace ns s)) as ->.
  { subst first. unfold getNamespace. by rewrite Hv. }
  cbn [fst snd]. repeat split.
  - intros Hnn rs r.
    assert (isValidNamespace (namespace (store (set_namespace ns s))) = true) as Hv'.
    { simpl. pose proof (searchParams_get_not_undefined "embed" (searchParams w)) as Hu.
      fold ns in Hu. by destruct ns. }
    rewrite getNamespace_calls_cached by done. by rewrite getNamespace_cached.
  - intros Hn w'. unfold getNamespace. simpl. by rewrite Hn.
Qed.

Lemma getNamespace_first_call_caches_non_null_witness :
  let w := example_window [("embed", "foo")] JUndefined 500 in
  let w' := example_window [("embed", "bar")] JUndefined 500 in
  getNamespace (Browser w') (getNamespace_calls [Browser w'; Server] (getNamespace (Browser w) Sys_init).2)
  = (JStr "foo", set_namespace (JStr "foo") Sys_init).
Proof.
  intros w w'.
  apply (proj1 (proj2 (proj2 (getNamespace_first_call_caches_non_null w Sys_init eq_refl)))).
  vm_compute. discriminate.
Defined.

(** ** The namespace and the theme in the store *)

Ltac identity_crush :=
  unfold identity_kept;
  repeat first [ progress shapes | case_match ];
  simpl in *; repeat split; intros; simplify_eq; try done; naive_solver.

Lemma identity_kept_refl (s : Sys) : identity_kept s s.
Proof. by unfold identity_kept. Qed.

Lemma identity_kept_trans (s1 s2 s3 : Sys) :
  identity_kept s1 s2 → identity_kept s2 s3 → identity_kept s1 s3.
Proof.
  unfold identity_kept. intros (Ht & Hn & Hu) (Ht' & Hn' & Hu').
  split; [congruence|]. split.
  - intros Hv. rewrite Hn'; [by apply Hn|]. by rewrite Hn.
  - auto.
Qed.

Lemma methods_ui_identity (w : window) (c : option UiConfig) (s : Sys) :
  identity_kept s (after (methods_ui w c s)).
Proof. unfold methods_ui, setEmbedStyles. identity_crush. Qed.

Lemma run_callback_identity (w : window) (cb : callback) (s : Sys) :
  identity_kept s (after (run_callback w cb s)).
Proof.
  destruct cb; simpl; try apply methods_ui_identity.
  - unfold run_informAboutScroll. identity_crush.
  - unfold run_windowLoadSettled, run_informAboutScroll. identity_crush.
  - unfold run_tryInformingLinkReady. identity_crush.
  - by unfold identity_kept.
Qed.

Lemma call_method_identity (w : window) (name : string) (a : option UiConfig) (s : Sys) :
  identity_kept s (after (call_method w name a s)).
Proof.
  unfold call_method.
  destruct (String.eqb name "ui"); [apply methods_ui_identity|].
  destruct (String.eqb name "parentKnowsIframeReady").
  - unfold methods_parentKnowsIframeReady. identity_crush.
  - repeat case_match; apply identity_kept_refl.
Qed.

Lemma on_message_identity (w : window) (data : option message_data) (s : Sys) :
  identity_kept s (after (on_message w data s)).
Proof.
  unfold on_message. repeat case_match; simpl;
    try apply identity_kept_refl. apply call_method_identity.
Qed.

Lemma isEmbed_identity (r : runtime) (s : Sys) : identity_kept s (isEmbed r s).2.
Proof.
  unfold isEmbed. destruct (getNamespace_shape r s) as (ns & Hs & Hval & _ & Hund).
  destruct (getNamespace r s) as [v s1]. cbn [fst snd] in *. subst s1.
  unfold identity_kept. simpl. split; [done|]. split; [|exact Hund].
  intros Hok. by destruct (Hval Hok).
Qed.

(** Every event of the document leaves a resolved namespace and a truthy
    theme as they are. *)
Lemma step_identity (w : window) (a : action) (W : World) :
  (isValidNamespace (namespace (store (sys W))) = true →
   namespace (store (sys (step w a W))) = namespace (store (sys W))) ∧
  (truthy (theme (store (sys W))) = true →
   theme (store (sys (step w a W))) = theme (store (sys W))) ∧
  (namespace (store (sys (step w a W))) = JUndefined →
   namespace (store (sys W)) = JUndefined).
Proof.
  destruct a as [i|data|q| |name setter|name]; simpl.
  - destruct (pending W !! i) as [[t cb]|]; [|done]. simpl.
    destruct (run_callback_identity w cb (sys W)) as (? & ? & ?). naive_solver.
  - destruct (messageListener (sys W)); [|done]. simpl.
    destruct (on_message_identity w data (sys W)) as (? & ? & ?). naive_solver.
  - unfold useEmbedTheme. destruct (truthy (theme (store (sys W)))); simpl; done.
  - destruct (isEmbed_identity (Browser w) (sys W)) as (? & ? & ?). naive_solver.
  - done.
  - done.
Qed.

Lemma run_identity (evs : list (window * action)) (W : World) :
  (isValidNamespace (namespace (store (sys W))) = true →
   namespace (store (sys (run evs W))) = namespace (store (sys W))) ∧
  (truthy (theme (store (sys W))) = true →
   theme (store (sys (run evs W))) = theme (store (sys W))) ∧
  (namespace (store (sys (run evs W))) = JUndefined →
   namespace (store (sys W)) = JUndefined).
Proof.
  revert W. induction evs as [|[w a] evs IH]; intros W; [done|].
  unfold run in *. simpl.
  destruct (IH (step w a W)) as (IHn & IHt & IHu).
  destruct (step_identity w a W) as (Hn & Ht & Hu).
  repeat split.
  - intros Hv. rewrite IHn; [by apply Hn|]. by rewrite Hn.
  - intros Hv. rewrite IHt; [by apply Ht|]. by rewrite Ht.
  - auto.
Qed.

Lemma run_app (evs1 evs2 : list (window * action)) (W : World) :
  run (evs1 ++ evs2) W = run evs2 (run evs1 W).
Proof. unfold run. apply foldl_app. Qed.

Lemma bootstrap_identity (w : window) (s : Sys) : identity_kept s (after (bootstrap w s)).
Proof.
  unfold bootstrap.
  destruct (negb _); [|apply identity_kept_refl].
  pose proof (isEmbed_identity (Browser w) s) as Hi.
  destruct (isEmbed (Browser w) s) as [embedded s1]. cbn [snd] in Hi.
  destruct embedded; [|done].
  eapply identity_kept_trans; [exact Hi|]. clear Hi.
  unfold keepParentInformedAboutDimensionChanges, unhideBody. identity_crush.
Qed.

(** The stored namespace is never [undefined]. *)
Lemma module_init_namespace_defined (r : runtime) :
  namespace (store (sys (module_init r))) ≠ JUndefined.
Proof.
  destruct r as [|w]; [done|]. unfold module_init. cbn [enqueue sys].
  intros Hu. apply bootstrap_identity in Hu. revert Hu.
  destruct (isSafariBrowser _); [|done].
  shapes. simpl in *. naive_solver.
Qed.

Lemma reachable_namespace_defined (r : runtime) (evs : list (window * action)) :
  namespace (store (sys (run evs (module_init r)))) ≠ JUndefined.
Proof.
  intros Hu. apply run_identity in Hu. by apply module_init_namespace_defined in Hu.
Qed.

(** C8, as stated, fails for the theme: a document opened with [?theme=]
    stores the empty string, which is not [null]; when the router's query
    later says [theme=dark], the next [useEmbedTheme] stores ["dark"]. *)
Lemma empty_theme_is_replaced :
  let w := example_window [("embed", "abc"); ("theme", "")] JUndefined 500 in
  let W1 := run [(w, CallUseEmbedTheme (JStr ""))] (module_init (Browser w)) in
  let W2 := run [(w, CallUseEmbedTheme (JStr "dark"))] W1 in
  theme (store (sys W1)) = JStr "" ∧
  theme (store (sys W1)) ≠ JNull ∧
  theme (store (sys W2)) = JStr "dark" ∧
  theme (store (sys W2)) ≠ theme (store (sys W1)).
Proof. vm_compute. repeat split; discriminate. Qed.

(** C8, amended: over every sequence of events of a document, once the
    namespace field is not [null] it never changes again, and once the theme
    field is truthy (a non-empty string) it never changes again; a theme that
    is the empty string is resolved anew by the next [useEmbedTheme]. *)
Theorem namespace_and_truthy_theme_are_stable
    (r : runtime) (before later : list (window * action)) :
  let W1 := run before (module_init r) in
  let W2 := run later W1 in
  (namespace (store (sys W1)) ≠ JNull →
   namespace (store (sys W2)) = namespace (store (sys W1))) ∧
  (truthy (theme (store (sys W1))) = true →
   theme (store (sys W2)) = theme (store (sys W1))) ∧
  (theme (store (sys W1)) = JStr "" →
   ∀ (w : window) (q : jsval),
     theme (store (sys (step w (CallUseEmbedTheme q) W1))) = q).
Proof.
  intros W1 W2. destruct (run_identity later W1) as (Hn & Ht & _).
  repeat split; [|done|].
  - intros Hnn. apply Hn.
    pose proof (reachable_namespace_defined r before) as Hd. fold W1 in Hd.
    by destruct (namespace (store (sys W1))).
  - intros He w q. simpl. unfold useEmbedTheme. by rewrite He.
Qed.

Lemma namespace_and_truthy_theme_are_stable_witness :
  let w := example_window [("embed", "abc"); ("theme", "dark")] JUndefined 500 in
  let w' := example_window [("embed", "xyz"); ("theme", "light")] JUndefined 500 in
  let W1 := run [(w, CallUseEmbedTheme (JStr "dark"))] (module_init (Browser w)) in
  let W2 := run [(w', CallIsEmbed); (w', CallUseEmbedTheme (JStr "light"))] W1 in
  namespace (store (sys W2)) = JStr "abc" ∧ theme (store (sys W2)) = JStr "dark".
Proof.
  intros w w' W1 W2.
  pose proof (namespace_and_truthy_theme_are_stable (Browser w)
                [(w, CallUseEmbedTheme (JStr "dark"))]
                [(w', CallIsEmbed); (w', CallUseEmbedTheme (JStr "light"))])
    as (Hn & Ht & _).
  split.
  - apply Hn. vm_compute. discriminate.
  - apply Ht. vm_compute. reflexivity.
Defined.

(** ** Prerendering *)

Lemma quiet_step (w : window) (a : action) (W : World) :
  quiet W → quiet (step w a W).
Proof.
  unfold quiet. intros (Hl & Hh & Hp & Hf & Hm).
  destruct a as [i|data|q| |name setter|name]; simpl.
  - by rewrite Hp.
  - by rewrite Hl.
  - unfold useEmbedTheme. by destruct (truthy _).
  - unfold isEmbed. destruct (getNamespace_shape (Browser w) (sys W)) as (ns & Hs & _).
    destruct (getNamespace (Browser w) (sys W)) as [v s1]. cbn [fst snd] in *. by subst s1.
  - done.
  - done.
Qed.

Lemma quiet_run (evs : list (window * action)) (W : World) :
  quiet W → quiet (run evs W).
Proof.
  revert W. induction evs as [|[w a] evs IH]; intros W HW; [done|].
  apply IH. by apply quiet_step.
Qed.

Lemma module_init_prerender_quiet (w0 : window) :
  searchParams_get "prerender" (searchParams w0) = JStr "true" →
  quiet (module_init (Browser w0)).
Proof.
  intros Hp. unfold module_init, bootstrap. rewrite Hp. simpl.
  destruct (detectSafari w0); [|done].
  shapes. by unfold quiet.
Qed.

(** C9: when the URL of the document carries [prerender=true], the bootstrap
    of the embed protocol is skipped as a whole (no message listener, no
    handler on the event bus, no watcher or other callback scheduled, no
    event fired), and whatever happens in the document afterwards, no message
    is ever posted to the parent. *)
Theorem prerender_suppresses_the_protocol (w0 : window) (evs : list (window * action)) :
  searchParams_get "prerender" (searchParams w0) = JStr "true" →
  let W := run evs (module_init (Browser w0)) in
  posted (sys W) = [] ∧
  fired (sys W) = [] ∧
  messageListener (sys W) = false ∧
  wildcardHandler (sys W) = false ∧
  pending W = [].
Proof.
  intros Hp W.
  destruct (quiet_run evs _ (module_init_prerender_quiet w0 Hp)) as (? & ? & ? & ? & ?).
  done.
Qed.

(** ** The [ui] instruction and the identity fields *)

Lemma without_logs_getNamespace (r : runtime) (s : Sys) :
  without_logs (getNamespace r s).2 = (getNamespace r (without_logs s)).2.
Proof.
  unfold getNamespace. simpl.
  destruct (isValidNamespace (namespace (store s))); [done|]. by destruct r.
Qed.

Lemma without_logs_log (r : runtime) (args : list log_arg) (s : Sys) :
  without_logs (log r args s) = (getNamespace r (without_logs s)).2.
Proof.
  rewrite <- without_logs_getNamespace. unfold log. destruct r as [|w].
  - unfold getNamespace. by destruct (isValidNamespace _).
  - destruct (getNamespace (Browser w) s) as [v s1]. by destruct (truthy _).
Qed.

Lemma without_logs_idemp (s : Sys) : without_logs (without_logs s) = without_logs s.
Proof. done. Qed.

Lemma without_logs_setEmbedStyles (st : EmbedStyles) (s : Sys) :
  without_logs (setEmbedStyles st s) = setEmbedStyles st (without_logs s).
Proof. done. Qed.

Lemma without_logs_set_body_background (b : option string) (s : Sys) :
  without_logs (set_body_background b s) = set_body_background b (without_logs s).
Proof. done. Qed.

(** Apart from what it logs and from the closure it schedules, [methods.ui]
    depends on the [styles] of its argument only. *)
Lemma methods_ui_theme_ignored (w : window) (c : UiConfig) (t : string) (s : Sys) :
  without_logs (after (methods_ui w (Some (with_theme t c)) s))
  = without_logs (after (methods_ui w (Some c) s)) ∧
  thrown (methods_ui w (Some (with_theme t c)) s) = thrown (methods_ui w (Some c) s) ∧
  (scheduled (methods_ui w (Some (with_theme t c)) s)).*1
  = (scheduled (methods_ui w (Some c) s)).*1.
Proof.
  unfold methods_ui. cbn [with_theme ui_styles].
  destruct (truthy (CalComPlan w) && negb (is_str "PRO" (CalComPlan w)));
    cbn [after thrown scheduled finished later throw].
  - repeat split. by rewrite !without_logs_log.
  - destruct (negb (truthy (CalComPlan w)));
      cbn [after thrown scheduled finished later throw].
    + repeat split. by rewrite !without_logs_log.
    + repeat split. rewrite !without_logs_setEmbedStyles.
      destruct (body_background_of (ui_styles c));
        rewrite ?without_logs_set_body_background, !without_logs_log; done.
Qed.

Lemma resolved_if_active_step (w : window) (a : action) (W : World) :
  resolved_if_active W → resolved_if_active (step w a W).
Proof.
  intros [[Hl Hp]|Hv].
  - destruct a as [i|data|q| |name setter|name]; simpl.
    + rewrite Hp. by left.
    + rewrite Hl. by left.
    + left. unfold useEmbedTheme. by destruct (truthy _).
    + left. unfold isEmbed.
      destruct (getNamespace_shape (Browser w) (sys W)) as (ns & Hs & _).
      destruct (getNamespace (Browser w) (sys W)) as [v s1]. cbn [fst snd] in *. by subst s1.
    + by left.
    + by left.
  - right. destruct (step_identity w a W) as (Hn & _). by rewrite Hn.
Qed.

Lemma resolved_if_active_run (evs : list (window * action)) (W : World) :
  resolved_if_active W → resolved_if_active (run evs W).
Proof.
  revert W. induction evs as [|[w a] evs IH]; intros W HW; [done|].
  apply IH. by apply resolved_if_active_step.
Qed.

Lemma getNamespace_valid_stored (r : runtime) (s : Sys) :
  isValidNamespace (getNamespace r s).1 = true →
  isValidNamespace (namespace (store (getNamespace r s).2)) = true.
Proof.
  unfold getNamespace. destruct (isValidNamespace (namespace (store s))) eqn:Hv; [done|].
  by destruct r.
Qed.

Lemma resolved_if_active_init (r : runtime) : resolved_if_active (module_init r).
Proof.
  destruct r as [|w]; [by left|].
  unfold module_init. cbn [enqueue]. set (s2 := if isSafariBrowser _ then _ else _).
  assert (messageListener s2 = false) as Hl.
  { subst s2. destruct (isSafariBrowser _); [|done]. by shapes. }
  clearbody s2. unfold bootstrap.
  destruct (negb _); [|by left].
  unfold isEmbed. pose proof (getNamespace_valid_stored (Browser w) s2) as Hv.
  destruct (getNamespace_shape (Browser w) s2) as (ns & Hs & _).
  destruct (getNamespace (Browser w) s2) as [v s1]. cbn [fst snd] in *.
  destruct (isValidNamespace v); [|left; by subst s1].
  right. specialize (Hv eq_refl). clear Hs.
  unfold keepParentInformedAboutDimensionChanges, unhideBody.
  repeat first [ progress shapes | case_match ]; simpl in *; naive_solver.
Qed.

Lemma on_message_ui (w : window) (a : option UiConfig) (s : Sys) :
  on_message w (Some (cal_message "ui" a)) s = methods_ui w a s.
Proof. done. Qed.

(** C10: whenever a [ui] instruction reaches the handler, through the message
    listener or as one of its deferred retries, the handler leaves the stored
    theme and the stored namespace as they are; and the [theme] field of the
    argument is ignored: apart from the log entries, which quote the whole
    argument, the state after the instruction is the same whatever that field
    holds, so only the [styles] field is applied. *)
Theorem ui_instruction_keeps_theme_and_namespace
    (r : runtime) (evs : list (window * action)) (w : window) (c : UiConfig) :
  let W := run evs (module_init r) in
  let W' := step w (Message (Some (cal_message "ui" (Some c)))) W in
  theme (store (sys W')) = theme (store (sys W)) ∧
  namespace (store (sys W')) = namespace (store (sys W)) ∧
  (∀ (i : nat) (t : timer),
     pending W !! i = Some (t, CbRetryUi (Some c)) →
     theme (store (sys (step w (RunTask i) W))) = theme (store (sys W)) ∧
     namespace (store (sys (step w (RunTask i) W))) = namespace (store (sys W))) ∧
  (∀ t : string,
     without_logs (sys (step w (Message (Some (cal_message "ui" (Some (with_theme t c))))) W))
     = without_logs (sys W')).
Proof.
  intros W W'.
  pose proof (resolved_if_active_run evs _ (resolved_if_active_init r)) as HW.
  fold W in HW. subst W'. cbn [step].
  split; [|split; [|split]].
  - destruct (messageListener (sys W)); [|done]. rewrite on_message_ui.
    apply methods_ui_identity.
  - destruct (messageListener (sys W)) eqn:Hl; [|done]. rewrite on_message_ui.
    destruct HW as [[Hl' _]|Hv]; [congruence|].
    by apply methods_ui_identity.
  - intros i t Hi. rewrite Hi. split.
    + apply methods_ui_identity.
    + destruct HW as [[_ Hp]|Hv]; [by rewrite Hp in Hi|].
      by apply (methods_ui_identity w (Some c) (sys W)).
  - intros t. destruct (messageListener (sys W)); [|done]. rewrite !on_message_ui.
    apply methods_ui_theme_ignored.
Qed.

Lemma ui_instruction_keeps_theme_and_namespace_witness :
  let w := example_window [("embed", "abc")] JUndefined 500 in
  let c := {| ui_theme := "dark"; ui_styles := {[ "body" := {[ "background" := "blue" ]} ]} |} in
  let W := run [(w, Message (Some (cal_message "ui" (Some c))))] (module_init (Browser w)) in
  pending W !! 1%nat = Some (AnimationFrame, CbRetryUi (Some c)) ∧
  theme (store (sys (step w (RunTask 1) W))) = theme (store (sys W)) ∧
  namespace (store (sys (step w (RunTask 1) W))) = namespace (store (sys W)).
Proof.
  intros w c W.
  assert (pending W !! 1%nat = Some (AnimationFrame, CbRetryUi (Some c))) as Hp
    by (vm_compute; reflexivity).
  split; [exact Hp|].
  exact (proj1 (proj2 (proj2
           (ui_instruction_keeps_theme_and_namespace (Browser w)
              [(w, Message (Some (cal_message "ui" (Some c))))] w c)))
           1%nat AnimationFrame Hp).
Defined.

(** ** The message listener *)

(** A message that is falsy, whose [originator] is not ["CAL"], or whose
    [method] is not a string, has no effect at all. *)
Lemma on_message_ignores_foreign (w : window) (data : option message_data) (s : Sys) :
  (∀ d, data = Some d → originator d ≠ JStr "CAL" ∨ ∀ name, method d ≠ JStr name) →
  on_message w data s = finished s.
Proof.
  intros Hd. unfold on_message. destruct data as [d|]; [|done].
  destruct (Hd d eq_refl) as [Ho|Hm].
  - destruct (method d); try done.
    destruct (originator d) as [| |o|]; try done. simpl.
    destruct (String.eqb_spec o "CAL"); [congruence|done].
  - destruct (method d) as [| |name|]; try done. by destruct (Hm name).
Qed.

(** A string that names no property of [methods], own or inherited, is a
    no-op. *)
Lemma on_message_unknown_method (w : window) (name : string) (a : option UiConfig) (s : Sys) :
  name ≠ "ui" → name ≠ "parentKnowsIframeReady" → Object_prototype name = None →
  on_message w (Some (cal_message name a)) s = finished s.
Proof.
  intros Hu Hp Ho. unfold on_message, call_method. simpl.
  destruct (String.eqb_spec name "ui"); [done|].
  destruct (String.eqb_spec name "parentKnowsIframeReady"); [done|].
  by rewrite Ho.
Qed.

(** C7, where the code departs from it: for the message
    [{originator: "CAL", method: "__proto__"}] the lookup [methods[method]]
    finds the inherited [__proto__], an object and not [undefined], so the
    optional call goes ahead and throws a [TypeError]. *)
Theorem listener_throws_on_proto (w : window) (a : option UiConfig) (s : Sys) :
  on_message w (Some (cal_message "__proto__" a)) s = throw TypeError s ∧
  thrown (on_message w (Some (cal_message "__proto__" a)) s) ≠ None.
Proof. done. Qed.

(** ** The style registry *)

(** C3, as stated, fails: a component is mounted for the list item and a
    first broadcast gives the list item [background: red] (and the body
    [background: white]), which is then the stored configuration, whether
    the store merges or not, and the slice of the component.  After a
    broadcast of [color: blue] for the list item the component's slice for
    the list item is [color: blue] alone, where the merge of the
    specification, last write wins per attribute, keeps the background as
    well. *)
Lemma broadcast_drops_attributes_of_named_target :
  let old : EmbedStyles :=
    {[ "eventTypeListItem" := {[ "background" := "red" ]};
       "body" := {[ "background" := "white" ]} ]} in
  let new : EmbedStyles := {[ "eventTypeListItem" := {[ "color" := "blue" ]} ]} in
  let s1 := setEmbedStyles old (registerNewSetter "eventTypeListItem" 7 Sys_init) in
  let s2 := setEmbedStyles new s1 in
  let merged := merge_styles_spec (styles (store s1)) new in
  styles (store s1) = merge_styles_spec ∅ old ∧
  slice "eventTypeListItem" (component_state 7 (setterCalls s1)) = {[ "background" := "red" ]} ∧
  slice "eventTypeListItem" merged = {[ "background" := "red"; "color" := "blue" ]} ∧
  slice "eventTypeListItem" (component_state 7 (setterCalls s2)) = {[ "color" := "blue" ]} ∧
  slice "eventTypeListItem" (component_state 7 (setterCalls s2))
    ≠ slice "eventTypeListItem" merged.
Proof.
  intros old new s1 s2 merged.
  split; [vm_compute; reflexivity|]. split; [vm_compute; reflexivity|].
  split; [vm_compute; reflexivity|]. split; [vm_compute; reflexivity|].
  intros H. apply (f_equal (fun m : gmap string string => m !! "background")) in H.
  vm_compute in H. discriminate H.
Qed.

Lemma component_state_app (setter : nat) (l1 l2 : list (nat * SetStateAction)) :
  component_state setter (l1 ++ l2)
  = foldl (fun st call => if Nat.eqb call.1 setter then apply_action call.2 st else st)
          (component_state setter l1) l2.
Proof. unfold component_state. apply foldl_app. Qed.

Lemma notify_fold (setter : nat) (cfg : EmbedStyles) (reg : list (string * nat)) (st : EmbedStyles) :
  foldl (fun st call => if Nat.eqb call.1 setter then apply_action call.2 st else st) st
        (map (fun entry : string * nat => (entry.2, SpreadOver cfg)) reg)
  = if bool_decide (setter ∈ reg.*2) then spread st cfg else st.
Proof.
  revert st. induction reg as [|[name id] reg IH]; intros st; [done|].
  cbn [map foldl fst snd]. rewrite IH. cbn [fmap list_fmap snd].
  destruct (Nat.eqb_spec id setter) as [->|Hne].
  - rewrite (bool_decide_eq_true_2 (setter ∈ setter :: _)) by apply list_elem_of_here.
    cbn [apply_action]. unfold spread.
    destruct (bool_decide _); [|done].
    by rewrite (assoc_L (∪)), (idemp_L (∪)).
  - destruct (decide (setter ∈ reg.*2)) as [Hin|Hnin].
    + rewrite !bool_decide_eq_true_2; [done| |done]. by apply list_elem_of_further.
    + rewrite !bool_decide_eq_false_2; [done| |done].
      intros [?|?]%elem_of_cons; [congruence|done].
Qed.

(** C3, amended: at a broadcast of a new style configuration every setter
    registered at that moment, and no other, is called, once for each entry
    of the registry, with an updater that spreads the new styles over the
    component's previous styles: in the result a target named by the new
    styles has the new attributes alone, and any other target keeps its
    previous slice. *)
Theorem setEmbedStyles_notifies_registered_setters (stylesConfig : EmbedStyles) (s : Sys) :
  let s' := setEmbedStyles stylesConfig s in
  reactStylesStateSetters (store s') = reactStylesStateSetters (store s) ∧
  setterCalls s'
  = setterCalls s ++
    map (fun entry : string * nat => (entry.2, SpreadOver stylesConfig))
        (reactStylesStateSetters (store s)) ∧
  (∀ setter : nat,
     registered setter s →
     component_state setter (setterCalls s')
     = spread (component_state setter (setterCalls s)) stylesConfig) ∧
  (∀ setter : nat,
     ¬ registered setter s →
     component_state setter (setterCalls s') = component_state setter (setterCalls s) ∧
     ∀ a, (setter, a) ∉ drop (length (setterCalls s)) (setterCalls s')) ∧
  (∀ (elementName : string) (prev : EmbedStyles),
     slice elementName (spread prev stylesConfig)
     = match stylesConfig !! elementName with
       | Some new => new
       | None => slice elementName prev
       end).
Proof.
  intros s'. subst s'. unfold setEmbedStyles, registered. cbn -[component_state spread].
  split; [done|]. split; [done|]. split; [|split].
  - intros setter Hr. rewrite component_state_app, notify_fold.
    by rewrite bool_decide_eq_true_2.
  - intros setter Hr. split.
    + rewrite component_state_app, notify_fold. by rewrite bool_decide_eq_false_2.
    + intros a Hin. rewrite drop_app_length in Hin.
      apply list_elem_of_fmap in Hin as ([name id] & Heq & Hin). simpl in Heq.
      inversion Heq; subst. apply Hr. apply list_elem_of_fmap. by exists (name, id).
  - intros elementName prev. unfold slice, spread.
    rewrite lookup_union. destruct (stylesConfig !! elementName) as [new|] eqn:Hn.
    + by destruct (prev !! elementName).
    + by destruct (prev !! elementName).
Qed.

Lemma setEmbedStyles_notifies_registered_setters_witness :
  let old : EmbedStyles := {[ "eventTypeListItem" := {[ "background" := "red" ]} ]} in
  let new : EmbedStyles := {[ "body" := {[ "background" := "blue" ]} ]} in
  let s1 := registerNewSetter "eventTypeListItem" 7 (setEmbedStyles old Sys_init) in
  registered 7 s1 ∧
  component_state 7 (setterCalls (setEmbedStyles new s1))
  = spread (component_state 7 (setterCalls s1)) new.
Proof.
  intros old new s1.
  assert (registered 7 s1) as Hr by (vm_compute; apply list_elem_of_here).
  split; [exact Hr|].
  exact (proj1 (proj2 (proj2 (setEmbedStyles_notifies_registered_setters new s1))) 7%nat Hr).
Defined.

(** ** The [ui] instruction and the plan flag *)

Lemma untouched_log (r : runtime) (args : list log_arg) (s : Sys) :
  untouched s (log r args s).
Proof. shapes. done. Qed.

Lemma untouched_trans (s1 s2 s3 : Sys) :
  untouched s1 s2 → untouched s2 s3 → untouched s1 s3.
Proof. unfold untouched. intros (? & ? & ?) (? & ? & ?). repeat split; congruence. Qed.

(** Without the flag the handler only logs and defers itself. *)
Lemma methods_ui_deferred (w : window) (c : UiConfig) (s : Sys) :
  plan_unset w →
  scheduled (methods_ui w (Some c) s) = [(AnimationFrame, CbRetryUi (Some c))] ∧
  untouched s (after (methods_ui w (Some c) s)).
Proof.
  unfold plan_unset, methods_ui. intros ->. simpl. split; [done|]. apply untouched_log.
Qed.

(** With the flag at ["PRO"] it applies the styles and schedules nothing. *)
Lemma methods_ui_applied (w : window) (c : UiConfig) (s : Sys) :
  CalComPlan w = JStr "PRO" →
  let o := methods_ui w (Some c) s in
  scheduled o = [] ∧ thrown o = None ∧
  fired (after o) = fired s ∧ posted (after o) = posted s ∧
  style_view (after o)
  = (ui_styles c,
     reactStylesStateSetters (store s),
     match body_background_of (ui_styles c) with
     | Some bg => Some bg
     | None => body_background s
     end,
     setterCalls s ++
     map (fun entry : string * nat => (entry.2, SpreadOver (ui_styles c)))
         (reactStylesStateSetters (store s))).
Proof.
  intros Hp. unfold methods_ui. rewrite Hp. simpl.
  unfold setEmbedStyles, style_view.
  destruct (body_background_of (ui_styles c)); shapes; done.
Qed.

(** With the flag at another tier it only logs, and schedules nothing. *)
Lemma methods_ui_rejected (w : window) (c : UiConfig) (s : Sys) :
  truthy (CalComPlan w) = true → CalComPlan w ≠ JStr "PRO" →
  let o := methods_ui w (Some c) s in
  scheduled o = [] ∧ thrown o = None ∧ untouched s (after o).
Proof.
  intros Ht Hp. unfold methods_ui. rewrite Ht.
  assert (is_str "PRO" (CalComPlan w) = false) as ->.
  { destruct (CalComPlan w) as [| |p|]; try done. simpl.
    destruct (String.eqb_spec p "PRO"); congruence. }
  simpl. repeat split; by shapes.
Qed.

(** The retries of a deferred instruction while the flag stays unset. *)
Lemma follow_retry_unset (ws rest : list window) (c : UiConfig) (s : Sys) :
  Forall plan_unset ws →
  ∃ s', follow (ws ++ rest) (CbRetryUi (Some c)) s = follow rest (CbRetryUi (Some c)) s' ∧
        untouched s s'.
Proof.
  intros Hws. revert s. induction Hws as [|w ws Hw Hws IH]; intros s.
  - by exists s.
  - destruct (methods_ui_deferred w c s Hw) as (Hs & Hu).
    cbn [app follow run_callback]. rewrite Hs.
    destruct (IH (after (methods_ui w (Some c) s))) as (s' & Hf & Hu').
    exists s'. split; [done|]. by eapply untouched_trans.
Qed.

(** C4: a [ui] instruction received while the plan flag is unset changes
    nothing of the styles for as long as the flag stays unset, and stays
    pending; at the first frame where the flag is ["PRO"] its styles are
    applied, once, and nothing is scheduled any more, so later frames apply
    nothing; at the first frame where the flag is another tier the
    instruction only logs, changes nothing, and is not retried. *)
Theorem ui_instruction_waits_for_plan
    (w0 : window) (ws : list window) (wn : window) (rest : list window)
    (c : UiConfig) (s : Sys) :
  plan_unset w0 →
  Forall plan_unset ws →
  (untouched s (ui_instruction w0 ws c s).1 ∧
   (ui_instruction w0 ws c s).2 = Some (CbRetryUi (Some c))) ∧
  (CalComPlan wn = JStr "PRO" →
   let r := ui_instruction w0 (ws ++ wn :: rest) c s in
   r.2 = None ∧
   fired r.1 = fired s ∧ posted r.1 = posted s ∧
   style_view r.1
   = (ui_styles c,
      reactStylesStateSetters (store s),
      match body_background_of (ui_styles c) with
      | Some bg => Some bg
      | None => body_background s
      end,
      setterCalls s ++
      map (fun entry : string * nat => (entry.2, SpreadOver (ui_styles c)))
          (reactStylesStateSetters (store s)))) ∧
  (truthy (CalComPlan wn) = true → CalComPlan wn ≠ JStr "PRO" →
   let r := ui_instruction w0 (ws ++ wn :: rest) c s in
   r.2 = None ∧ untouched s r.1).
Proof.
  intros H0 Hws.
  destruct (methods_ui_deferred w0 c s H0) as (Hs & Hu).
  unfold ui_instruction, follow_outcome. rewrite Hs.
  set (s0 := after (methods_ui w0 (Some c) s)) in *.
  split; [|split].
  - destruct (follow_retry_unset ws [] c s0 Hws) as (s' & Hf & Hu').
    rewrite app_nil_r in Hf. rewrite Hf. cbn [follow fst snd].
    split; [by eapply untouched_trans|done].
  - intros Hp. cbv zeta.
    destruct (follow_retry_unset ws (wn :: rest) c s0 Hws) as (s' & -> & Hu').
    destruct (methods_ui_applied wn c s' Hp) as (Hsch & _ & Hf & Hm & Hv).
    cbn [follow run_callback]. rewrite Hsch. cbn [fst snd].
    pose proof (untouched_trans _ _ _ Hu Hu') as (Hsv & Hf' & Hm').
    split; [done|]. split; [congruence|]. split; [congruence|].
    rewrite Hv. unfold style_view in Hsv.
    injection Hsv as _ Hreg Hbg Hcalls. by rewrite Hreg, Hbg, Hcalls.
  - intros Ht Hp. cbv zeta.
    destruct (follow_retry_unset ws (wn :: rest) c s0 Hws) as (s' & -> & Hu').
    destruct (methods_ui_rejected wn c s' Ht Hp) as (Hsch & _ & Hr).
    cbn [follow run_callback]. rewrite Hsch. cbn [fst snd].
    split; [done|]. eapply untouched_trans; [|exact Hr]. by eapply untouched_trans.
Qed.

Lemma ui_instruction_waits_for_plan_witness :
  let unset := example_window [("embed", "abc")] JUndefined 500 in
  let pro := example_window [("embed", "abc")] (JStr "PRO") 500 in
  let c := {| ui_theme := "dark"; ui_styles := {[ "body" := {[ "background" := "blue" ]} ]} |} in
  let s := registerNewSetter "body" 3 Sys_init in
  let r := ui_instruction unset ([unset; unset] ++ pro :: [pro; pro]) c s in
  r.2 = None ∧
  fired r.1 = [] ∧ posted r.1 = [] ∧
  style_view r.1
  = ({[ "body" := {[ "background" := "blue" ]} ]},
     [("body", 3%nat)],
     Some "blue",
     [(3%nat, SetValue ∅); (3%nat, SpreadOver {[ "body" := {[ "background" := "blue" ]} ]})]).
Proof.
  intros unset pro c s r.
  assert (plan_unset unset) as Hu by reflexivity.
  exact (proj1 (proj2 (ui_instruction_waits_for_plan unset [unset; unset] pro [pro; pro] c s
                         Hu (Forall_cons_2 _ _ _ Hu (Forall_cons_2 _ _ _ Hu (Forall_nil_2 _)))))
           eq_refl).
Defined.

(** ** The dimension watcher *)

Lemma dimension_events_app (l1 l2 : list sdk_event) :
  dimension_events (l1 ++ l2) = dimension_events l1 ++ dimension_events l2.
Proof. apply List.filter_app. Qed.

Lemma set_isWindowLoadComplete_same (s : Sys) :
  isWindowLoadComplete (watcher s) = true → set_isWindowLoadComplete true s = s.
Proof. destruct s as [? ? [] ? ? ? ? ? ? ? ? ?]. simpl. by intros ->. Qed.

(** [informAboutScroll] is its two gates followed by the three blocks. *)
Lemma run_informAboutScroll_blocks (w : window) (s : Sys) :
  run_informAboutScroll w s
  = if negb (String.eqb (readyState w) "complete") then
      later s (runAsap s CbInformAboutScroll)
    else if negb (isWindowLoadComplete (watcher s)) then
      later s (Timeout 10, CbWindowLoadSettled)
    else reschedule_or_stop (measure_and_report w (announce_load w s)).
Proof. reflexivity. Qed.

Lemma announce_load_frame (w : window) (s : Sys) :
  watcher (announce_load w s) = watcher s ∧
  isSafariBrowser (announce_load w s) = isSafariBrowser s ∧
  dimension_events (fired (announce_load w s)) = dimension_events (fired s) ∧
  wildcardHandler (announce_load w s) = wildcardHandler s.
Proof.
  unfold announce_load. destruct (negb _); sys_simpl; [|done].
  by rewrite dimension_events_app, app_nil_r.
Qed.

Lemma measure_and_report_spec (w : window) (s : Sys) :
  let first := isFirstTime (watcher s) in
  let h := sample_height first w in
  let n := numDimensionChanges (watcher s) in
  let changed := bool_decide (knownIframeHeight (watcher s) ≠ Some h) in
  let s' := measure_and_report w s in
  watcher s'
  = {| knownIframeHeight := Some h;
       numDimensionChanges := if changed then S n else n;
       isFirstTime := false;
       isWindowLoadComplete := isWindowLoadComplete (watcher s) |} ∧
  dimension_events (fired s')
  = dimension_events (fired s) ++
    (if changed then [dimension_changed h (sample_width first w) first] else []) ∧
  isSafariBrowser s' = isSafariBrowser s ∧
  parentInformedAboutContentHeight (store s') = true.
Proof.
  cbv zeta. unfold measure_and_report, sample_height, sample_width. cbv zeta.
  change (watcher (set_parentInformedAboutContentHeight true s)) with (watcher s).
  destruct (decide (knownIframeHeight (watcher s) = Some
                      (if isFirstTime (watcher s) then scrollHeight w else offsetHeight w)))
    as [Hk|Hk].
  - rewrite bool_decide_eq_false_2 by (intros ?; done).
    sys_simpl. rewrite app_nil_r. by rewrite Hk.
  - rewrite bool_decide_eq_true_2 by done.
    sys_simpl. by rewrite dimension_events_app.
Qed.

(** One sample of the watcher, past the gates. *)
Lemma sample_step (w : window) (cb : callback) (s : Sys) :
  loaded w → sampling cb s →
  let o := run_callback w cb s in
  let first := isFirstTime (watcher s) in
  let h := sample_height first w in
  let n := numDimensionChanges (watcher s) in
  let changed := bool_decide (knownIframeHeight (watcher s) ≠ Some h) in
  let n' := if changed then S n else n in
  watcher (after o)
  = {| knownIframeHeight := Some h; numDimensionChanges := n';
       isFirstTime := false; isWindowLoadComplete := true |} ∧
  dimension_events (fired (after o))
  = dimension_events (fired s) ++
    (if changed then [dimension_changed h (sample_width first w) first] else []) ∧
  scheduled o = (if Nat.ltb 50 n' then [] else [runAsap s CbInformAboutScroll]) ∧
  (Nat.ltb 50 n' = true → last (console (after o)) = Some too_many_warning) ∧
  parentInformedAboutContentHeight (store (after o)) = true.
Proof.
  intros Hl Hs. cbv zeta.
  assert (run_callback w cb s = run_informAboutScroll w (set_isWindowLoadComplete true s))
    as ->.
  { destruct Hs as [->|[-> Hc]]; [done|]. by rewrite set_isWindowLoadComplete_same. }
  rewrite run_informAboutScroll_blocks. unfold loaded in Hl. rewrite Hl.
  change (negb ("complete" =? "complete")%string) with false. cbv iota.
  change (isWindowLoadComplete (watcher (set_isWindowLoadComplete true s))) with true.
  change (negb true) with false. cbv iota.
  set (s0 := set_isWindowLoadComplete true s).
  destruct (announce_load_frame w s0) as (Hw1 & Hsaf1 & Hev1 & _).
  set (s1 := announce_load w s0) in *. clearbody s1.
  pose proof (measure_and_report_spec w s1) as Hm. cbv zeta in Hm.
  destruct Hm as (Hw2 & Hev2 & Hsaf2 & Hpar).
  set (s2 := measure_and_report w s1) in *. clearbody s2.
  rewrite Hw1 in Hw2, Hev2. rewrite Hev1 in Hev2. rewrite Hsaf1 in Hsaf2.
  change (watcher s0) with (set_watcher (watcher_set_isWindowLoadComplete true (watcher s)) s).(watcher) in Hw2, Hev2.
  cbn [watcher set_watcher watcher_set_isWindowLoadComplete knownIframeHeight
       numDimensionChanges isFirstTime isWindowLoadComplete] in Hw2, Hev2.
  change (fired s0) with (fired s) in Hev2.
  change (isSafariBrowser s0) with (isSafariBrowser s) in Hsaf2.
  unfold reschedule_or_stop, runAsap, too_many_warning. rewrite Hw2, Hsaf2.
  cbn [numDimensionChanges].
  destruct (Nat.ltb 50 _); cbn [after scheduled finished later console set_console
                                watcher store fired].
  - rewrite Hw2. repeat split; try done. intros _. apply last_snoc.
  - rewrite Hw2. repeat split; done.
Qed.

(** A sample after which the watcher goes on. *)
Lemma follow_sample (w : window) (ws : list window) (cb : callback) (s : Sys) :
  loaded w → sampling cb s →
  let first := isFirstTime (watcher s) in
  let h := sample_height first w in
  let changed := bool_decide (knownIframeHeight (watcher s) ≠ Some h) in
  let n' := if changed then S (numDimensionChanges (watcher s))
            else numDimensionChanges (watcher s) in
  (n' ≤ 50)%nat →
  ∃ s', follow (w :: ws) cb s = follow ws CbInformAboutScroll s' ∧
        watcher s'
        = {| knownIframeHeight := Some h; numDimensionChanges := n';
             isFirstTime := false; isWindowLoadComplete := true |} ∧
        dimension_events (fired s')
        = dimension_events (fired s) ++
          (if changed then [dimension_changed h (sample_width first w) first] else []).
Proof.
  intros Hl Hs. cbv zeta. intros Hn.
  destruct (sample_step w cb s Hl Hs) as (Hw & Hev & Hsch & _ & _).
  exists (after (run_callback w cb s)). split; [|done].
  cbn [follow]. rewrite Hsch.
  destruct (Nat.ltb_spec 50 (if bool_decide (knownIframeHeight (watcher s)
                                  ≠ Some (sample_height (isFirstTime (watcher s)) w))
                             then S (numDimensionChanges (watcher s))
                             else numDimensionChanges (watcher s))); [lia|].
  unfold runAsap. by destruct (isSafariBrowser s).
Qed.

(** A sample after which the watcher stops. *)
Lemma follow_last_sample (w : window) (ws : list window) (cb : callback) (s : Sys) :
  loaded w → sampling cb s →
  let first := isFirstTime (watcher s) in
  let h := sample_height first w in
  let changed := bool_decide (knownIframeHeight (watcher s) ≠ Some h) in
  let n' := if changed then S (numDimensionChanges (watcher s))
            else numDimensionChanges (watcher s) in
  (50 < n')%nat →
  ∃ s', follow (w :: ws) cb s = (s', None) ∧
        last (console s') = Some too_many_warning ∧
        dimension_events (fired s')
        = dimension_events (fired s) ++
          (if changed then [dimension_changed h (sample_width first w) first] else []).
Proof.
  intros Hl Hs. cbv zeta. intros Hn.
  destruct (sample_step w cb s Hl Hs) as (Hw & Hev & Hsch & Hwarn & _).
  exists (after (run_callback w cb s)).
  apply Nat.ltb_lt in Hn. rewrite Hn in Hsch.
  cbn [follow]. rewrite Hsch. split; [done|]. split; [by apply Hwarn|done].
Qed.

(** The watcher over samples that all change the height. *)
Lemma follow_changing (samples : list window) (cb : callback) (s : Sys) :
  Forall loaded samples → sampling cb s →
  changes_every_sample (knownIframeHeight (watcher s)) (isFirstTime (watcher s)) samples →
  (numDimensionChanges (watcher s) ≤ 50)%nat →
  let r := follow samples cb s in
  let n := numDimensionChanges (watcher s) in
  ((n + length samples ≤ 50)%nat →
   r.2 ≠ None ∧
   dimension_changes_fired r.1 = (dimension_changes_fired s + length samples)%nat) ∧
  ((50 < n + length samples)%nat →
   r.2 = None ∧
   dimension_changes_fired r.1 = (dimension_changes_fired s + (51 - n))%nat ∧
   last (console r.1) = Some too_many_warning).
Proof.
  intros Hl. revert cb s. induction Hl as [|w ws Hw Hws IH]; intros cb s Hs Hch Hn; cbv zeta.
  - cbn [follow fst snd length]. split; [|lia]. intros _. split; [done|lia].
  - destruct Hch as [Hne Hch].
    pose proof (bool_decide_eq_true_2 _ Hne) as Hb.
    destruct (decide (numDimensionChanges (watcher s) = 50%nat)) as [H50|H50].
    + destruct (follow_last_sample w ws cb s Hw Hs) as (s' & -> & Hwarn & Hev).
      { rewrite Hb. lia. }
      rewrite Hb in Hev. cbn [fst snd length]. split; [lia|]. intros _.
      split; [done|]. split; [|done].
      unfold dimension_changes_fired. rewrite Hev, length_app. simpl. lia.
    + destruct (follow_sample w ws cb s Hw Hs) as (s' & -> & Hwat & Hev).
      { rewrite Hb. lia. }
      rewrite Hb in Hwat, Hev.
      assert (dimension_changes_fired s' = S (dimension_changes_fired s)) as Hcount.
      { unfold dimension_changes_fired. rewrite Hev, length_app. simpl. lia. }
      specialize (IH CbInformAboutScroll s').
      rewrite Hwat in IH. cbn [knownIframeHeight isFirstTime numDimensionChanges] in IH.
      destruct IH as (IH1 & IH2); [right; by rewrite Hwat|done|lia|].
      rewrite Hcount in IH1, IH2. cbn [length]. split.
      * intros Hle. destruct IH1 as (? & ?); [lia|]. split; [done|lia].
      * intros Hlt. destruct IH2 as (? & ? & ?); [lia|]. split; [done|]. split; [lia|done].
Qed.

(** Any wake-up of the watcher, whatever the document looks like: each event
    it fires is counted, and it goes on only while the counter is at most 50. *)
Lemma watcher_step_counts (w : window) (cb : callback) (s : Sys) :
  of_watcher cb →
  (numDimensionChanges (watcher s) ≤ 50)%nat →
  let o := run_callback w cb s in
  (numDimensionChanges (watcher (after o)) ≤ S (numDimensionChanges (watcher s)))%nat ∧
  (dimension_changes_fired (after o) + numDimensionChanges (watcher s)
   = dimension_changes_fired s + numDimensionChanges (watcher (after o)))%nat ∧
  (scheduled o = [] ∨
   ∃ t cb', scheduled o = [(t, cb')] ∧ of_watcher cb' ∧
            (numDimensionChanges (watcher (after o)) ≤ 50)%nat).
Proof.
  intros Hcb Hn. cbv zeta.
  assert (∀ t, runAsap s CbInformAboutScroll = t → ∃ k, t = (k, CbInformAboutScroll)) as Hasap.
  { intros t <-. unfold runAsap. destruct (isSafariBrowser s); eauto. }
  destruct (String.eqb_spec (readyState w) "complete") as [Hl|Hl].
  - assert (sampling cb s ∨ (cb = CbInformAboutScroll ∧ isWindowLoadComplete (watcher s) = false))
      as Hcases.
    { destruct Hcb as [-> | ->]; [|by left; left].
      destruct (isWindowLoadComplete (watcher s)) eqn:E; [left; by right|by right]. }
    destruct Hcases as [Hs|[-> Hwlc]].
    + destruct (sample_step w cb s Hl Hs) as (Hw & Hev & Hsch & _ & _).
      rewrite Hw, Hsch. unfold dimension_changes_fired. rewrite Hev, length_app.
      cbn [numDimensionChanges].
      destruct (bool_decide _); cbn [length];
        (split; [lia|]; split; [lia|]);
        (match goal with
         | |- context [Nat.ltb 50 ?k] => destruct (Nat.ltb_spec 50 k); [by left|right]
         end);
        destruct (Hasap _ eq_refl) as [k ->]; exists k, CbInformAboutScroll;
        (split; [done|]; split; [by left|lia]).
    + cbn [run_callback]. rewrite run_informAboutScroll_blocks, Hl, Hwlc. simpl.
      split; [lia|]. split; [lia|]. right. exists (Timeout 10), CbWindowLoadSettled.
      split; [done|]. split; [by right|done].
  - assert (negb (String.eqb (readyState w) "complete") = true) as Hneg.
    { by destruct (String.eqb_spec (readyState w) "complete"). }
    destruct Hcb as [-> | ->]; cbn [run_callback]; unfold run_windowLoadSettled;
      rewrite run_informAboutScroll_blocks, Hneg; cbn [after scheduled later].
    + split; [lia|]. split; [lia|]. right.
      destruct (Hasap _ eq_refl) as [k ->]. exists k, CbInformAboutScroll.
      split; [done|]. split; [by left|done].
    + unfold dimension_changes_fired. split; [simpl; lia|]. split; [simpl; lia|]. right.
      unfold runAsap. simpl. destruct (isSafariBrowser s);
        eexists _, CbInformAboutScroll; (split; [done|]; split; [by left|done]).
Qed.

(** However the document behaves, a watcher whose counter is at most 50
    fires at most [51 - counter] further events. *)
Lemma follow_bounded (ws : list window) (cb : callback) (s : Sys) :
  of_watcher cb →
  (numDimensionChanges (watcher s) ≤ 50)%nat →
  (dimension_changes_fired (follow ws cb s).1 + numDimensionChanges (watcher s)
   ≤ dimension_changes_fired s + 51)%nat.
Proof.
  revert cb s. induction ws as [|w ws IH]; intros cb s Hcb Hn; [simpl; lia|].
  destruct (watcher_step_counts w cb s Hcb Hn) as (Hle & Hcount & Hsch).
  cbn [follow]. destruct Hsch as [->|(t & cb' & -> & Hcb' & Hn')].
  - cbn [fst]. lia.
  - specialize (IH cb' _ Hcb' Hn'). lia.
Qed.

Lemma watch_start (ws : list window) (s : Sys) :
  watch ws s = follow ws CbInformAboutScroll (set_watcher watcher_init s).
Proof.
  unfold watch, follow_outcome, keepParentInformedAboutDimensionChanges, runAsap.
  simpl. by destruct (isSafariBrowser s).
Qed.

Lemma watch_loaded (w0 : window) (ws : list window) (s : Sys) :
  loaded w0 →
  watch (w0 :: ws) s = follow ws CbWindowLoadSettled (set_watcher watcher_init s).
Proof.
  intros Hl. rewrite watch_start. cbn [follow run_callback].
  rewrite run_informAboutScroll_blocks. unfold loaded in Hl. rewrite Hl. done.
Qed.

(** C1, as stated, fails: over a document that grows at every sample the
    watcher fires a 51st [dimension-changed] event (for the height 51) before
    it stops; after the 50th it has rescheduled itself. *)
Lemma watcher_fires_51st_event :
  let after51 := watch (growing_document 51) Sys_init in
  let after50 := watch (growing_document 50) Sys_init in
  dimension_changes_fired after50.1 = 50%nat ∧
  after50.2 = Some CbInformAboutScroll ∧
  console after50.1 = [] ∧
  dimension_changes_fired after51.1 = 51%nat ∧
  dimension_events (fired after51.1) !! 50%nat = Some (dimension_changed 51 640 false) ∧
  ¬ (dimension_changes_fired after51.1 ≤ 50)%nat.
Proof.
  intros after51 after50.
  assert (dimension_changes_fired after51.1 = 51%nat) as H51 by (vm_compute; reflexivity).
  split; [vm_compute; reflexivity|]. split; [vm_compute; reflexivity|].
  split; [vm_compute; reflexivity|]. split; [exact H51|].
  split; [vm_compute; reflexivity|]. rewrite H51. lia.
Qed.

(** C1, amended: in every run of the watcher in which the measured height
    changes on every sample, the loop keeps rescheduling itself through the
    50th emitted change; the 51st change is emitted too, and only then, the
    counter exceeding 50, the loop stops rescheduling and emits the
    diagnostic warning.  No 52nd [dimension-changed] event is ever fired, in
    any run. *)
Theorem watcher_stops_after_51_changes (w0 : window) (samples : list window) (s : Sys) :
  loaded w0 →
  Forall loaded samples →
  changes_every_sample None true samples →
  let r := watch (w0 :: samples) s in
  ((length samples ≤ 50)%nat →
   r.2 ≠ None ∧
   dimension_changes_fired r.1 = (dimension_changes_fired s + length samples)%nat) ∧
  ((51 ≤ length samples)%nat →
   r.2 = None ∧
   dimension_changes_fired r.1 = (dimension_changes_fired s + 51)%nat ∧
   last (console r.1) = Some too_many_warning) ∧
  (∀ (ws' : list window) (s' : Sys),
     (dimension_changes_fired (watch ws' s').1 ≤ dimension_changes_fired s' + 51)%nat).
Proof.
  intros H0 Hl Hch. cbv zeta. rewrite watch_loaded by done.
  set (s0 := set_watcher watcher_init s).
  assert (numDimensionChanges (watcher s0) = 0%nat) as Hn0 by done.
  assert (dimension_changes_fired s0 = dimension_changes_fired s) as Hd0 by done.
  destruct (follow_changing samples CbWindowLoadSettled s0)
    as (Hle & Hgt); [done|by left|done|lia|].
  rewrite Hn0, Hd0 in Hle, Hgt. clearbody s0.
  split; [|split].
  - intros Hlen. apply Hle. lia.
  - intros Hlen. destruct Hgt as (? & ? & ?); [lia|]. split; [done|]. split; [lia|done].
  - intros ws' s'. rewrite watch_start.
    pose proof (follow_bounded ws' CbInformAboutScroll (set_watcher watcher_init s')
                  (or_introl eq_refl)) as Hb.
    set (s1 := set_watcher watcher_init s') in *.
    assert (numDimensionChanges (watcher s1) = 0%nat) as Hn1 by done.
    assert (dimension_changes_fired s1 = dimension_changes_fired s') as Hd1 by done.
    rewrite Hn1, Hd1 in Hb. clearbody s1. lia.
Qed.

Lemma growing_document_changes (k : nat) (known : option Z) (first : bool) (n : nat) :
  known ≠ Some (Z.of_nat k) →
  changes_every_sample known first
    (map (fun k => example_window [("embed", "abc")] JUndefined (Z.of_nat k)) (seq k n)).
Proof.
  revert k known first. induction n as [|n IH]; intros k known first Hk; [done|].
  cbn [seq map changes_every_sample]. split.
  - by destruct first.
  - apply IH. destruct first; simpl; intros [= H]; lia.
Qed.

Lemma watcher_stops_after_51_changes_witness :
  let r := watch (growing_document 60) Sys_init in
  r.2 = None ∧
  dimension_changes_fired r.1 = 51%nat ∧
  last (console r.1) = Some too_many_warning.
Proof.
  assert (Forall loaded (map (fun k => example_window [("embed", "abc")] JUndefined (Z.of_nat k))
                             (seq 1 60))) as Hl.
  { apply Forall_forall. intros w Hin. apply list_elem_of_fmap in Hin as (k & -> & _).
    reflexivity. }
  assert ((51 ≤ length (map (fun k => example_window [("embed", "abc")] JUndefined (Z.of_nat k))
                           (seq 1 60)))%nat) as Hlen.
  { rewrite length_map, length_seq. lia. }
  exact (proj1 (proj2 (watcher_stops_after_51_changes
                         (example_window [("embed", "abc")] JUndefined 0) _ Sys_init
                         eq_refl Hl
                         (growing_document_changes 1 None true 60 ltac:(discriminate))))
           Hlen).
Defined.

(** C2, as stated, fails: over the heights [500, 500, 500, 800] the watcher
    fires two [dimension-changed] events, not one: the first sample is
    reported (the known height is [null] before it), then the transition to
    800. *)
Lemma two_events_over_500_500_500_800 :
  let doc := map (example_window [("embed", "abc")] JUndefined) [500; 500; 500; 500; 800] in
  let r := watch doc Sys_init in
  measured (tail doc) = [500; 500; 500; 800] ∧
  dimension_events (fired r.1)
  = [dimension_changed 500 640 true; dimension_changed 800 640 false] ∧
  dimension_changes_fired r.1 ≠ 1%nat.
Proof. vm_compute. repeat split; discriminate. Qed.

(** C2, amended: over a document whose measured height sequence is
    [500, 500, 500, 800], exactly two [dimension-changed] events fire: one
    for the first sample, with [isFirstTime = true], and one on the
    transition to 800, with [isFirstTime = false]; the two unchanged samples
    in between fire nothing, and the watcher keeps polling. *)
Theorem watcher_reports_first_sample_and_change
    (w0 w1 w2 w3 w4 : window) (s : Sys) :
  Forall loaded [w0; w1; w2; w3; w4] →
  measured [w1; w2; w3; w4] = [500; 500; 500; 800] →
  let r := watch [w0; w1; w2; w3; w4] s in
  dimension_events (fired r.1)
  = dimension_events (fired s) ++
    [dimension_changed 500 (scrollWidth w1) true;
     dimension_changed 800 (offsetWidth w4) false] ∧
  r.2 = Some CbInformAboutScroll.
Proof.
  intros Hl Hm. cbv zeta.
  apply Forall_cons in Hl as [H0 Hl]. apply Forall_cons in Hl as [H1 Hl].
  apply Forall_cons in Hl as [H2 Hl]. apply Forall_cons in Hl as [H3 Hl].
  apply Forall_cons in Hl as [H4 _].
  injection Hm as Hh1 Hh2 Hh3 Hh4.
  rewrite watch_loaded by done.
  set (s0 := set_watcher watcher_init s).
  assert (watcher s0 = watcher_init) as Hw0 by done.
  assert (dimension_events (fired s0) = dimension_events (fired s)) as He0 by done.
  clearbody s0.
  (* the first sample: 500, reported *)
  destruct (follow_sample w1 [w2; w3; w4] CbWindowLoadSettled s0 H1 (or_introl eq_refl))
    as (s1 & -> & Hw1 & He1).
  { rewrite Hw0. simpl. try case_bool_decide; lia. }
  rewrite Hw0 in Hw1, He1. cbn [watcher_init knownIframeHeight numDimensionChanges isFirstTime
       sample_height sample_width] in Hw1, He1. rewrite Hh1 in Hw1, He1.
  rewrite bool_decide_eq_true_2 in Hw1, He1 by done.
  (* the second and the third: 500 again, silent *)
  destruct (follow_sample w2 [w3; w4] CbInformAboutScroll s1 H2) as (s2 & -> & Hw2 & He2).
  { right. by rewrite Hw1. }
  { rewrite Hw1. simpl. try case_bool_decide; lia. }
  rewrite Hw1 in Hw2, He2. cbn [knownIframeHeight numDimensionChanges isFirstTime sample_height sample_width] in Hw2, He2.
  rewrite Hh2 in Hw2, He2.
  rewrite bool_decide_eq_false_2 in Hw2, He2 by (intros ?; done).
  destruct (follow_sample w3 [w4] CbInformAboutScroll s2 H3) as (s3 & -> & Hw3 & He3).
  { right. by rewrite Hw2. }
  { rewrite Hw2. simpl. try case_bool_decide; lia. }
  rewrite Hw2 in Hw3, He3. cbn [knownIframeHeight numDimensionChanges isFirstTime sample_height sample_width] in Hw3, He3.
  rewrite Hh3 in Hw3, He3.
  rewrite bool_decide_eq_false_2 in Hw3, He3 by (intros ?; done).
  (* the fourth: 800, reported *)
  destruct (follow_sample w4 [] CbInformAboutScroll s3 H4) as (s4 & -> & Hw4 & He4).
  { right. by rewrite Hw3. }
  { rewrite Hw3. simpl. try case_bool_decide; lia. }
  rewrite Hw3 in Hw4, He4. cbn [knownIframeHeight numDimensionChanges isFirstTime sample_height sample_width] in Hw4, He4.
  rewrite Hh4 in Hw4, He4.
  rewrite bool_decide_eq_true_2 in Hw4, He4 by done.
  cbn [follow fst snd]. split; [|done].
  rewrite He4, He3, He2, He1, He0.
  rewrite !app_nil_r, <- app_assoc. done.
Qed.

Lemma watcher_reports_first_sample_and_change_witness :
  let doc := map (example_window [("embed", "abc")] JUndefined) [500; 500; 500; 500; 800] in
  dimension_events (fired (watch doc Sys_init).1)
  = [dimension_changed 500 640 true; dimension_changed 800 640 false] ∧
  (watch doc Sys_init).2 = Some CbInformAboutScroll.
Proof.
  set (d := example_window [("embed", "abc")] JUndefined).
  assert (loaded (d 500) ∧ loaded (d 800)) as [H5 H8] by (split; reflexivity).
  exact (watcher_reports_first_sample_and_change (d 500) (d 500) (d 500) (d 500) (d 800) Sys_init
           (Forall_cons_2 _ _ _ H5 (Forall_cons_2 _ _ _ H5 (Forall_cons_2 _ _ _ H5
              (Forall_cons_2 _ _ _ H5 (Forall_cons_2 _ _ _ H8 (Forall_nil_2 _))))))
           eq_refl).
Defined.

(** ** The readiness handshake *)

Lemma handshake_frame_refl (s : Sys) : handshake_frame s s.
Proof. by unfold handshake_frame. Qed.

Lemma handshake_frame_trans (s1 s2 s3 : Sys) :
  handshake_frame s1 s2 → handshake_frame s2 s3 → handshake_frame s1 s3.
Proof.
  unfold handshake_frame. intros (? & ? & ?) (? & ? & ?).
  repeat split; [congruence|congruence|auto].
Qed.

Lemma handshake_frame_log (r : runtime) (args : list log_arg) (s : Sys) :
  handshake_frame s (log r args s) ∧ linkReady_fired (log r args s) = linkReady_fired s.
Proof. unfold handshake_frame, linkReady_fired. by autorewrite with sys. Qed.

Lemma handshake_frame_fire (w : window) (e : sdk_event) (s : Sys) :
  handshake_frame s (fire w e s) ∧
  linkReady_fired (fire w e s)
  = (linkReady_fired s + if is_linkReady e then 1 else 0)%nat.
Proof.
  unfold handshake_frame, linkReady_fired. autorewrite with sys.
  rewrite List.filter_app, length_app. simpl. by destruct (is_linkReady e).
Qed.

Lemma methods_ui_handshake (w : window) (c : option UiConfig) (s : Sys) :
  let o := methods_ui w c s in
  handshake_frame s (after o) ∧ linkReady_fired (after o) = linkReady_fired s ∧
  count_tasks is_poll (scheduled o) = 0%nat ∧ count_tasks is_unhide (scheduled o) = 0%nat.
Proof.
  cbv zeta. unfold methods_ui, handshake_frame, linkReady_fired, setEmbedStyles.
  repeat case_match; sys_simpl; done.
Qed.

Lemma run_informAboutScroll_handshake (w : window) (s : Sys) :
  let o := run_informAboutScroll w s in
  handshake_frame s (after o) ∧ linkReady_fired (after o) = linkReady_fired s ∧
  count_tasks is_poll (scheduled o) = 0%nat ∧ count_tasks is_unhide (scheduled o) = 0%nat.
Proof.
  cbv zeta. rewrite run_informAboutScroll_blocks.
  assert (∀ s', count_tasks is_poll [runAsap s' CbInformAboutScroll] = 0%nat ∧
                count_tasks is_unhide [runAsap s' CbInformAboutScroll] = 0%nat) as Hasap.
  { intros s'. unfold runAsap. by destruct (isSafariBrowser s'). }
  destruct (negb _); [by destruct (Hasap s)|].
  destruct (negb _); [done|].
  assert (handshake_frame s (announce_load w s) ∧
          linkReady_fired (announce_load w s) = linkReady_fired s) as [Hf1 Hl1].
  { unfold announce_load, handshake_frame, linkReady_fired.
    destruct (negb _); sys_simpl; [|done].
    rewrite List.filter_app, length_app. simpl. split; [done|lia]. }
  set (s1 := announce_load w s) in *. clearbody s1.
  assert (handshake_frame s1 (measure_and_report w s1) ∧
          linkReady_fired (measure_and_report w s1) = linkReady_fired s1) as [Hf2 Hl2].
  { unfold measure_and_report, handshake_frame, linkReady_fired. cbv zeta.
    case_decide; sys_simpl; [done|].
    rewrite List.filter_app, length_app. simpl. split; [done|lia]. }
  set (s2 := measure_and_report w s1) in *. clearbody s2.
  pose proof (handshake_frame_trans _ _ _ Hf1 Hf2) as Hf.
  unfold reschedule_or_stop. destruct (Nat.ltb 50 _).
  - cbn [after scheduled finished]. split; [|split; [|done]].
    + destruct Hf as (? & ? & ?). by unfold handshake_frame.
    + unfold linkReady_fired in *. simpl. congruence.
  - cbn [after scheduled later]. destruct (Hasap s2). split; [done|]. split; [congruence|done].
Qed.

Lemma run_tryInformingLinkReady_handshake (w : window) (s : Sys) :
  let o := run_tryInformingLinkReady w s in
  handshake_frame s (after o) ∧
  if parentInformedAboutContentHeight (store s) then
    linkReady_fired (after o) = S (linkReady_fired s) ∧
    scheduled o = [(AnimationFrame, CbUnhideBody)]
  else
    linkReady_fired (after o) = linkReady_fired s ∧
    count_tasks is_poll (scheduled o) = 1%nat ∧
    count_tasks is_unhide (scheduled o) = 0%nat.
Proof.
  cbv zeta. unfold run_tryInformingLinkReady.
  destruct (parentInformedAboutContentHeight (store s)) eqn:Hflag; cbn [negb after scheduled later].
  - destruct (handshake_frame_fire w linkReady s) as [Hf Hl]. split; [done|].
    split; [|done]. rewrite Hl. simpl. lia.
  - split; [apply handshake_frame_refl|]. split; [done|].
    unfold runAsap. by destruct (isSafariBrowser s).
Qed.

Lemma methods_parentKnowsIframeReady_handshake (w : window) (s : Sys) :
  let o := methods_parentKnowsIframeReady w s in
  handshake_frame s (after o) ∧ linkReady_fired (after o) = linkReady_fired s ∧
  count_tasks is_poll (scheduled o) = 1%nat ∧ count_tasks is_unhide (scheduled o) = 0%nat.
Proof.
  cbv zeta. unfold methods_parentKnowsIframeReady. cbn [after scheduled later].
  destruct (handshake_frame_log (Browser w) [LText TextMethodParentKnowsIframeReadyCalled] s)
    as [Hf Hl].
  split; [done|]. split; [done|]. unfold runAsap. by destruct (isSafariBrowser _).
Qed.

Lemma count_tasks_app (p : task → bool) (l1 l2 : list task) :
  count_tasks p (l1 ++ l2) = (count_tasks p l1 + count_tasks p l2)%nat.
Proof. unfold count_tasks. by rewrite List.filter_app, length_app. Qed.

Lemma count_tasks_delete (p : task → bool) (l : list task) (i : nat) (x : task) :
  l !! i = Some x →
  (count_tasks p (delete i l) + (if p x then 1 else 0))%nat = count_tasks p l.
Proof.
  revert i. induction l as [|y l IH]; intros i Hi; [done|].
  destruct i as [|i]; simpl in Hi.
  - injection Hi as ->. unfold count_tasks. simpl. destruct (p x); simpl; lia.
  - specialize (IH i Hi). unfold count_tasks in *. simpl.
    destruct (p y); simpl; lia.
Qed.

Lemma on_message_handshake (w : window) (data : option message_data) (s : Sys) :
  let o := on_message w data s in
  handshake_frame s (after o) ∧ linkReady_fired (after o) = linkReady_fired s ∧
  count_tasks is_poll (scheduled o)
  = (if is_parentKnowsIframeReady (Message data) then 1 else 0)%nat ∧
  count_tasks is_unhide (scheduled o) = 0%nat.
Proof.
  cbv zeta. unfold on_message, is_parentKnowsIframeReady.
  pose proof (handshake_frame_refl s) as Hrefl.
  destruct data as [d|]; [|done].
  destruct (method d) as [| |name|]; try (by rewrite andb_false_r).
  destruct (is_str "CAL" (originator d)); [|done].
  unfold call_method. cbn [is_str andb].
  destruct (String.eqb_spec name "ui") as [->|Hui].
  - apply methods_ui_handshake.
  - destruct (String.eqb_spec name "parentKnowsIframeReady").
    + apply methods_parentKnowsIframeReady_handshake.
    + by repeat case_match.
Qed.

(** One event of the document keeps the invariant of the handshake. *)
Lemma handshake_inv_step (n : nat) (w : window) (a : action) (W : World) :
  handshake_inv n W →
  handshake_inv (n + if is_parentKnowsIframeReady a then 1 else 0) (step w a W).
Proof.
  intros (HA & HB & HC).
  destruct a as [i|data|q| |name setter|name].
  - cbn [is_parentKnowsIframeReady step]. rewrite Nat.add_0_r.
    destruct (pending W !! i) as [[t cb]|] eqn:Hi; [|done].
    pose proof (count_tasks_delete is_poll _ _ _ Hi) as Hdp.
    pose proof (count_tasks_delete is_unhide _ _ _ Hi) as Hdu.
    unfold handshake_inv, enqueue. cbn [sys pending]. rewrite !count_tasks_app.
    destruct cb as [| | | |c]; cbn [run_callback is_poll is_unhide snd] in *.
    + destruct (run_informAboutScroll_handshake w (sys W))
        as ((_ & Hb & Hf) & Hl & -> & ->).
      rewrite Hl, Hb. split; [lia|]. split; [|done].
      intros Hp. destruct HB as [? ?]; [destruct Hp; [by left|right; lia]|]. auto.
    + unfold run_windowLoadSettled.
      destruct (run_informAboutScroll_handshake w (set_isWindowLoadComplete true (sys W)))
        as ((_ & Hb & Hf) & Hl & -> & ->).
      change (linkReady_fired (set_isWindowLoadComplete true (sys W)))
        with (linkReady_fired (sys W)) in Hl.
      change (body_display (set_isWindowLoadComplete true (sys W)))
        with (body_display (sys W)) in Hb.
      change (parentInformedAboutContentHeight (store (set_isWindowLoadComplete true (sys W))))
        with (parentInformedAboutContentHeight (store (sys W))) in Hf.
      rewrite Hl, Hb. split; [lia|]. split; [|done].
      intros Hp. destruct HB as [? ?]; [destruct Hp; [by left|right; lia]|]. auto.
    + destruct (run_tryInformingLinkReady_handshake w (sys W)) as ((_ & Hb & Hf) & Hcase).
      rewrite Hb.
      destruct (parentInformedAboutContentHeight (store (sys W))) eqn:Hflag.
      * destruct Hcase as [Hl ->]. rewrite Hl. split; [unfold count_tasks at 2; simpl; lia|].
        split; [|done]. intros _. split; [lia|auto].
      * destruct Hcase as (Hl & -> & ->). rewrite Hl. split; [lia|]. split; [|done].
        intros Hp. destruct HB as [? ?]; [destruct Hp; [by left|right; lia]|]. done.
    + cbn [after scheduled finished].
      change (count_tasks is_poll []) with 0%nat.
      change (count_tasks is_unhide []) with 0%nat.
      change (linkReady_fired (unhideBody (sys W))) with (linkReady_fired (sys W)).
      change (parentInformedAboutContentHeight (store (unhideBody (sys W))))
        with (parentInformedAboutContentHeight (store (sys W))).
      change (body_display (unhideBody (sys W))) with (Some "block").
      split; [lia|]. split; [|by right].
      intros _. apply HB. right. lia.
    + destruct (methods_ui_handshake w c (sys W)) as ((_ & Hb & Hf) & Hl & -> & ->).
      rewrite Hl, Hb. split; [lia|]. split; [|done].
      intros Hp. destruct HB as [? ?]; [destruct Hp; [by left|right; lia]|]. auto.
  - cbn [step]. destruct (messageListener (sys W)).
    + destruct (on_message_handshake w data (sys W)) as ((_ & Hb & Hf) & Hl & Hp & Hu).
      unfold handshake_inv, enqueue. cbn [sys pending]. rewrite !count_tasks_app.
      rewrite Hl, Hb, Hp, Hu. split; [lia|]. split; [|done].
      intros Hq. destruct HB as [? ?]; [destruct Hq; [by left|right; lia]|]. auto.
    + unfold handshake_inv. split; [lia|done].
  - cbn [step is_parentKnowsIframeReady]. rewrite Nat.add_0_r.
    unfold useEmbedTheme. by destruct (truthy _).
  - cbn [step is_parentKnowsIframeReady]. rewrite Nat.add_0_r. unfold isEmbed.
    destruct (getNamespace_shape (Browser w) (sys W)) as (ns & Hs & _).
    destruct (getNamespace (Browser w) (sys W)) as [v s1]. cbn [fst snd] in *. by subst s1.
  - cbn [step is_parentKnowsIframeReady]. by rewrite Nat.add_0_r.
  - cbn [step is_parentKnowsIframeReady]. by rewrite Nat.add_0_r.
Qed.

Lemma handshake_inv_run (evs : list (window * action)) (n : nat) (W : World) :
  handshake_inv n W →
  handshake_inv (n + instructions_received evs) (run evs W).
Proof.
  revert n W. induction evs as [|[w a] evs IH]; intros n W HW.
  - unfold instructions_received. simpl. by rewrite Nat.add_0_r.
  - apply (handshake_inv_step n w a) in HW. apply IH in HW.
    unfold instructions_received in *. cbn [List.filter snd].
    destruct (is_parentKnowsIframeReady a); cbn [length].
    + by replace (n + S (length (List.filter (fun ev : window * action =>
                          is_parentKnowsIframeReady ev.2) evs)))%nat
        with (n + 1 + length (List.filter (fun ev : window * action =>
                          is_parentKnowsIframeReady ev.2) evs))%nat by lia.
    + by rewrite Nat.add_0_r in HW.
Qed.

Lemma run_callback_listener (w : window) (cb : callback) (s : Sys) :
  messageListener (after (run_callback w cb s)) = messageListener s.
Proof.
  destruct cb as [| | | |c]; cbn [run_callback].
  - by destruct (run_informAboutScroll_handshake w s) as ((? & _) & _).
  - unfold run_windowLoadSettled.
    by destruct (run_informAboutScroll_handshake w (set_isWindowLoadComplete true s))
      as ((? & _) & _).
  - by destruct (run_tryInformingLinkReady_handshake w s) as ((? & _) & _).
  - done.
  - by destruct (methods_ui_handshake w c s) as ((? & _) & _).
Qed.

Lemma step_listener (w : window) (a : action) (W : World) :
  messageListener (sys (step w a W)) = messageListener (sys W).
Proof.
  destruct a as [i|data|q| |name setter|name]; cbn [step].
  - destruct (pending W !! i) as [[t cb]|]; [|done]. apply run_callback_listener.
  - destruct (messageListener (sys W)) eqn:Hl; [|done].
    destruct (on_message_handshake w data (sys W)) as ((? & _) & _).
    cbn [enqueue sys]. congruence.
  - unfold useEmbedTheme. by destruct (truthy _).
  - unfold isEmbed. destruct (getNamespace_shape (Browser w) (sys W)) as (ns & Hs & _).
    destruct (getNamespace (Browser w) (sys W)) as [v s1]. cbn [fst snd] in *. by subst s1.
  - done.
  - done.
Qed.

Lemma run_listener (evs : list (window * action)) (W : World) :
  messageListener (sys (run evs W)) = messageListener (sys W).
Proof.
  revert W. induction evs as [|[w a] evs IH]; intros W; [done|].
  unfold run in *. simpl. rewrite IH. apply step_listener.
Qed.

Lemma bootstrap_handshake (w : window) (s : Sys) :
  isTop w = false →
  let o := bootstrap w s in
  body_display (after o) = body_display s ∧
  linkReady_fired (after o) = linkReady_fired s ∧
  count_tasks is_poll (scheduled o) = 0%nat ∧
  count_tasks is_unhide (scheduled o) = 0%nat.
Proof.
  intros Htop. cbv zeta. unfold bootstrap, isEmbed. rewrite Htop.
  destruct (negb _); [|done].
  destruct (getNamespace_shape (Browser w) s) as (ns & Hs & _).
  destruct (getNamespace (Browser w) s) as [v s1]. cbn [fst snd] in *. subst s1.
  destruct (isValidNamespace v); [|done].
  unfold keepParentInformedAboutDimensionChanges, runAsap, linkReady_fired.
  destruct (negb (truthy (CalComPageStatus w)) || loosely_equals "200" (CalComPageStatus w));
    cbn [after scheduled finished later]; autorewrite with sys;
    rewrite List.filter_app, length_app; cbn [set_watcher isSafariBrowser fired
      body_display set_messageListener set_wildcardHandler]; autorewrite with sys.
  - destruct (isSafariBrowser (set_namespace ns s)); simpl; repeat split; lia.
  - simpl. repeat split; lia.
Qed.

(** An embedded document that is not the top window starts with its body as
    the page has left it, nothing of the handshake under way. *)
Lemma handshake_inv_init (w0 : window) :
  isTop w0 = false → handshake_inv 0 (module_init (Browser w0)).
Proof.
  intros Htop. unfold module_init.
  set (s2 := if isSafariBrowser _ then _ else _).
  assert (body_display s2 = None ∧ linkReady_fired s2 = 0%nat) as [Hb Hl].
  { subst s2. unfold linkReady_fired.
    destruct (isSafariBrowser _); autorewrite with sys; done. }
  clearbody s2.
  destruct (bootstrap_handshake w0 s2 Htop) as (Hb' & Hl' & Hp & Hu).
  unfold handshake_inv, enqueue. cbn [sys pending app].
  rewrite Hb', Hl', Hp, Hu, Hb, Hl. split; [lia|]. split; [|by left].
  intros [?|?]; [done|lia].
Qed.

(** With an [embed] parameter and no [prerender] the listener is installed. *)
Lemma module_init_listening (w0 : window) :
  searchParams_get "embed" (searchParams w0) ≠ JNull →
  searchParams_get "prerender" (searchParams w0) = JNull →
  messageListener (sys (module_init (Browser w0))) = true.
Proof.
  intros Hembed Hpre. unfold module_init, bootstrap, isEmbed. rewrite Hpre.
  cbn [is_str negb enqueue sys].
  set (s2 := if isSafariBrowser _ then _ else _).
  assert (isValidNamespace (getNamespace (Browser w0) s2).1 = true) as Hv.
  { unfold getNamespace.
    destruct (isValidNamespace (namespace (store s2))) eqn:E; [done|]. cbn [fst].
    pose proof (searchParams_get_not_undefined "embed" (searchParams w0)).
    by destruct (searchParams_get "embed" (searchParams w0)). }
  destruct (getNamespace (Browser w0) s2) as [ns s3]. cbn [fst] in Hv. rewrite Hv.
  unfold keepParentInformedAboutDimensionChanges.
  destruct (negb (truthy (CalComPageStatus w0)) || loosely_equals "200" (CalComPageStatus w0));
    cbn [after finished later]; by autorewrite with sys.
Qed.

(** C6, as stated, fails: a document is loaded inside an iframe with an
    [embed] parameter and no [prerender] parameter; the watcher reports the
    first height, the parent sends [parentKnowsIframeReady] twice, and the
    poll of each instruction runs.  The body is then visible, and
    [linkReady] has been fired twice, not exactly once. *)
Lemma linkReady_fires_for_each_of_two_instructions :
  let w := example_window [("embed", "abc")] JUndefined 500 in
  let evs := [(w, RunTask 0); (w, RunTask 0);
              (w, Message (Some (cal_message "parentKnowsIframeReady" None)));
              (w, Message (Some (cal_message "parentKnowsIframeReady" None)));
              (w, RunTask 1); (w, RunTask 1); (w, RunTask 1)] in
  let W := run evs (module_init (Browser w)) in
  isTop w = false ∧
  searchParams_get "embed" (searchParams w) = JStr "abc" ∧
  searchParams_get "prerender" (searchParams w) = JNull ∧
  instructions_received evs = 2%nat ∧
  parentInformedAboutContentHeight (store (sys W)) = true ∧
  body_display (sys W) = Some "block" ∧
  fired (sys W)
  = [iframeReady; windowLoadComplete; dimension_changed 500 640 true; linkReady; linkReady] ∧
  linkReady_fired (sys W) = 2%nat ∧
  linkReady_fired (sys W) ≠ 1%nat.
Proof.
  intros w evs W. repeat split; try (vm_compute; reflexivity).
  vm_compute. discriminate.
Qed.

(** C6, amended: in a document loaded inside an iframe with an [embed]
    parameter and no [prerender] parameter, whatever happens, the message
    listener is installed, and the body is shown only once a
    [parentKnowsIframeReady] instruction has been received and
    [parentInformedAboutContentHeight] has become true; [linkReady] is fired
    once for each instruction received, never more often than instructions
    were received, so exactly once when one instruction has made the body
    visible.  The
    steps in between: the instruction schedules the poll; the poll changes
    nothing while the flag is false; once the flag is true the poll fires
    [linkReady] one time and schedules [unhideBody], which shows the body. *)
Theorem body_hidden_until_parent_knows
    (w0 : window) (evs : list (window * action)) :
  isTop w0 = false →
  searchParams_get "embed" (searchParams w0) ≠ JNull →
  searchParams_get "prerender" (searchParams w0) = JNull →
  let W := run evs (module_init (Browser w0)) in
  messageListener (sys W) = true ∧
  (body_display (sys W) = None ∨ body_display (sys W) = Some "block") ∧
  (body_display (sys W) = Some "block" →
   (1 ≤ instructions_received evs)%nat ∧
   parentInformedAboutContentHeight (store (sys W)) = true ∧
   (1 ≤ linkReady_fired (sys W))%nat) ∧
  (linkReady_fired (sys W) ≤ instructions_received evs)%nat ∧
  (instructions_received evs = 1%nat → body_display (sys W) = Some "block" →
   linkReady_fired (sys W) = 1%nat) ∧
  (∀ w : window,
     count_tasks is_poll
       (pending (step w (Message (Some (cal_message "parentKnowsIframeReady" None))) W))
     = S (count_tasks is_poll (pending W))) ∧
  (∀ (w : window) (i : nat) (t : timer),
     pending W !! i = Some (t, CbTryInformingLinkReady) →
     let W' := step w (RunTask i) W in
     body_display (sys W') = body_display (sys W) ∧
     if parentInformedAboutContentHeight (store (sys W)) then
       linkReady_fired (sys W') = S (linkReady_fired (sys W)) ∧
       (AnimationFrame, CbUnhideBody) ∈ pending W'
     else
       linkReady_fired (sys W') = linkReady_fired (sys W) ∧
       count_tasks is_poll (pending W') = count_tasks is_poll (pending W)) ∧
  (∀ (w : window) (j : nat) (t : timer),
     pending W !! j = Some (t, CbUnhideBody) →
     body_display (sys (step w (RunTask j) W)) = Some "block").
Proof.
  intros Htop Hembed Hpre W.
  pose proof (handshake_inv_run evs 0 _ (handshake_inv_init w0 Htop)) as (HA & HB & HC).
  fold W in HA, HB, HC. rewrite Nat.add_0_l in HA.
  assert (messageListener (sys W) = true) as Hlisten.
  { subst W. rewrite run_listener. by apply module_init_listening. }
  split; [done|]. split; [done|]. split; [|split; [|split; [|split; [|split]]]].
  - intros Hvis. destruct HB as [? ?]; [left; by rewrite Hvis|]. repeat split; [lia|done|done].
  - lia.
  - intros Hone Hvis. destruct HB as [? ?]; [left; by rewrite Hvis|]. lia.
  - intros w. cbn [step]. rewrite Hlisten.
    destruct (on_message_handshake w (Some (cal_message "parentKnowsIframeReady" None)) (sys W))
      as (_ & _ & Hp & _).
    unfold enqueue. cbn [pending]. rewrite count_tasks_app, Hp. simpl. lia.
  - intros w i t Hi. cbv zeta. cbn [step]. rewrite Hi. unfold enqueue. cbn [sys pending run_callback].
    destruct (run_tryInformingLinkReady_handshake w (sys W)) as ((_ & Hb & _) & Hcase).
    split; [done|].
    destruct (parentInformedAboutContentHeight (store (sys W))).
    + destruct Hcase as [Hl ->]. split; [done|]. apply elem_of_app. right.
      apply list_elem_of_here.
    + destruct Hcase as (Hl & Hp & _). split; [done|].
      rewrite count_tasks_app, Hp.
      pose proof (count_tasks_delete is_poll _ _ _ Hi) as Hd. simpl in Hd. lia.
  - intros w j t Hj. cbn [step]. by rewrite Hj.
Qed.

Lemma body_hidden_until_parent_knows_witness :
  let w := example_window [("embed", "abc")] JUndefined 500 in
  let evs := [(w, Message (Some (cal_message "parentKnowsIframeReady" None)));
              (w, RunTask 0); (w, RunTask 1); (w, RunTask 0); (w, RunTask 1)] in
  let W := run evs (module_init (Browser w)) in
  body_display (sys W) = Some "block" ∧ linkReady_fired (sys W) = 1%nat.
Proof.
  intros w evs W.
  assert (body_display (sys W) = Some "block") as Hvis by (vm_compute; reflexivity).
  split; [exact Hvis|].
  exact (proj1 (proj2 (proj2 (proj2 (proj2
           (body_hidden_until_parent_knows w evs eq_refl ltac:(vm_compute; discriminate)
              eq_refl)))))
           eq_refl Hvis).
Defined.

Lemma prerender_suppresses_the_protocol_witness :
  let w := example_window [("prerender", "true"); ("embed", "abc")] (JStr "PRO") 500 in
  let c := {| ui_theme := "dark"; ui_styles := {[ "body" := {[ "background" := "blue" ]} ]} |} in
  let evs := [(w, Message (Some (cal_message "parentKnowsIframeReady" None)));
              (w, Message (Some (cal_message "ui" (Some c))));
              (w, RunTask 0); (w, CallIsEmbed); (w, Mount "body" 1)] in
  posted (sys (run evs (module_init (Browser w)))) = [].
Proof.
  intros w c evs.
  exact (proj1 (prerender_suppresses_the_protocol w evs eq_refl)).
Defined.

(** * Further properties of the module *)

(** ** The registry as a map *)

Lemma obj_set_elem_of (k : string) (v : nat) (o : list (string * nat)) (k' : string) (v' : nat) :
  NoDup o.*1 →
  (k', v') ∈ obj_set k v o ↔ (k' = k ∧ v' = v) ∨ (k' ≠ k ∧ (k', v') ∈ o).
Proof.
  induction o as [|[k0 v0] o IH]; intros Hnd.
  - simpl. rewrite list_elem_of_singleton. split.
    + intros [= -> ->]. by left.
    + intros [[-> ->]|[_ Hin]]; [done|]. by apply elem_of_nil in Hin.
  - apply NoDup_cons in Hnd as [Hnotin Hnd]. simpl.
    destruct (String.eqb_spec k0 k) as [->|Hne].
    + rewrite !elem_of_cons. split.
      * intros [[= -> ->]|Hin]; [by left|]. right. split; [|by right].
        intros ->. apply Hnotin. apply list_elem_of_fmap. by exists (k, v').
      * intros [[-> ->]|[Hne [[= -> ->]|Hin]]]; [by left|done|by right].
    + rewrite !elem_of_cons, IH by done. split.
      * intros [[= -> ->]|[[-> ->]|[Hne' Hin]]]; [right|by left|right]; split; auto.
      * intros [[-> ->]|[Hne' [[= -> ->]|Hin]]]; [right; by left|by left|right; right; auto].
Qed.

Lemma obj_set_keys_distinct (k : string) (v : nat) (o : list (string * nat)) :
  NoDup o.*1 → NoDup (obj_set k v o).*1.
Proof.
  induction o as [|[k0 v0] o IH]; intros Hnd; simpl.
  - apply NoDup_singleton.
  - apply NoDup_cons in Hnd as [Hnotin Hnd].
    destruct (String.eqb_spec k0 k) as [->|Hne]; simpl.
    + by apply NoDup_cons.
    + apply NoDup_cons. split; [|by apply IH].
      intros Hin. apply list_elem_of_fmap in Hin as ([k1 v1] & Heq & Hin). simpl in Heq. subst k1.
      apply obj_set_elem_of in Hin as [[-> _]|[_ Hin]]; [done| |done].
      apply Hnotin. apply list_elem_of_fmap. by exists (k0, v1).
Qed.

Lemma obj_delete_elem_of (k : string) (o : list (string * nat)) (k' : string) (v' : nat) :
  NoDup o.*1 →
  (k', v') ∈ obj_delete k o ↔ k' ≠ k ∧ (k', v') ∈ o.
Proof.
  induction o as [|[k0 v0] o IH]; intros Hnd; simpl.
  - split; [by intros ?%elem_of_nil|by intros [_ ?%elem_of_nil]].
  - apply NoDup_cons in Hnd as [Hnotin Hnd].
    destruct (String.eqb_spec k0 k) as [->|Hne].
    + rewrite elem_of_cons. split.
      * intros Hin. split; [|by right]. intros ->. apply Hnotin.
        apply list_elem_of_fmap. by exists (k, v').
      * intros [Hne [[= -> ->]|Hin]]; done.
    + rewrite !elem_of_cons, IH by done. split.
      * intros [[= -> ->]|[Hne' Hin]]; split; auto.
      * intros [Hne' [[= -> ->]|Hin]]; [by left|right; auto].
Qed.

Lemma obj_delete_keys_distinct (k : string) (o : list (string * nat)) :
  NoDup o.*1 → NoDup (obj_delete k o).*1.
Proof.
  induction o as [|[k0 v0] o IH]; intros Hnd; simpl; [done|].
  apply NoDup_cons in Hnd as [Hnotin Hnd].
  destruct (String.eqb_spec k0 k) as [->|Hne]; simpl; [done|].
  apply NoDup_cons. split; [|by apply IH].
  intros Hin. apply list_elem_of_fmap in Hin as ([k1 v1] & Heq & Hin). simpl in Heq. subst k1.
  apply obj_delete_elem_of in Hin as [_ Hin]; [|done].
  apply Hnotin. apply list_elem_of_fmap. by exists (k0, v1).
Qed.

(** Only mounting and unmounting touch the registry. *)
Lemma run_informAboutScroll_registry (w : window) (s : Sys) :
  reactStylesStateSetters (store (after (run_informAboutScroll w s)))
  = reactStylesStateSetters (store s).
Proof.
  rewrite run_informAboutScroll_blocks.
  destruct (negb _); [done|]. destruct (negb _); [done|].
  assert (reactStylesStateSetters (store (announce_load w s))
          = reactStylesStateSetters (store s)) as H1.
  { unfold announce_load. destruct (negb _); by sys_simpl. }
  set (s1 := announce_load w s) in *. clearbody s1.
  assert (reactStylesStateSetters (store (measure_and_report w s1))
          = reactStylesStateSetters (store s1)) as H2.
  { unfold measure_and_report. cbv zeta. case_decide; by sys_simpl. }
  set (s2 := measure_and_report w s1) in *. clearbody s2.
  unfold reschedule_or_stop. destruct (Nat.ltb 50 _); simpl; congruence.
Qed.

Lemma methods_ui_registry (w : window) (c : option UiConfig) (s : Sys) :
  reactStylesStateSetters (store (after (methods_ui w c s)))
  = reactStylesStateSetters (store s).
Proof. unfold methods_ui, setEmbedStyles. repeat case_match; by sys_simpl. Qed.

Lemma run_callback_registry (w : window) (cb : callback) (s : Sys) :
  reactStylesStateSetters (store (after (run_callback w cb s)))
  = reactStylesStateSetters (store s).
Proof.
  destruct cb as [| | | |c]; cbn [run_callback].
  - apply run_informAboutScroll_registry.
  - unfold run_windowLoadSettled. by rewrite run_informAboutScroll_registry.
  - unfold run_tryInformingLinkReady. destruct (negb _); by sys_simpl.
  - done.
  - apply methods_ui_registry.
Qed.

Lemma on_message_registry (w : window) (data : option message_data) (s : Sys) :
  reactStylesStateSetters (store (after (on_message w data s)))
  = reactStylesStateSetters (store s).
Proof.
  unfold on_message, call_method. repeat case_match; try done.
  - apply methods_ui_registry.
  - unfold methods_parentKnowsIframeReady. by sys_simpl.
Qed.

Lemma registry_keys_distinct_step (w : window) (a : action) (W : World) :
  registry_keys_distinct (sys W) → registry_keys_distinct (sys (step w a W)).
Proof.
  unfold registry_keys_distinct. intros Hnd.
  destruct a as [i|data|q| |name setter|name]; cbn [step].
  - destruct (pending W !! i) as [[t cb]|]; [|done].
    cbn [enqueue sys]. by rewrite run_callback_registry.
  - destruct (messageListener (sys W)); [|done].
    cbn [enqueue sys]. by rewrite on_message_registry.
  - unfold useEmbedTheme. by destruct (truthy _).
  - unfold isEmbed. destruct (getNamespace_shape (Browser w) (sys W)) as (ns & Hs & _).
    destruct (getNamespace (Browser w) (sys W)) as [v s1]. cbn [fst snd] in *. by subst s1.
  - cbn [sys]. unfold registerNewSetter. simpl. by apply obj_set_keys_distinct.
  - cbn [sys]. unfold removeFromEmbedStylesSetterMap. simpl. by apply obj_delete_keys_distinct.
Qed.

Lemma registry_keys_distinct_run (evs : list (window * action)) (W : World) :
  registry_keys_distinct (sys W) → registry_keys_distinct (sys (run evs W)).
Proof.
  revert W. induction evs as [|[w a] evs IH]; intros W HW; [done|].
  apply IH. by apply registry_keys_distinct_step.
Qed.

Lemma bootstrap_registry (w : window) (s : Sys) :
  reactStylesStateSetters (store (after (bootstrap w s)))
  = reactStylesStateSetters (store s).
Proof.
  unfold bootstrap, isEmbed. destruct (negb _); [|done].
  destruct (getNamespace_shape (Browser w) s) as (ns & Hs & _).
  destruct (getNamespace (Browser w) s) as [v s1]. cbn [fst snd] in *. subst s1.
  destruct (isValidNamespace v); [|done].
  unfold keepParentInformedAboutDimensionChanges, unhideBody.
  repeat case_match; by sys_simpl.
Qed.

Lemma registry_keys_distinct_init (r : runtime) :
  registry_keys_distinct (sys (module_init r)).
Proof.
  unfold registry_keys_distinct. destruct r as [|w]; [apply NoDup_nil_2|].
  unfold module_init. cbn [enqueue sys]. rewrite bootstrap_registry.
  destruct (isSafariBrowser _); sys_simpl; apply NoDup_nil_2.
Qed.

(** X1: in every document, at every moment, no element name is registered
    twice; and mounting a component under a name registers its setter as the
    only one of that name, replacing whatever was registered (the last
    registration wins), while the entries of other names stay as they are. *)
Theorem registration_is_per_name_last_wins
    (r : runtime) (evs : list (window * action)) (w : window)
    (elementName : string) (setStyles : nat) :
  let W := run evs (module_init r) in
  let W' := step w (Mount elementName setStyles) W in
  registry_keys_distinct (sys W) ∧
  (∀ setter : nat,
     (elementName, setter) ∈ reactStylesStateSetters (store (sys W')) ↔ setter = setStyles) ∧
  (∀ (other : string) (setter : nat),
     other ≠ elementName →
     ((other, setter) ∈ reactStylesStateSetters (store (sys W'))
      ↔ (other, setter) ∈ reactStylesStateSetters (store (sys W)))).
Proof.
  intros W W'.
  pose proof (registry_keys_distinct_run evs _ (registry_keys_distinct_init r)) as Hnd.
  fold W in Hnd. split; [done|]. subst W'. cbn [step sys]. unfold registerNewSetter. simpl.
  split.
  - intros setter. rewrite obj_set_elem_of by done. split.
    + intros [[_ ->]|[Hne _]]; done.
    + intros ->. by left.
  - intros other setter Hne. rewrite obj_set_elem_of by done. split.
    + intros [[-> _]|[_ Hin]]; done.
    + intros Hin. by right.
Qed.

Lemma registration_is_per_name_last_wins_witness :
  let w := example_window [("embed", "abc")] JUndefined 500 in
  let W := run [(w, Mount "body" 1); (w, Mount "branding" 2)] (module_init (Browser w)) in
  let W' := step w (Mount "body" 3) W in
  ("branding", 2%nat) ∈ reactStylesStateSetters (store (sys W')).
Proof.
  intros w W W'.
  apply (proj2 (proj2 (registration_is_per_name_last_wins (Browser w)
                         [(w, Mount "body" 1); (w, Mount "branding" 2)] w "body" 3))
           "branding" 2%nat ltac:(discriminate)).
  vm_compute. apply list_elem_of_further, list_elem_of_here.
Defined.

Lemma component_state_snoc_value (setter : nat) (calls : list (nat * SetStateAction))
    (v : EmbedStyles) :
  component_state setter (calls ++ [(setter, SetValue v)]) = v.
Proof. rewrite component_state_app. simpl. by rewrite Nat.eqb_refl. Qed.

Lemma setEmbedStyles_component (cfg : EmbedStyles) (setter : nat) (s : Sys) :
  component_state setter (setterCalls (setEmbedStyles cfg s))
  = if bool_decide (setter ∈ (reactStylesStateSetters (store s)).*2)
    then spread (component_state setter (setterCalls s)) cfg
    else component_state setter (setterCalls s).
Proof.
  unfold setEmbedStyles, registered. cbn -[component_state spread].
  by rewrite component_state_app, notify_fold.
Qed.

(** X2: in every document, unmounting a component removes the registration
    of its name and no other; a broadcast that follows leaves the state of
    the removed component alone, unless its setter is still registered under
    another name. *)
Theorem unregistered_setter_is_not_notified
    (r : runtime) (evs : list (window * action)) (w : window)
    (elementName : string) (setStyles : nat) (stylesConfig : EmbedStyles) :
  let W := run evs (module_init r) in
  let W' := step w (Unmount elementName) W in
  (∀ setter : nat, (elementName, setter) ∉ reactStylesStateSetters (store (sys W'))) ∧
  (∀ (other : string) (setter : nat),
     other ≠ elementName →
     ((other, setter) ∈ reactStylesStateSetters (store (sys W'))
      ↔ (other, setter) ∈ reactStylesStateSetters (store (sys W)))) ∧
  ((∀ other : string,
      (other, setStyles) ∈ reactStylesStateSetters (store (sys W)) → other = elementName) →
   component_state setStyles (setterCalls (setEmbedStyles stylesConfig (sys W')))
   = component_state setStyles (setterCalls (sys W))).
Proof.
  intros W W'.
  pose proof (registry_keys_distinct_run evs _ (registry_keys_distinct_init r)) as Hnd.
  fold W in Hnd. unfold registry_keys_distinct in Hnd.
  subst W'. cbn [step sys].
  assert (∀ k v, (k, v) ∈ reactStylesStateSetters
                    (store (removeFromEmbedStylesSetterMap elementName (sys W)))
                 ↔ k ≠ elementName ∧ (k, v) ∈ reactStylesStateSetters (store (sys W))) as Hdel.
  { intros k v. unfold removeFromEmbedStylesSetterMap. simpl. by apply obj_delete_elem_of. }
  split; [|split].
  - intros setter Hin. apply Hdel in Hin as [Hne _]. done.
  - intros other setter Hne. rewrite Hdel. split; [by intros [_ ?]|done].
  - intros Honly. rewrite setEmbedStyles_component.
    rewrite bool_decide_eq_false_2; [done|].
    unfold registered. intros Hin.
    apply list_elem_of_fmap in Hin as ([k v] & Heq & Hin). simpl in Heq. subst v.
    apply Hdel in Hin as [Hne Hin]. by apply Honly in Hin.
Qed.

Lemma unregistered_setter_is_not_notified_witness :
  let w := example_window [("embed", "abc")] JUndefined 500 in
  let new : EmbedStyles := {[ "body" := {[ "background" := "blue" ]} ]} in
  let W := run [(w, Mount "body" 1); (w, Mount "branding" 2)] (module_init (Browser w)) in
  let W' := step w (Unmount "body") W in
  component_state 1 (setterCalls (setEmbedStyles new (sys W')))
  = component_state 1 (setterCalls (sys W)).
Proof.
  intros w new W W'.
  apply (proj2 (proj2 (unregistered_setter_is_not_notified (Browser w)
                         [(w, Mount "body" 1); (w, Mount "branding" 2)] w "body" 1 new))).
  intros other Hin. vm_compute in Hin.
  apply elem_of_cons in Hin as [Heq|Hin]; [by injection Heq|].
  apply elem_of_cons in Hin as [Heq|Hin]; [discriminate Heq|].
  by apply elem_of_nil in Hin.
Defined.

(** X3: a component that mounts after a [ui] instruction has been applied is
    handed the styles of that instruction at once: whatever its setter had
    been called with before, its hook returns the slice of the applied
    configuration. *)
Theorem late_mount_gets_applied_styles
    (w : window) (c : UiConfig) (elementName : string) (setStyles : nat) (s : Sys) :
  CalComPlan w = JStr "PRO" →
  let s1 := after (methods_ui w (Some c) s) in
  let s2 := registerNewSetter elementName setStyles s1 in
  useEmbedStyles elementName setStyles s2 = slice elementName (ui_styles c) ∧
  styles (store s2) = ui_styles c.
Proof.
  intros Hp s1 s2.
  destruct (methods_ui_applied w c s Hp) as (_ & _ & _ & _ & Hv).
  fold s1 in Hv. unfold style_view in Hv. injection Hv as Hst _ _ _.
  subst s2. unfold useEmbedStyles, registerNewSetter. cbn -[component_state slice].
  by rewrite component_state_snoc_value, Hst.
Qed.

Lemma late_mount_gets_applied_styles_witness :
  let w := example_window [("embed", "abc")] (JStr "PRO") 500 in
  let c := {| ui_theme := "dark";
              ui_styles := {[ "eventTypeListItem" := {[ "color" := "blue" ]} ]} |} in
  useEmbedStyles "eventTypeListItem" 4
    (registerNewSetter "eventTypeListItem" 4 (after (methods_ui w (Some c) Sys_init)))
  = slice "eventTypeListItem" (ui_styles c).
Proof.
  intros w c.
  exact (proj1 (late_mount_gets_applied_styles w c "eventTypeListItem" 4 Sys_init eq_refl)).
Defined.

(** X4: when a [ui] instruction is applied, the hook of a mounted component
    returns the new attributes of its target if the instruction names the
    target, and what it returned before otherwise; the hook of a component
    that is not registered returns what it returned before.  So for a
    mounted component [useIsBackgroundTransparent] answers, when the
    instruction names the body, whether the instruction gives the body the
    background ["transparent"], and what it answered before when the
    instruction does not name the body; for a component that is not
    registered it answers what it answered before. *)
Theorem applied_styles_reach_mounted_components
    (w : window) (c : UiConfig) (elementName : string) (setStyles : nat) (s : Sys) :
  CalComPlan w = JStr "PRO" →
  let s' := after (methods_ui w (Some c) s) in
  (registered setStyles s →
   useEmbedStyles elementName setStyles s'
   = match ui_styles c !! elementName with
     | Some new => new
     | None => useEmbedStyles elementName setStyles s
     end) ∧
  (¬ registered setStyles s →
   useEmbedStyles elementName setStyles s' = useEmbedStyles elementName setStyles s) ∧
  (registered setStyles s →
   useIsBackgroundTransparent setStyles s'
   = match ui_styles c !! "body" with
     | Some body => bool_decide (body !! "background" = Some "transparent")
     | None => useIsBackgroundTransparent setStyles s
     end) ∧
  (¬ registered setStyles s →
   useIsBackgroundTransparent setStyles s' = useIsBackgroundTransparent setStyles s).
Proof.
  intros Hp s'.
  destruct (methods_ui_applied w c s Hp) as (_ & _ & _ & _ & Hv).
  fold s' in Hv. unfold style_view in Hv. injection Hv as _ _ _ Hcalls.
  assert (∀ name, registered setStyles s →
            useEmbedStyles name setStyles s'
            = match ui_styles c !! name with
              | Some new => new
              | None => useEmbedStyles name setStyles s
              end) as Hreg.
  { intros name Hr. unfold useEmbedStyles. rewrite Hcalls, component_state_app, notify_fold.
    rewrite bool_decide_eq_true_2 by done. unfold slice, spread. rewrite lookup_union.
    destruct (ui_styles c !! name); by destruct (_ !! name). }
  assert (∀ name, ¬ registered setStyles s →
            useEmbedStyles name setStyles s' = useEmbedStyles name setStyles s) as Hunreg.
  { intros name Hr. unfold useEmbedStyles. rewrite Hcalls, component_state_app, notify_fold.
    by rewrite bool_decide_eq_false_2. }
  split; [apply Hreg|]. split; [apply Hunreg|]. split.
  - intros Hr. unfold useIsBackgroundTransparent. rewrite Hreg by done.
    destruct (ui_styles c !! "body") as [body|]; [|done].
    destruct (body !! "background") as [bg|]; [|done].
    destruct (String.eqb_spec bg "transparent") as [->|Hne].
    + by rewrite bool_decide_eq_true_2.
    + rewrite bool_decide_eq_false_2; [done|]. by intros [= ->].
  - intros Hr. unfold useIsBackgroundTransparent. by rewrite Hunreg.
Qed.

Lemma applied_styles_reach_mounted_components_witness :
  let w := example_window [("embed", "abc")] (JStr "PRO") 500 in
  let c := {| ui_theme := "dark";
              ui_styles := {[ "body" := {[ "background" := "transparent" ]} ]} |} in
  let c' := {| ui_theme := "dark";
               ui_styles := {[ "eventTypeListItem" := {[ "color" := "blue" ]} ]} |} in
  let s := registerNewSetter "body" 1 Sys_init in
  let s1 := after (methods_ui w (Some c) s) in
  useIsBackgroundTransparent 1 s1 = true ∧
  useIsBackgroundTransparent 1 (after (methods_ui w (Some c') s1)) = true.
Proof.
  intros w c c' s s1.
  assert (registered 1 s) as Hr by (vm_compute; apply list_elem_of_here).
  assert (registered 1 s1) as Hr1 by (vm_compute; apply list_elem_of_here).
  assert (useIsBackgroundTransparent 1 s1 = true) as H1.
  { exact (proj1 (proj2 (proj2 (applied_styles_reach_mounted_components w c "body" 1 s eq_refl)))
             Hr). }
  split; [exact H1|].
  etrans;
    [exact (proj1 (proj2 (proj2 (applied_styles_reach_mounted_components
                                   w c' "body" 1 s1 eq_refl))) Hr1)|].
  exact H1.
Defined.

(** ** What is fired, and in which order *)

Lemma linkReady_after_dimensions_snoc (l : list sdk_event) (e : sdk_event) :
  linkReady_after_dimensions l →
  (e ≠ linkReady ∨ ∃ d, d ∈ l ∧ is_dimension_changed d = true) →
  linkReady_after_dimensions (l ++ [e]).
Proof.
  intros Hl He l1 l2. destruct l2 as [|x l2 _] using rev_ind.
  - intros Heq. apply app_inj_tail in Heq as [-> ->].
    destruct He as [?|?]; done.
  - intros Heq. change (l1 ++ linkReady :: l2 ++ [x]) with (l1 ++ (linkReady :: l2) ++ [x]) in Heq.
    rewrite app_assoc in Heq. apply app_inj_tail in Heq as [-> _]. by apply (Hl l1 l2).
Qed.

(** The invariant depends on these parts of the state only. *)
Lemma protocol_inv_ext (s s' : Sys) :
  wildcardHandler s' = wildcardHandler s →
  posted s' = posted s →
  fired s' = fired s →
  windowLoadEventFired (store s') = windowLoadEventFired (store s) →
  parentInformedAboutContentHeight (store s') = parentInformedAboutContentHeight (store s) →
  knownIframeHeight (watcher s') = knownIframeHeight (watcher s) →
  protocol_inv s → protocol_inv s'.
Proof.
  unfold protocol_inv, windowLoadComplete_fired.
  intros -> -> -> -> -> ->. done.
Qed.

Lemma protocol_inv_fire (w : window) (e : sdk_event) (s : Sys) :
  e ≠ windowLoadComplete →
  (e ≠ linkReady ∨ parentInformedAboutContentHeight (store s) = true) →
  protocol_inv s → protocol_inv (fire w e s).
Proof.
  intros Hw Hl (Hh & Hp & Hz & Hone & Hflag & Hknown & Hord).
  unfold protocol_inv, windowLoadComplete_fired. autorewrite with sys.
  rewrite Hh, Hp, List.filter_app, length_app.
  assert (List.filter is_windowLoadComplete [e] = []) as -> by (by destruct e).
  simpl. rewrite !Nat.add_0_r.
  split; [done|]. split; [done|]. split; [done|]. split; [done|]. split; [done|]. split.
  - intros Hk. destruct (Hknown Hk) as (d & Hd & Hdc). exists d.
    split; [|done]. apply elem_of_app. by left.
  - apply linkReady_after_dimensions_snoc; [done|].
    destruct Hl as [?|Hf]; [by left|right]. auto.
Qed.

Lemma protocol_inv_log (r : runtime) (args : list log_arg) (s : Sys) :
  protocol_inv s → protocol_inv (log r args s).
Proof. apply protocol_inv_ext; by autorewrite with sys. Qed.

Lemma protocol_inv_announce_load (w : window) (s : Sys) :
  protocol_inv s → protocol_inv (announce_load w s).
Proof.
  intros Hinv. unfold announce_load.
  destruct (windowLoadEventFired (store s)) eqn:Hfired; cbn [negb].
  - revert Hinv. apply protocol_inv_ext; by sys_simpl.
  - destruct Hinv as (Hh & Hp & Hz & Hone & Hflag & Hknown & Hord).
    unfold protocol_inv, windowLoadComplete_fired. sys_simpl.
    rewrite Hh, Hp, List.filter_app, length_app. unfold windowLoadComplete_fired in Hz.
    rewrite (Hz Hfired). simpl.
    split; [done|]. split; [done|]. split; [done|]. split; [lia|]. split; [done|]. split.
    + intros Hk. destruct (Hknown Hk) as (d & Hd & Hdc). exists d.
      split; [|done]. apply elem_of_app. by left.
    + apply linkReady_after_dimensions_snoc; [done|by left].
Qed.

Lemma protocol_inv_measure_and_report (w : window) (s : Sys) :
  protocol_inv s → protocol_inv (measure_and_report w s).
Proof.
  intros Hinv. unfold measure_and_report. cbv zeta.
  change (watcher (set_parentInformedAboutContentHeight true s)) with (watcher s).
  set (h := if isFirstTime (watcher s) then scrollHeight w else offsetHeight w).
  set (wd := if isFirstTime (watcher s) then scrollWidth w else offsetWidth w).
  destruct (decide (knownIframeHeight (watcher s) = Some h)) as [Hk|Hk].
  - destruct Hinv as (Hh & Hp & Hz & Hone & Hflag & Hknown & Hord).
    unfold protocol_inv, windowLoadComplete_fired. sys_simpl.
    split; [done|]. split; [done|]. split; [done|]. split; [done|].
    split; [by rewrite Hk|]. split; [|done].
    intros _. apply Hknown. by rewrite Hk.
  - destruct Hinv as (Hh & Hp & Hz & Hone & Hflag & Hknown & Hord).
    unfold protocol_inv, windowLoadComplete_fired in *. sys_simpl.
    rewrite Hh, Hp, List.filter_app, length_app. simpl. rewrite !Nat.add_0_r.
    split; [done|]. split; [done|]. split; [done|]. split; [done|]. split; [done|]. split.
    + intros _. eexists. split; [apply elem_of_app; right; apply list_elem_of_here|done].
    + apply linkReady_after_dimensions_snoc; [done|by left].
Qed.

Lemma protocol_inv_run_informAboutScroll (w : window) (s : Sys) :
  protocol_inv s → protocol_inv (after (run_informAboutScroll w s)).
Proof.
  intros Hinv. rewrite run_informAboutScroll_blocks.
  destruct (negb _); [done|]. destruct (negb _); [done|].
  apply (protocol_inv_announce_load w) in Hinv.
  apply (protocol_inv_measure_and_report w) in Hinv.
  set (s2 := measure_and_report w (announce_load w s)) in *. clearbody s2.
  unfold reschedule_or_stop. destruct (Nat.ltb 50 _); [|done].
  revert Hinv. by apply protocol_inv_ext.
Qed.

Lemma protocol_inv_methods_ui (w : window) (c : option UiConfig) (s : Sys) :
  protocol_inv s → protocol_inv (after (methods_ui w c s)).
Proof.
  unfold methods_ui, setEmbedStyles.
  repeat case_match; apply protocol_inv_ext; by sys_simpl.
Qed.

Lemma protocol_inv_run_callback (w : window) (cb : callback) (s : Sys) :
  protocol_inv s → protocol_inv (after (run_callback w cb s)).
Proof.
  intros Hinv. destruct cb as [| | | |c]; cbn [run_callback].
  - by apply protocol_inv_run_informAboutScroll.
  - unfold run_windowLoadSettled. apply protocol_inv_run_informAboutScroll.
    revert Hinv. by apply protocol_inv_ext.
  - unfold run_tryInformingLinkReady.
    destruct (parentInformedAboutContentHeight (store s)) eqn:Hflag; cbn [negb after later];
      [|done].
    apply protocol_inv_fire; [done|by right|done].
  - revert Hinv. by apply protocol_inv_ext.
  - by apply protocol_inv_methods_ui.
Qed.

Lemma protocol_inv_on_message (w : window) (data : option message_data) (s : Sys) :
  protocol_inv s → protocol_inv (after (on_message w data s)).
Proof.
  intros Hinv. unfold on_message, call_method. repeat case_match; try done.
  - by apply protocol_inv_methods_ui.
  - unfold methods_parentKnowsIframeReady. cbn [after later]. by apply protocol_inv_log.
Qed.

Lemma quiet_or_protocol_step (w : window) (a : action) (W : World) :
  quiet W ∨ protocol_inv (sys W) →
  quiet (step w a W) ∨ protocol_inv (sys (step w a W)).
Proof.
  intros [Hq|Hinv]; [left; by apply quiet_step|right].
  destruct a as [i|data|q| |name setter|name]; cbn [step].
  - destruct (pending W !! i) as [[t cb]|]; [|done].
    cbn [enqueue sys]. by apply protocol_inv_run_callback.
  - destruct (messageListener (sys W)); [|done].
    cbn [enqueue sys]. by apply protocol_inv_on_message.
  - cbn [sys]. revert Hinv. apply protocol_inv_ext;
      unfold useEmbedTheme; by destruct (truthy _).
  - cbn [sys]. unfold isEmbed.
    destruct (getNamespace_shape (Browser w) (sys W)) as (ns & Hs & _).
    destruct (getNamespace (Browser w) (sys W)) as [v s1]. cbn [fst snd] in *. subst s1.
    revert Hinv. by apply protocol_inv_ext.
  - cbn [sys]. revert Hinv. by apply protocol_inv_ext.
  - cbn [sys]. revert Hinv. by apply protocol_inv_ext.
Qed.

Lemma quiet_or_protocol_run (evs : list (window * action)) (W : World) :
  quiet W ∨ protocol_inv (sys W) →
  quiet (run evs W) ∨ protocol_inv (sys (run evs W)).
Proof.
  revert W. induction evs as [|[w a] evs IH]; intros W HW; [done|].
  apply IH. by apply quiet_or_protocol_step.
Qed.

Lemma linkReady_after_dimensions_nil : linkReady_after_dimensions [].
Proof. intros l1 l2 Heq. by destruct l1. Qed.

Lemma linkReady_after_dimensions_singleton (e : sdk_event) :
  e ≠ linkReady → linkReady_after_dimensions [e].
Proof.
  intros He. apply (linkReady_after_dimensions_snoc []);
    [apply linkReady_after_dimensions_nil|by left].
Qed.

Lemma bootstrap_quiet_or_protocol (w : window) (s : Sys) :
  fired s = [] → posted s = [] →
  wildcardHandler s = false → messageListener s = false →
  windowLoadEventFired (store s) = false →
  parentInformedAboutContentHeight (store s) = false →
  knownIframeHeight (watcher s) = None →
  quiet (enqueue (bootstrap w s) []) ∨ protocol_inv (after (bootstrap w s)).
Proof.
  intros Hf Hp Hh Hl Hw Hflag Hk. unfold bootstrap, isEmbed.
  destruct (negb _); [|left; unfold quiet; simpl; done].
  destruct (getNamespace_shape (Browser w) s) as (ns & Hs & _).
  destruct (getNamespace (Browser w) s) as [v s1]. cbn [fst snd] in *. subst s1.
  destruct (isValidNamespace v); [right|left; unfold quiet; simpl; done].
  unfold keepParentInformedAboutDimensionChanges, unhideBody, protocol_inv,
    windowLoadComplete_fired.
  destruct (negb (truthy (CalComPageStatus w)) || loosely_equals "200" (CalComPageStatus w));
    destruct (isTop w); cbn [after finished later]; sys_simpl;
    rewrite ?Hf, ?Hp, ?Hw, ?Hflag, ?Hk; simpl;
    (split; [done|]; split; [done|]; split; [done|]; split; [lia|];
     split; [done|]; split; [done|]);
    by apply linkReady_after_dimensions_singleton.
Qed.

(** Every document is either one in which the protocol was never started,
    or one that keeps the invariant of the protocol. *)
Lemma quiet_or_protocol_reachable (r : runtime) (evs : list (window * action)) :
  quiet (run evs (module_init r)) ∨ protocol_inv (sys (run evs (module_init r))).
Proof.
  apply quiet_or_protocol_run. destruct r as [|w]; [left; by unfold quiet|].
  unfold module_init. set (s2 := if isSafariBrowser _ then _ else _).
  assert (fired s2 = [] ∧ posted s2 = [] ∧ wildcardHandler s2 = false ∧
          messageListener s2 = false ∧ windowLoadEventFired (store s2) = false ∧
          parentInformedAboutContentHeight (store s2) = false ∧
          knownIframeHeight (watcher s2) = None) as (? & ? & ? & ? & ? & ? & ?).
  { subst s2. destruct (isSafariBrowser _); by autorewrite with sys. }
  clearbody s2.
  destruct (bootstrap_quiet_or_protocol w s2) as [Hq|Hinv]; try done; [by left|by right].
Qed.

(** X5: whatever happens in a document, [windowLoadComplete] is fired at
    most once, and not at all while the store's [windowLoadEventFired] flag
    is unset. *)
Theorem windowLoadComplete_fired_at_most_once (r : runtime) (evs : list (window * action)) :
  let W := run evs (module_init r) in
  (windowLoadComplete_fired (sys W) ≤ 1)%nat ∧
  (windowLoadEventFired (store (sys W)) = false → windowLoadComplete_fired (sys W) = 0%nat).
Proof.
  intros W. destruct (quiet_or_protocol_reachable r evs) as [Hq|Hinv]; fold W in Hq || fold W in Hinv.
  - destruct Hq as (_ & _ & _ & Hf & _). unfold windowLoadComplete_fired. rewrite Hf.
    simpl. split; [lia|done].
  - destruct Hinv as (_ & _ & Hz & Hone & _). done.
Qed.

(** X6: whatever happens in a document, the messages posted to the parent
    are the events fired on the bus, each one once and in the order of
    firing: nothing is posted that was not fired, and nothing fired is left
    out. *)
Theorem every_fired_event_is_posted_in_order (r : runtime) (evs : list (window * action)) :
  posted (sys (run evs (module_init r))) = fired (sys (run evs (module_init r))).
Proof.
  destruct (quiet_or_protocol_reachable r evs) as [Hq|Hinv].
  - destruct Hq as (_ & _ & _ & Hf & Hp). by rewrite Hf, Hp.
  - by destruct Hinv as (_ & Hp & _).
Qed.


(** X7: whatever happens in a document, every [linkReady] is preceded by a
    [dimension-changed] event: by the time the parent is told that the link
    is ready, it has been told a height. *)
Theorem linkReady_follows_a_dimension_change
    (r : runtime) (evs : list (window * action)) (i : nat) :
  let W := run evs (module_init r) in
  fired (sys W) !! i = Some linkReady →
  ∃ (j : nat) (e : sdk_event),
    (j < i)%nat ∧ fired (sys W) !! j = Some e ∧ is_dimension_changed e = true.
Proof.
  intros W Hi.
  assert (linkReady_after_dimensions (fired (sys W))) as Hord.
  { destruct (quiet_or_protocol_reachable r evs) as [Hq|Hinv].
    - destruct Hq as (_ & _ & _ & Hf & _). fold W in Hf. rewrite Hf.
      apply linkReady_after_dimensions_nil.
    - by destruct Hinv as (_ & _ & _ & _ & _ & _ & Hord). }
  destruct (Hord (take i (fired (sys W))) (drop (S i) (fired (sys W)))) as (e & Hin & Hdc).
  { symmetry. by apply take_drop_middle. }
  apply list_elem_of_lookup in Hin as [j Hj].
  pose proof (lookup_lt_Some _ _ _ Hj) as Hlt. rewrite length_take in Hlt.
  exists j, e. split; [lia|]. split; [|done].
  rewrite lookup_take_lt in Hj by lia. done.
Qed.

Lemma linkReady_follows_a_dimension_change_witness :
  let w := example_window [("embed", "abc")] JUndefined 500 in
  let evs := [(w, Message (Some (cal_message "parentKnowsIframeReady" None)));
              (w, RunTask 0); (w, RunTask 1); (w, RunTask 0)] in
  ∃ (j : nat) (e : sdk_event),
    (j < 3)%nat ∧ fired (sys (run evs (module_init (Browser w)))) !! j = Some e ∧
    is_dimension_changed e = true.
Proof.
  intros w evs.
  apply (linkReady_follows_a_dimension_change (Browser w) evs 3).
  vm_compute. reflexivity.
Defined.

(** ** The reports of the watcher *)

Lemma reports_ok_report (l : list sdk_event) (known : option Z) (first : bool) (h wd : Z) :
  reports_ok l known first →
  known ≠ Some h →
  reports_ok (l ++ [dimension_changed h wd first]) (Some h) false.
Proof.
  intros (Hnil & Hcons & Hhead & Htail & Hadj) Hne.
  split; [|split; [|split; [|split]]].
  - intros Heq. by destruct l.
  - intros _. split; [done|]. by rewrite last_snoc.
  - intros e. destruct l as [|x l]; simpl.
    + intros [= <-]. simpl. by destruct (Hnil eq_refl).
    + intros [= <-]. by apply Hhead.
  - intros i e Hi.
    destruct (decide (S i < length l)%nat) as [Hlt|Hge].
    + rewrite lookup_app_l in Hi by done. by apply (Htail i).
    + rewrite lookup_app_r in Hi by lia.
      destruct (S i - length l)%nat as [|k] eqn:Hk; simpl in Hi; [|by destruct k].
      injection Hi as <-. simpl. destruct (Hcons ltac:(intros ->; simpl in *; lia)) as [-> _].
      done.
  - intros i a b Ha Hb.
    destruct (decide (S i < length l)%nat) as [Hlt|Hge].
    + rewrite lookup_app_l in Ha by lia. rewrite lookup_app_l in Hb by done.
      by apply (Hadj i).
    + rewrite lookup_app_r in Hb by lia.
      destruct (S i - length l)%nat as [|k] eqn:Hk; simpl in Hb; [|by destruct k].
      injection Hb as <-. simpl.
      assert (S i = length l) as Hlen by lia.
      rewrite lookup_app_l in Ha by lia.
      assert (last l = Some a) as Hlast.
      { rewrite last_lookup. replace (pred (length l)) with i by lia. done. }
      destruct (Hcons ltac:(intros ->; simpl in *; lia)) as [_ Hknown].
      rewrite Hlast in Hknown. simpl in Hknown. congruence.
Qed.

Lemma reports_ok_same (l : list sdk_event) (known : option Z) (first : bool) (h : Z) :
  reports_ok l known first →
  known = Some h →
  reports_ok l (Some h) false.
Proof.
  intros (Hnil & Hcons & Hhead & Htail & Hadj) ->.
  assert (l ≠ []) as Hne.
  { intros Heq. by destruct (Hnil Heq). }
  destruct (Hcons Hne) as [-> Hk].
  split; [done|]. split; [done|]. done.
Qed.

Lemma report_inv_ext (s s' : Sys) :
  watcher s' = watcher s →
  dimension_events (fired s') = dimension_events (fired s) →
  report_inv s → report_inv s'.
Proof. unfold report_inv. by intros -> ->. Qed.

Lemma report_inv_measure_and_report (w : window) (s : Sys) :
  report_inv s → report_inv (measure_and_report w s).
Proof.
  unfold report_inv. intros Hinv.
  destruct (measure_and_report_spec w s) as (Hw & Hev & _ & _).
  rewrite Hw, Hev. cbn [knownIframeHeight isFirstTime].
  case_bool_decide as Hk.
  - exact (reports_ok_report _ _ _ _ _ Hinv Hk).
  - rewrite app_nil_r. apply (reports_ok_same _ _ _ _ Hinv).
    by destruct (decide (knownIframeHeight (watcher s)
                         = Some (sample_height (isFirstTime (watcher s)) w))).
Qed.

Lemma report_inv_run_informAboutScroll (w : window) (s : Sys) :
  report_inv s → report_inv (after (run_informAboutScroll w s)).
Proof.
  intros Hinv. rewrite run_informAboutScroll_blocks.
  destruct (negb _); [done|]. destruct (negb _); [done|].
  assert (report_inv (announce_load w s)) as H1.
  { destruct (announce_load_frame w s) as (Hw & _ & Hev & _).
    revert Hinv. by apply report_inv_ext. }
  apply (report_inv_measure_and_report w) in H1.
  set (s2 := measure_and_report w (announce_load w s)) in *. clearbody s2.
  unfold reschedule_or_stop. destruct (Nat.ltb 50 _); [|done].
  revert H1. by apply report_inv_ext.
Qed.

Lemma methods_ui_watcher (w : window) (c : option UiConfig) (s : Sys) :
  watcher (after (methods_ui w c s)) = watcher s ∧
  fired (after (methods_ui w c s)) = fired s.
Proof. unfold methods_ui, setEmbedStyles. repeat case_match; by sys_simpl. Qed.

Lemma report_inv_run_callback (w : window) (cb : callback) (s : Sys) :
  report_inv s → report_inv (after (run_callback w cb s)).
Proof.
  intros Hinv. destruct cb as [| | | |c]; cbn [run_callback].
  - by apply report_inv_run_informAboutScroll.
  - unfold run_windowLoadSettled. apply report_inv_run_informAboutScroll.
    unfold report_inv in *. done.
  - unfold run_tryInformingLinkReady. destruct (negb _); cbn [after later]; [done|].
    revert Hinv. apply report_inv_ext; autorewrite with sys; [done|].
    by rewrite dimension_events_app, app_nil_r.
  - done.
  - destruct (methods_ui_watcher w c s) as [Hw Hf].
    revert Hinv. apply report_inv_ext; [done|by rewrite Hf].
Qed.

Lemma report_inv_on_message (w : window) (data : option message_data) (s : Sys) :
  report_inv s → report_inv (after (on_message w data s)).
Proof.
  intros Hinv. unfold on_message, call_method. repeat case_match; try done.
  - destruct (methods_ui_watcher w (arg m) s) as [Hw Hf].
    revert Hinv. apply report_inv_ext; [done|by rewrite Hf].
  - unfold methods_parentKnowsIframeReady. cbn [after later].
    revert Hinv. apply report_inv_ext; by autorewrite with sys.
Qed.

Lemma report_inv_step (w : window) (a : action) (W : World) :
  report_inv (sys W) → report_inv (sys (step w a W)).
Proof.
  intros Hinv. destruct a as [i|data|q| |name setter|name]; cbn [step].
  - destruct (pending W !! i) as [[t cb]|]; [|done].
    cbn [enqueue sys]. by apply report_inv_run_callback.
  - destruct (messageListener (sys W)); [|done].
    cbn [enqueue sys]. by apply report_inv_on_message.
  - cbn [sys]. unfold useEmbedTheme. by destruct (truthy _).
  - cbn [sys]. unfold isEmbed.
    destruct (getNamespace_shape (Browser w) (sys W)) as (ns & Hs & _).
    destruct (getNamespace (Browser w) (sys W)) as [v s1]. cbn [fst snd] in *. by subst s1.
  - done.
  - done.
Qed.

Lemma report_inv_run (evs : list (window * action)) (W : World) :
  report_inv (sys W) → report_inv (sys (run evs W)).
Proof.
  revert W. induction evs as [|[w a] evs IH]; intros W HW; [done|].
  apply IH. by apply report_inv_step.
Qed.

Lemma report_inv_init (r : runtime) : report_inv (sys (module_init r)).
Proof.
  assert (reports_ok [] None true) as Hok.
  { split; [done|]. split; [done|]. split; [done|]. split; intros; done. }
  destruct r as [|w]; [exact Hok|].
  unfold module_init. set (s2 := if isSafariBrowser _ then _ else _).
  assert (fired s2 = [] ∧ watcher s2 = watcher_init) as [Hf Hw].
  { subst s2. destruct (isSafariBrowser _); by autorewrite with sys. }
  clearbody s2. cbn [enqueue sys]. unfold bootstrap, isEmbed, report_inv.
  destruct (negb _); [|cbn [after finished]; by rewrite Hf, Hw].
  destruct (getNamespace_shape (Browser w) s2) as (ns & Hs & _).
  destruct (getNamespace (Browser w) s2) as [v s1]. cbn [fst snd] in *. subst s1.
  destruct (isValidNamespace v); [|cbn [after finished]; simpl; by rewrite Hf, Hw].
  unfold keepParentInformedAboutDimensionChanges, unhideBody.
  destruct (negb (truthy (CalComPageStatus w)) || loosely_equals "200" (CalComPageStatus w));
    destruct (isTop w); cbn [after finished later]; sys_simpl; by rewrite ?Hf, ?Hw.
Qed.

(** X8: whatever happens in a document, among the [dimension-changed] events
    fired the first one carries [isFirstTime = true] and every later one
    carries [isFirstTime = false]. *)
Theorem only_first_report_is_first_time
    (r : runtime) (evs : list (window * action)) :
  let reports := dimension_events (fired (sys (run evs (module_init r)))) in
  (∀ e, head reports = Some e → event_isFirstTime e = true) ∧
  (∀ i e, reports !! S i = Some e → event_isFirstTime e = false).
Proof.
  intros reports.
  destruct (report_inv_run evs _ (report_inv_init r)) as (_ & _ & Hhead & Htail & _).
  done.
Qed.

(** X9: whatever happens in a document, no two consecutive
    [dimension-changed] events report the same height, and the height the
    watcher compares the next sample with is the last one it has reported
    ([null] before the first report). *)
Theorem consecutive_reports_differ_in_height
    (r : runtime) (evs : list (window * action)) :
  let W := run evs (module_init r) in
  let reports := dimension_events (fired (sys W)) in
  (∀ i a b, reports !! i = Some a → reports !! S i = Some b →
            event_height a ≠ event_height b) ∧
  knownIframeHeight (watcher (sys W)) = last reports ≫= event_height.
Proof.
  intros W reports.
  destruct (report_inv_run evs _ (report_inv_init r)) as (Hnil & Hcons & _ & _ & Hadj).
  fold W in Hnil, Hcons, Hadj. fold reports in Hnil, Hcons, Hadj.
  split; [done|].
  destruct reports as [|e l] eqn:E; [by destruct (Hnil eq_refl)|].
  by destruct (Hcons ltac:(done)).
Qed.

(** Samples that repeat the known height: nothing is reported, whatever the
    widths, and the watcher goes on. *)
Lemma follow_unchanged (samples : list window) (h : Z) (s : Sys) :
  Forall loaded samples →
  Forall (fun w => offsetHeight w = h) samples →
  isWindowLoadComplete (watcher s) = true →
  isFirstTime (watcher s) = false →
  knownIframeHeight (watcher s) = Some h →
  (numDimensionChanges (watcher s) ≤ 50)%nat →
  (follow samples CbInformAboutScroll s).2 = Some CbInformAboutScroll ∧
  dimension_events (fired (follow samples CbInformAboutScroll s).1)
  = dimension_events (fired s).
Proof.
  intros Hl. revert s. induction Hl as [|w ws Hw Hws IH]; intros s Hh Hwlc Hfirst Hk Hn.
  - done.
  - apply Forall_cons in Hh as [Hhw Hh].
    destruct (follow_sample w ws CbInformAboutScroll s Hw) as (s' & -> & Hwat & Hev).
    { by right. }
    { rewrite Hfirst, Hk. simpl. rewrite Hhw.
      rewrite bool_decide_eq_false_2 by (intros ?; done). done. }
    rewrite Hfirst, Hk in Hwat, Hev. simpl in Hwat, Hev. rewrite Hhw in Hwat, Hev.
    rewrite bool_decide_eq_false_2 in Hwat, Hev by (intros ?; done).
    rewrite app_nil_r in Hev.
    destruct (IH s' Hh) as [IH1 IH2]; try (by rewrite Hwat).
    split; [done|]. by rewrite IH2.
Qed.

(** X10: over a loaded document whose measured height stays the same, the
    watcher reports the first sample and nothing after it, however the width
    changes from sample to sample, and it keeps polling. *)
Theorem watcher_idles_while_height_is_constant
    (w0 w1 : window) (samples : list window) (h : Z) (s : Sys) :
  loaded w0 → loaded w1 → Forall loaded samples →
  scrollHeight w1 = h →
  Forall (fun w => offsetHeight w = h) samples →
  let r := watch (w0 :: w1 :: samples) s in
  dimension_events (fired r.1)
  = dimension_events (fired s) ++ [dimension_changed h (scrollWidth w1) true] ∧
  r.2 = Some CbInformAboutScroll.
Proof.
  intros H0 H1 Hl Hh1 Hh. cbv zeta. rewrite watch_loaded by done.
  set (s0 := set_watcher watcher_init s).
  assert (watcher s0 = watcher_init) as Hw0 by done.
  assert (dimension_events (fired s0) = dimension_events (fired s)) as He0 by done.
  clearbody s0.
  destruct (follow_sample w1 samples CbWindowLoadSettled s0 H1 (or_introl eq_refl))
    as (s1 & -> & Hw1 & He1).
  { rewrite Hw0. simpl. lia. }
  rewrite Hw0 in Hw1, He1. simpl in Hw1, He1. rewrite Hh1 in Hw1, He1.
  destruct (follow_unchanged samples h s1 Hl Hh) as [Hr Hev]; try (by rewrite Hw1).
  { rewrite Hw1. simpl. lia. }
  split; [|done]. by rewrite Hev, He1, He0.
Qed.

Lemma watcher_idles_while_height_is_constant_witness :
  let d := fun wd : Z =>
             {| userAgent := "Mozilla/5.0 Chrome/100.0"; documentURL := "https://cal.com/pro";
                searchParams := [("embed", "abc")]; isTop := false;
                CalComPageStatus := JStr "200"; CalComPlan := JUndefined;
                readyState := "complete";
                scrollHeight := 500; scrollWidth := wd;
                offsetHeight := 500; offsetWidth := wd |} in
  let r := watch [d 640; d 640; d 700; d 320; d 900] Sys_init in
  dimension_events (fired r.1) = [dimension_changed 500 640 true] ∧
  r.2 = Some CbInformAboutScroll.
Proof.
  intros d r.
  assert (Forall loaded [d 700; d 320; d 900]) as Hl by (repeat constructor).
  assert (Forall (fun w => offsetHeight w = 500) [d 700; d 320; d 900]) as Hh
    by (repeat constructor).
  exact (watcher_idles_while_height_is_constant (d 640) (d 640) [d 700; d 320; d 900] 500
           Sys_init eq_refl eq_refl Hl eq_refl Hh).
Defined.

(** ** A page that failed to load *)

Lemma methods_ui_bystander (w : window) (c : option UiConfig) (s : Sys) :
  let o := methods_ui w c s in
  fired (after o) = fired s ∧
  parentInformedAboutContentHeight (store (after o))
  = parentInformedAboutContentHeight (store s) ∧
  body_display (after o) = body_display s ∧
  count_tasks is_watcher_task (scheduled o) = 0%nat ∧
  count_tasks is_unhide (scheduled o) = 0%nat.
Proof.
  cbv zeta. unfold methods_ui, setEmbedStyles. repeat case_match; by sys_simpl.
Qed.

Lemma on_message_bystander (w : window) (data : option message_data) (s : Sys) :
  let o := on_message w data s in
  fired (after o) = fired s ∧
  parentInformedAboutContentHeight (store (after o))
  = parentInformedAboutContentHeight (store s) ∧
  body_display (after o) = body_display s ∧
  count_tasks is_watcher_task (scheduled o) = 0%nat ∧
  count_tasks is_unhide (scheduled o) = 0%nat.
Proof.
  cbv zeta. unfold on_message, call_method. repeat case_match; try done.
  - apply methods_ui_bystander.
  - unfold methods_parentKnowsIframeReady, runAsap. cbn [after scheduled later].
    autorewrite with sys. by destruct (isSafariBrowser s).
Qed.

Lemma failed_inv_step (e : sdk_event) (display : option string)
    (w : window) (a : action) (W : World) :
  failed_inv e display W → failed_inv e display (step w a W).
Proof.
  intros (Hf & Hflag & Hb & Hw & Hu).
  destruct a as [i|data|q| |name setter|name]; cbn [step].
  - destruct (pending W !! i) as [[t cb]|] eqn:Hi; [|done].
    pose proof (count_tasks_delete is_watcher_task _ _ _ Hi) as Hdw.
    pose proof (count_tasks_delete is_unhide _ _ _ Hi) as Hdu.
    unfold failed_inv, enqueue. cbn [sys pending]. rewrite !count_tasks_app.
    destruct cb as [| | | |c]; cbn [is_watcher_task is_unhide snd] in Hdw, Hdu; try lia.
    + cbn [run_callback]. unfold run_tryInformingLinkReady. rewrite Hflag.
      cbn [negb after scheduled later]. unfold runAsap.
      destruct (isSafariBrowser (sys W)); unfold count_tasks at 2 4; simpl;
        repeat split; try done; lia.
    + cbn [run_callback].
      destruct (methods_ui_bystander w c (sys W)) as (-> & -> & -> & -> & ->).
      repeat split; try done; lia.
  - destruct (messageListener (sys W)); [|done].
    unfold failed_inv, enqueue. cbn [sys pending]. rewrite !count_tasks_app.
    destruct (on_message_bystander w data (sys W)) as (-> & -> & -> & -> & ->).
    repeat split; try done; lia.
  - unfold failed_inv. cbn [sys pending]. unfold useEmbedTheme. by destruct (truthy _).
  - unfold failed_inv. cbn [sys pending]. unfold isEmbed.
    destruct (getNamespace_shape (Browser w) (sys W)) as (ns & Hs & _).
    destruct (getNamespace (Browser w) (sys W)) as [v s1]. cbn [fst snd] in *. by subst s1.
  - done.
  - done.
Qed.

Lemma failed_inv_run (e : sdk_event) (display : option string)
    (evs : list (window * action)) (W : World) :
  failed_inv e display W → failed_inv e display (run evs W).
Proof.
  revert W. induction evs as [|[w a] evs IH]; intros W HW; [done|].
  apply IH. by apply failed_inv_step.
Qed.

(** The test [isEmbed()] of the bootstrap succeeds when the URL has an
    [embed] parameter, also when [log] has resolved the namespace before. *)
Lemma module_init_embedded (w0 : window) :
  searchParams_get "embed" (searchParams w0) ≠ JNull →
  let s2 := if detectSafari w0
            then log (Browser w0) [LText TextSafariDetected]
                   (set_isSafariBrowser (detectSafari w0) Sys_init)
            else set_isSafariBrowser (detectSafari w0) Sys_init in
  module_init (Browser w0) = enqueue (bootstrap w0 s2) [] ∧
  (isEmbed (Browser w0) s2).1 = true ∧
  fired s2 = [] ∧ body_display s2 = None ∧
  parentInformedAboutContentHeight (store s2) = false.
Proof.
  intros Hembed s2. split; [done|].
  assert (isValidNamespace (getNamespace (Browser w0) s2).1 = true) as Hv.
  { unfold getNamespace.
    destruct (isValidNamespace (namespace (store s2))) eqn:E; [done|]. cbn [fst].
    pose proof (searchParams_get_not_undefined "embed" (searchParams w0)).
    by destruct (searchParams_get "embed" (searchParams w0)). }
  split.
  - unfold isEmbed. destruct (getNamespace (Browser w0) s2) as [ns s3]. done.
  - subst s2. destruct (detectSafari w0); by autorewrite with sys.
Qed.

(** X11: a document that is embedded but whose page status is truthy and
    fails the test [pageStatus == "200"] (the loose comparison, which a
    string other than ["200"] fails, and so does an array whose elements do
    not join to ["200"]) fires [linkFailed], with the status and the URL,
    and nothing else, ever: no [iframeReady], no [dimension-changed], no
    [linkReady]; the acknowledgement flag stays unset, and inside an iframe
    the body is never shown. *)
Theorem failed_page_only_reports_linkFailed
    (w0 : window) (evs : list (window * action)) :
  searchParams_get "embed" (searchParams w0) ≠ JNull →
  is_str "true" (searchParams_get "prerender" (searchParams w0)) = false →
  truthy (CalComPageStatus w0) = true →
  loosely_equals "200" (CalComPageStatus w0) = false →
  let W := run evs (module_init (Browser w0)) in
  fired (sys W) = [linkFailed (CalComPageStatus w0) (documentURL w0)] ∧
  parentInformedAboutContentHeight (store (sys W)) = false ∧
  body_display (sys W) = (if isTop w0 then Some "block" else None).
Proof.
  intros Hembed Hpre Hst H200 W.
  destruct (failed_inv_run (linkFailed (CalComPageStatus w0) (documentURL w0))
              (if isTop w0 then Some "block" else None) evs (module_init (Browser w0)))
    as (? & ? & ? & _); [|done].
  destruct (module_init_embedded w0 Hembed) as (-> & Hemb & Hf & Hb & Hflag).
  set (s2 := if detectSafari w0 then _ else _) in *. clearbody s2.
  unfold bootstrap. rewrite Hpre. cbn [negb].
  unfold isEmbed in *.
  destruct (getNamespace_shape (Browser w0) s2) as (ns & Hs & _).
  destruct (getNamespace (Browser w0) s2) as [v s1]. cbn [fst snd] in *. subst s1.
  rewrite Hemb, Hst, H200. cbn [negb orb].
  unfold failed_inv, enqueue, unhideBody. cbn [sys pending after scheduled finished app].
  destruct (isTop w0); sys_simpl; by rewrite ?Hf, ?Hb, ?Hflag.
Qed.

Lemma failed_page_only_reports_linkFailed_witness :
  let w :=
    {| userAgent := "Mozilla/5.0 Chrome/100.0"; documentURL := "https://cal.com/nobody";
       searchParams := [("embed", "abc")]; isTop := false;
       CalComPageStatus := JStr "404"; CalComPlan := JUndefined; readyState := "complete";
       scrollHeight := 500; scrollWidth := 640; offsetHeight := 500; offsetWidth := 640 |} in
  let evs := [(w, Message (Some (cal_message "parentKnowsIframeReady" None)));
              (w, RunTask 0); (w, RunTask 0)] in
  fired (sys (run evs (module_init (Browser w))))
  = [linkFailed (JStr "404") "https://cal.com/nobody"].
Proof.
  intros w evs.
  exact (proj1 (failed_page_only_reports_linkFailed w evs ltac:(vm_compute; discriminate)
                  eq_refl eq_refl eq_refl)).
Defined.

(** ** Documents that are not embedded, and top-level ones *)

Lemma quiet_step_body (w : window) (a : action) (W : World) :
  quiet W → body_display (sys (step w a W)) = body_display (sys W).
Proof.
  intros (Hl & _ & Hp & _).
  destruct a as [i|data|q| |name setter|name]; cbn [step].
  - by rewrite Hp.
  - by rewrite Hl.
  - unfold useEmbedTheme. by destruct (truthy _).
  - unfold isEmbed. destruct (getNamespace_shape (Browser w) (sys W)) as (ns & Hs & _).
    destruct (getNamespace (Browser w) (sys W)) as [v s1]. cbn [fst snd] in *. by subst s1.
  - done.
  - done.
Qed.

Lemma quiet_run_body (evs : list (window * action)) (W : World) :
  quiet W → body_display (sys (run evs W)) = body_display (sys W).
Proof.
  revert W. induction evs as [|[w a] evs IH]; intros W HW; [done|].
  unfold run in *. simpl. rewrite IH by (by apply quiet_step).
  by apply quiet_step_body.
Qed.

(** X12: a document loaded without an [embed] parameter never starts the
    protocol: no listener, no bus handler, nothing scheduled, fired or
    posted, and the body left as it is, whatever happens afterwards, also
    when the URL gains an [embed] parameter later and the namespace is then
    resolved by [useIsEmbed]. *)
Theorem not_embedded_never_starts_protocol
    (w0 : window) (evs : list (window * action)) :
  searchParams_get "embed" (searchParams w0) = JNull →
  let W := run evs (module_init (Browser w0)) in
  quiet W ∧ body_display (sys W) = None.
Proof.
  intros Hembed W.
  assert (quiet (module_init (Browser w0)) ∧
          body_display (sys (module_init (Browser w0))) = None) as [Hq Hb].
  { unfold module_init. set (s2 := if isSafariBrowser _ then _ else _).
    assert (fired s2 = [] ∧ posted s2 = [] ∧ wildcardHandler s2 = false ∧
            messageListener s2 = false ∧ body_display s2 = None ∧
            namespace (store s2) = JNull) as (? & ? & ? & ? & ? & Hns).
    { subst s2. destruct (isSafariBrowser _) eqn:E; [|done].
      autorewrite with sys. repeat split; try done.
      unfold log, getNamespace. simpl. rewrite Hembed. by destruct (truthy _). }
    clearbody s2. unfold bootstrap, isEmbed, getNamespace. rewrite Hns, Hembed. simpl.
    destruct (negb _); unfold quiet; simpl; done. }
  split; [by apply quiet_run|]. subst W. by rewrite quiet_run_body.
Qed.

Lemma not_embedded_never_starts_protocol_witness :
  let plain := example_window [] (JStr "PRO") 500 in
  let later := example_window [("embed", "abc")] (JStr "PRO") 500 in
  let c := {| ui_theme := "dark"; ui_styles := {[ "body" := {[ "background" := "blue" ]} ]} |} in
  let evs := [(later, CallIsEmbed);
              (later, Message (Some (cal_message "ui" (Some c))));
              (later, Message (Some (cal_message "parentKnowsIframeReady" None)));
              (later, RunTask 0)] in
  quiet (run evs (module_init (Browser plain))).
Proof.
  intros plain later c evs.
  exact (proj1 (not_embedded_never_starts_protocol plain evs eq_refl)).
Defined.

Lemma run_callback_body_display (w : window) (cb : callback) (s : Sys) :
  body_display (after (run_callback w cb s)) = body_display s ∨
  body_display (after (run_callback w cb s)) = Some "block".
Proof.
  destruct cb as [| | | |c]; cbn [run_callback].
  - left. by destruct (run_informAboutScroll_handshake w s) as ((_ & ? & _) & _).
  - left. unfold run_windowLoadSettled.
    by destruct (run_informAboutScroll_handshake w (set_isWindowLoadComplete true s))
      as ((_ & ? & _) & _).
  - left. by destruct (run_tryInformingLinkReady_handshake w s) as ((_ & ? & _) & _).
  - by right.
  - left. by destruct (methods_ui_handshake w c s) as ((_ & ? & _) & _).
Qed.

Lemma step_body_display (w : window) (a : action) (W : World) :
  body_display (sys (step w a W)) = body_display (sys W) ∨
  body_display (sys (step w a W)) = Some "block".
Proof.
  destruct a as [i|data|q| |name setter|name]; cbn [step].
  - destruct (pending W !! i) as [[t cb]|]; [|by left]. apply run_callback_body_display.
  - destruct (messageListener (sys W)); [|by left]. left.
    by destruct (on_message_handshake w data (sys W)) as ((_ & ? & _) & _).
  - left. unfold useEmbedTheme. by destruct (truthy _).
  - left. unfold isEmbed. destruct (getNamespace_shape (Browser w) (sys W)) as (ns & Hs & _).
    destruct (getNamespace (Browser w) (sys W)) as [v s1]. cbn [fst snd] in *. by subst s1.
  - by left.
  - by left.
Qed.

Lemma shown_stays_shown (evs : list (window * action)) (W : World) :
  body_display (sys W) = Some "block" → body_display (sys (run evs W)) = Some "block".
Proof.
  revert W. induction evs as [|[w a] evs IH]; intros W HW; [done|].
  apply IH. cbn [fst snd]. destruct (step_body_display w a W) as [Heq|Heq]; congruence.
Qed.

(** X13: an embed link opened as the top window, not inside an iframe,
    shows its body during the bootstrap, without waiting for any
    instruction; and in every document a body once shown is never hidden
    again by this module. *)
Theorem top_level_embed_is_shown_at_once
    (w0 : window) (evs : list (window * action)) :
  isTop w0 = true →
  searchParams_get "embed" (searchParams w0) ≠ JNull →
  is_str "true" (searchParams_get "prerender" (searchParams w0)) = false →
  body_display (sys (run evs (module_init (Browser w0)))) = Some "block" ∧
  (∀ (r : runtime) (before later : list (window * action)),
     body_display (sys (run before (module_init r))) = Some "block" →
     body_display (sys (run later (run before (module_init r)))) = Some "block").
Proof.
  intros Htop Hembed Hpre. split; [|intros r before later; apply shown_stays_shown].
  apply shown_stays_shown.
  destruct (module_init_embedded w0 Hembed) as (-> & Hemb & _).
  set (s2 := if detectSafari w0 then _ else _) in *. clearbody s2.
  unfold bootstrap. rewrite Hpre, Htop. cbn [negb].
  unfold isEmbed in *.
  destruct (getNamespace_shape (Browser w0) s2) as (ns & Hs & _).
  destruct (getNamespace (Browser w0) s2) as [v s1]. cbn [fst snd] in *. subst s1.
  rewrite Hemb. unfold keepParentInformedAboutDimensionChanges, unhideBody, enqueue.
  destruct (negb (truthy (CalComPageStatus w0)) || loosely_equals "200" (CalComPageStatus w0));
    cbn [sys after finished later]; by sys_simpl.
Qed.

Lemma top_level_embed_is_shown_at_once_witness :
  let w :=
    {| userAgent := "Mozilla/5.0 Chrome/100.0"; documentURL := "https://cal.com/pro?embed=abc";
       searchParams := [("embed", "abc")]; isTop := true;
       CalComPageStatus := JUndefined; CalComPlan := JUndefined; readyState := "loading";
       scrollHeight := 0; scrollWidth := 0; offsetHeight := 0; offsetWidth := 0 |} in
  body_display (sys (run [(w, RunTask 0)] (module_init (Browser w)))) = Some "block".
Proof.
  intros w.
  exact (proj1 (top_level_embed_is_shown_at_once w [(w, RunTask 0)] eq_refl
                  ltac:(vm_compute; discriminate) eq_refl)).
Defined.

(** ** Edge cases of the [ui] instruction *)

(** X14: a [ui] instruction that arrives without an argument is never
    deferred and never changes a style; it throws a [TypeError] (at
    [uiConfig.styles]) when the plan flag is unset or ["PRO"], and is
    rejected without an error, like any other, when the flag names another
    tier. *)
Theorem ui_without_argument_throws_unless_rejected (w : window) (s : Sys) :
  let o := on_message w (Some (cal_message "ui" None)) s in
  scheduled o = [] ∧
  untouched s (after o) ∧
  (truthy (CalComPlan w) = true → CalComPlan w ≠ JStr "PRO" → thrown o = None) ∧
  (truthy (CalComPlan w) = false ∨ CalComPlan w = JStr "PRO" → thrown o = Some TypeError).
Proof.
  cbv zeta. rewrite on_message_ui. unfold methods_ui.
  destruct (truthy (CalComPlan w)) eqn:Ht; cbn [andb].
  - destruct (is_str "PRO" (CalComPlan w)) eqn:Hp; cbn [negb].
    + cbn [scheduled after thrown throw]. split; [done|]. split; [apply untouched_log|].
      split; [|done]. intros _ Hne. destruct (CalComPlan w) as [| |p|]; try done.
      simpl in Hp. apply String.eqb_eq in Hp. by subst p.
    + cbn [scheduled after thrown finished]. split; [done|]. split.
      * eapply untouched_trans; apply untouched_log.
      * split; [done|]. intros [?|Heq]; [done|]. by rewrite Heq in Hp.
  - cbn [scheduled after thrown throw]. split; [done|]. split; [apply untouched_log|]. done.
Qed.

Lemma ui_without_argument_throws_unless_rejected_witness :
  let pro := example_window [("embed", "abc")] (JStr "PRO") 500 in
  let free := example_window [("embed", "abc")] (JStr "FREE") 500 in
  thrown (on_message pro (Some (cal_message "ui" None)) Sys_init) = Some TypeError ∧
  thrown (on_message free (Some (cal_message "ui" None)) Sys_init) = None.
Proof.
  intros pro free. split.
  - exact (proj2 (proj2 (proj2 (ui_without_argument_throws_unless_rejected pro Sys_init)))
             (or_intror eq_refl)).
  - exact (proj1 (proj2 (proj2 (ui_without_argument_throws_unless_rejected free Sys_init)))
             eq_refl ltac:(discriminate)).
Defined.

(** ** The plan gate *)

Lemma run_informAboutScroll_style_view (w : window) (s : Sys) :
  style_view (after (run_informAboutScroll w s)) = style_view s.
Proof.
  rewrite run_informAboutScroll_blocks.
  destruct (negb _); [done|]. destruct (negb _); [done|].
  assert (style_view (announce_load w s) = style_view s) as H1.
  { unfold announce_load, style_view. destruct (negb _); by sys_simpl. }
  set (s1 := announce_load w s) in *. clearbody s1.
  assert (style_view (measure_and_report w s1) = style_view s1) as H2.
  { unfold measure_and_report, style_view. cbv zeta. case_decide; by sys_simpl. }
  set (s2 := measure_and_report w s1) in *. clearbody s2.
  unfold reschedule_or_stop. destruct (Nat.ltb 50 _); cbn [after finished later];
    [|congruence].
  rewrite <- H1, <- H2. done.
Qed.

Lemma methods_ui_not_pro (w : window) (c : option UiConfig) (s : Sys) :
  CalComPlan w ≠ JStr "PRO" →
  style_view (after (methods_ui w c s)) = style_view s.
Proof.
  intros Hne. unfold methods_ui, style_view.
  assert (is_str "PRO" (CalComPlan w) = false) as ->.
  { destruct (CalComPlan w) as [| |p|]; try done. simpl.
    destruct (String.eqb_spec p "PRO"); congruence. }
  destruct (truthy (CalComPlan w)); cbn [andb negb]; [by sys_simpl|].
  destruct c; by sys_simpl.
Qed.

Lemma step_style_view_not_pro (w : window) (a : action) (W : World) :
  CalComPlan w ≠ JStr "PRO" →
  no_style_applied (sys W) → no_style_applied (sys (step w a W)).
Proof.
  intros Hne Hinv.
  assert (∀ s', style_view s' = style_view (sys W) → no_style_applied s') as Hext.
  { intros s' Hv. unfold style_view in Hv. injection Hv as Hst _ Hbg Hcalls.
    unfold no_style_applied. rewrite Hst, Hbg, Hcalls. done. }
  destruct a as [i|data|q| |name setter|name]; cbn [step].
  - destruct (pending W !! i) as [[t cb]|]; [|done]. cbn [enqueue sys]. apply Hext.
    destruct cb as [| | | |c]; cbn [run_callback].
    + apply run_informAboutScroll_style_view.
    + unfold run_windowLoadSettled. by rewrite run_informAboutScroll_style_view.
    + unfold run_tryInformingLinkReady, style_view. destruct (negb _); by sys_simpl.
    + done.
    + by apply methods_ui_not_pro.
  - destruct (messageListener (sys W)); [|done]. cbn [enqueue sys]. apply Hext.
    unfold on_message, call_method. repeat case_match; try done.
    + by apply methods_ui_not_pro.
    + unfold methods_parentKnowsIframeReady, style_view. by sys_simpl.
  - cbn [sys]. apply Hext. unfold useEmbedTheme. by destruct (truthy _).
  - cbn [sys]. apply Hext. unfold isEmbed.
    destruct (getNamespace_shape (Browser w) (sys W)) as (ns & Hs & _).
    destruct (getNamespace (Browser w) (sys W)) as [v s1]. cbn [fst snd] in *. by subst s1.
  - cbn [sys]. destruct Hinv as (Hst & Hbg & Hcalls).
    unfold no_style_applied, registerNewSetter. simpl.
    split; [done|]. split; [done|]. apply Forall_app. split; [done|].
    apply Forall_singleton. simpl. by rewrite Hst.
  - cbn [sys]. exact Hinv.
Qed.

Lemma component_state_empty (setter : nat) (calls : list (nat * SetStateAction)) :
  Forall (fun call : nat * SetStateAction => call.2 = SetValue ∅) calls →
  component_state setter calls = ∅.
Proof.
  unfold component_state.
  induction calls as [|[id act] calls IH] using rev_ind; [done|].
  intros Hcalls. apply Forall_app in Hcalls as [Hcalls Hact].
  apply Forall_cons in Hact as [Hact _]. change (act = SetValue ∅) in Hact. rewrite Hact.
  rewrite foldl_snoc. cbn [fst snd]. destruct (Nat.eqb id setter); [done|].
  by apply IH.
Qed.

Lemma no_style_applied_init (r : runtime) : no_style_applied (sys (module_init r)).
Proof.
  assert (no_style_applied Sys_init) as H0.
  { unfold no_style_applied. simpl. repeat split; done. }
  destruct r as [|w]; [done|].
  assert (∀ s', style_view s' = style_view Sys_init → no_style_applied s') as Hext.
  { intros s' Hv. unfold style_view in Hv. injection Hv as Hst _ Hbg Hcalls.
    unfold no_style_applied. rewrite Hst, Hbg, Hcalls. exact H0. }
  apply Hext. unfold module_init. set (s2 := if isSafariBrowser _ then _ else _).
  assert (style_view s2 = style_view Sys_init) as H2.
  { subst s2. unfold style_view. destruct (isSafariBrowser _); by autorewrite with sys. }
  rewrite <- H2. clearbody s2. cbn [enqueue sys].
  unfold bootstrap, isEmbed. destruct (negb _); [|done].
  destruct (getNamespace_shape (Browser w) s2) as (ns & Hs & _).
  destruct (getNamespace (Browser w) s2) as [v s1]. cbn [fst snd] in *. subst s1.
  destruct (isValidNamespace v); [|done].
  unfold keepParentInformedAboutDimensionChanges, unhideBody, style_view.
  repeat case_match; by sys_simpl.
Qed.

Lemma no_style_applied_run (evs : list (window * action)) (W : World) :
  Forall (fun ev : window * action => CalComPlan ev.1 ≠ JStr "PRO") evs →
  no_style_applied (sys W) → no_style_applied (sys (run evs W)).
Proof.
  unfold run. revert W. induction evs as [|[w a] evs IH]; intros W Hevs Hinv; [done|].
  apply Forall_cons in Hevs as [Hw Hevs]. cbn [foldl fst snd].
  apply IH; [done|]. by apply step_style_view_not_pro.
Qed.

(** X15: as long as the plan flag is not ["PRO"] at any event, no style is
    ever applied: the store keeps no styles, the background of the body is
    left alone, every component reads the empty styles from
    [useEmbedStyles] and [useBrandColors], and [useIsBackgroundTransparent]
    answers [false], whatever [ui] instructions arrive. *)
Theorem styles_need_the_pro_plan (r : runtime) (evs : list (window * action))
    (elementName : string) (setStyles : nat) :
  Forall (fun ev : window * action => CalComPlan ev.1 ≠ JStr "PRO") evs →
  let s := sys (run evs (module_init r)) in
  styles (store s) = ∅ ∧
  body_background s = None ∧
  useEmbedStyles elementName setStyles s = ∅ ∧
  useBrandColors setStyles s = ∅ ∧
  useIsBackgroundTransparent setStyles s = false.
Proof.
  intros Hevs. cbv zeta.
  destruct (no_style_applied_run evs (module_init r) Hevs (no_style_applied_init r))
    as (Hst & Hbg & Hcalls).
  split; [done|]. split; [done|].
  unfold useIsBackgroundTransparent, useBrandColors, useEmbedStyles, slice.
  by rewrite (component_state_empty _ _ Hcalls), !lookup_empty.
Qed.

Lemma styles_need_the_pro_plan_witness :
  let w := example_window [("embed", "abc")] (JStr "FREE") 500 in
  let c := {| ui_theme := "dark";
              ui_styles := {[ "body" := {[ "background" := "red" ]} ]} |} in
  let s := sys (run [(w, Mount "body" 1); (w, Message (Some (cal_message "ui" (Some c))))]
                    (module_init (Browser w))) in
  styles (store s) = ∅ ∧ body_background s = None ∧ useEmbedStyles "body" 1 s = ∅ ∧
  useBrandColors 1 s = ∅ ∧ useIsBackgroundTransparent 1 s = false.
Proof.
  intros w c.
  apply (styles_need_the_pro_plan (Browser w)
           [(w, Mount "body" 1); (w, Message (Some (cal_message "ui" (Some c))))] "body" 1).
  repeat constructor; simpl; discriminate.
Defined.

(** ** [isEmbed] across a change of the URL *)

Lemma isEmbed_true_resolved (r : runtime) (s : Sys) :
  (isEmbed r s).1 = true →
  isValidNamespace (namespace (store (isEmbed r s).2)) = true.
Proof.
  unfold isEmbed, getNamespace.
  destruct (isValidNamespace (namespace (store s))) eqn:Hv; cbn [fst snd]; [done|].
  destruct r as [|w]; cbn [fst snd]; [done|]. intros Hns. by sys_simpl.
Qed.

(** X16: once [isEmbed()] has answered [true] in a document it answers
    [true] ever after, whatever happens in between and whatever the URL of
    the document has become (the [embed] parameter may be gone). *)
Theorem isEmbed_stays_true (w : window) (W : World) (evs : list (window * action))
    (r' : runtime) :
  (isEmbed (Browser w) (sys W)).1 = true →
  (isEmbed r' (sys (run evs (step w CallIsEmbed W)))).1 = true.
Proof.
  intros Hemb. apply isEmbed_true_resolved in Hemb.
  destruct (run_identity evs (step w CallIsEmbed W)) as (Hns & _ & _).
  cbn [step sys] in Hns. specialize (Hns Hemb).
  unfold isEmbed. rewrite getNamespace_cached; cbn [step]; rewrite Hns; done.
Qed.

Lemma isEmbed_stays_true_witness :
  let w := example_window [("embed", "abc")] JUndefined 500 in
  let w' := example_window [] JUndefined 500 in
  (isEmbed (Browser w')
     (sys (run [(w', Message None)] (step w CallIsEmbed {| sys := Sys_init; pending := [] |})))).1
  = true.
Proof.
  intros w w'.
  apply (isEmbed_stays_true w {| sys := Sys_init; pending := [] |} [(w', Message None)]
           (Browser w')).
  vm_compute; reflexivity.
Defined.

(** ** The log queue and the console *)

Lemma printed_app (l1 l2 : list console_line) :
  printed (l1 ++ l2) = printed l1 ++ printed l2.
Proof. unfold printed. apply omap_app. Qed.

Lemma logs_extend_same (w : window) (s s' : Sys) :
  logQueue s' = logQueue s → console s' = console s → logs_extend w s s'.
Proof.
  intros Hq Hc. exists [], []. rewrite !app_nil_r. repeat split; try done.
  by destruct (debug w).
Qed.

Lemma logs_extend_trans (w : window) (s1 s2 s3 : Sys) :
  logs_extend w s1 s2 → logs_extend w s2 s3 → logs_extend w s1 s3.
Proof.
  intros (e1 & l1 & Hq1 & Hc1 & Hp1 & Ht1) (e2 & l2 & Hq2 & Hc2 & Hp2 & Ht2).
  exists (e1 ++ e2), (l1 ++ l2).
  rewrite Hq2, Hq1, Hc2, Hc1, !app_assoc, printed_app, Hp1, Hp2.
  repeat split; try done; [by destruct (debug w)|by apply Forall_app].
Qed.

Lemma logs_extend_log (w : window) (args : list log_arg) (s : Sys) :
  logs_extend w s (log (Browser w) args s).
Proof.
  unfold log.
  destruct (getNamespace_shape (Browser w) s) as (ns & Hs & _).
  destruct (getNamespace (Browser w) s) as [v s1]. cbn [fst snd] in *. subst s1.
  exists [LText TextCAL :: args ++ [LMeta v (documentURL w)]].
  unfold debug. destruct (truthy (searchParams_get "debug" (searchParams w))).
  - exists [ConsoleLog (LText TextCAL :: args ++ [LMeta v (documentURL w)])].
    repeat split; try done. apply Forall_singleton. by exists args, v, (documentURL w).
  - exists []. rewrite app_nil_r.
    repeat split; try done. apply Forall_singleton. by exists args, v, (documentURL w).
Qed.

Lemma logs_extend_fire (w : window) (e : sdk_event) (s : Sys) :
  logs_extend w s (fire w e s).
Proof.
  unfold fire. cbv zeta. destruct (wildcardHandler _).
  - apply logs_extend_trans with (log (Browser w) [LDetail e] (set_fired (fired s ++ [e]) s)).
    + apply logs_extend_trans with (set_fired (fired s ++ [e]) s);
        [by apply logs_extend_same|apply logs_extend_log].
    + by apply logs_extend_same.
  - by apply logs_extend_same.
Qed.

(** Peels the state of the goal, one assignment, [log] or [fire] at a time. *)
Ltac logs_chain :=
  repeat match goal with
  | |- logs_extend ?w ?s ?s => apply logs_extend_same; reflexivity
  | |- logs_extend ?w ?s (log (Browser ?w) ?a ?x) =>
      apply (logs_extend_trans w s x); [|apply logs_extend_log]
  | |- logs_extend ?w ?s (fire ?w ?e ?x) =>
      apply (logs_extend_trans w s x); [|apply logs_extend_fire]
  | |- logs_extend ?w ?s (?f ?x) =>
      apply (logs_extend_trans w s x); [|apply logs_extend_same; reflexivity]
  end.

Lemma run_informAboutScroll_logs (w : window) (s : Sys) :
  logs_extend w s (after (run_informAboutScroll w s)).
Proof.
  rewrite run_informAboutScroll_blocks.
  destruct (negb _); [by apply logs_extend_same|].
  destruct (negb _); [by apply logs_extend_same|].
  assert (logs_extend w s (announce_load w s)) as H1.
  { unfold announce_load. destruct (negb _); logs_chain. }
  set (s1 := announce_load w s) in *. clearbody s1.
  assert (logs_extend w s1 (measure_and_report w s1)) as H2.
  { unfold measure_and_report. cbv zeta. case_decide; logs_chain. }
  set (s2 := measure_and_report w s1) in *. clearbody s2.
  apply (logs_extend_trans w s s1); [done|]. apply (logs_extend_trans w s1 s2); [done|].
  unfold reschedule_or_stop. destruct (Nat.ltb 50 _); cbn [after finished later].
  - exists [], [ConsoleWarn "Too many dimension changes detected."].
    rewrite app_nil_r. repeat split; try done. by destruct (debug w).
  - by apply logs_extend_same.
Qed.

Lemma methods_ui_logs (w : window) (c : option UiConfig) (s : Sys) :
  logs_extend w s (after (methods_ui w c s)).
Proof.
  unfold methods_ui. cbv zeta. destruct (_ && _); cbn [after finished]; [logs_chain|].
  destruct c as [c|]; cbn [after throw]; [|logs_chain].
  destruct (negb _); cbn [after later finished]; [logs_chain|].
  unfold setEmbedStyles. cbv zeta. destruct (body_background_of _); logs_chain.
Qed.

Lemma run_callback_logs (w : window) (cb : callback) (s : Sys) :
  logs_extend w s (after (run_callback w cb s)).
Proof.
  destruct cb as [| | | |c]; cbn [run_callback].
  - apply run_informAboutScroll_logs.
  - unfold run_windowLoadSettled.
    apply (logs_extend_trans w s (set_isWindowLoadComplete true s));
      [by apply logs_extend_same|apply run_informAboutScroll_logs].
  - unfold run_tryInformingLinkReady. destruct (negb _); cbn [after later]; logs_chain.
  - cbn [after finished]. unfold unhideBody. logs_chain.
  - apply methods_ui_logs.
Qed.

Lemma on_message_logs (w : window) (data : option message_data) (s : Sys) :
  logs_extend w s (after (on_message w data s)).
Proof.
  unfold on_message, call_method.
  repeat case_match; cbn [after finished throw]; try (by apply logs_extend_same).
  - apply methods_ui_logs.
  - unfold methods_parentKnowsIframeReady. cbv zeta. cbn [after later]. logs_chain.
Qed.

Lemma step_logs (w : window) (a : action) (W : World) :
  logs_extend w (sys W) (sys (step w a W)).
Proof.
  destruct a as [i|data|q| |name setter|name]; cbn [step].
  - destruct (pending W !! i) as [[t cb]|]; [|by apply logs_extend_same].
    cbn [enqueue sys]. apply run_callback_logs.
  - destruct (messageListener (sys W)); [|by apply logs_extend_same].
    cbn [enqueue sys]. apply on_message_logs.
  - cbn [sys]. unfold useEmbedTheme. destruct (truthy _); by apply logs_extend_same.
  - cbn [sys]. unfold isEmbed.
    destruct (getNamespace_shape (Browser w) (sys W)) as (ns & Hs & _).
    destruct (getNamespace (Browser w) (sys W)) as [v s1]. cbn [fst snd] in *. subst s1.
    by apply logs_extend_same.
  - cbn [sys]. by apply logs_extend_same.
  - cbn [sys]. by apply logs_extend_same.
Qed.

Lemma bootstrap_logs (w : window) (s : Sys) :
  logs_extend w s (after (bootstrap w s)).
Proof.
  unfold bootstrap, isEmbed. destruct (negb _); [|by apply logs_extend_same].
  destruct (getNamespace_shape (Browser w) s) as (ns & Hs & _).
  destruct (getNamespace (Browser w) s) as [v s1]. cbn [fst snd] in *. subst s1.
  destruct (isValidNamespace v); [|by apply logs_extend_same].
  cbv zeta. unfold keepParentInformedAboutDimensionChanges, unhideBody.
  destruct (_ || _), (isTop w); cbn [after later finished]; logs_chain.
Qed.

Lemma module_init_logs (w : window) :
  logs_extend w Sys_init (sys (module_init (Browser w))).
Proof.
  unfold module_init. cbv zeta. cbn [enqueue sys].
  set (s1 := set_isSafariBrowser (detectSafari w) Sys_init).
  apply (logs_extend_trans w _ (if isSafariBrowser s1
                                then log (Browser w) [LText TextSafariDetected] s1 else s1)).
  - destruct (isSafariBrowser s1); subst s1; logs_chain.
  - apply bootstrap_logs.
Qed.

Lemma logs_extend_tagged (w : window) (s s' : Sys) :
  logs_extend w s s' →
  Forall tagged (logQueue s) ∧ printed (console s) `sublist_of` logQueue s →
  Forall tagged (logQueue s') ∧ printed (console s') `sublist_of` logQueue s'.
Proof.
  intros (entries & lines & Hq & Hc & Hp & Ht) [Htag Hsub].
  rewrite Hq, Hc, printed_app, Hp. split; [by apply Forall_app|].
  apply sublist_app; [done|]. destruct (debug w); [done|apply sublist_nil_l].
Qed.

Lemma logs_extend_mirror (d : bool) (w : window) (s s' : Sys) :
  logs_extend w s s' → debug w = d →
  printed (console s) = (if d then logQueue s else []) →
  printed (console s') = (if d then logQueue s' else []).
Proof.
  intros (entries & lines & Hq & Hc & Hp & _) Hd Hm.
  rewrite Hq, Hc, printed_app, Hp, Hm, Hd. by destruct d.
Qed.

(** X17: at every point of every run, each entry of the log queue starts
    with ["CAL:"] and ends with the [{ns, url}] record, and whatever
    [console.log] has printed is in the queue, in the same order. *)
Theorem log_entries_are_tagged_and_printed_ones_queued (r : runtime)
    (evs : list (window * action)) :
  let s := sys (run evs (module_init r)) in
  Forall tagged (logQueue s) ∧ printed (console s) `sublist_of` logQueue s.
Proof.
  cbv zeta.
  assert (∀ W, (Forall tagged (logQueue (sys W)) ∧
                printed (console (sys W)) `sublist_of` logQueue (sys W)) →
               Forall tagged (logQueue (sys (run evs W))) ∧
               printed (console (sys (run evs W))) `sublist_of` logQueue (sys (run evs W)))
    as Hrun.
  { unfold run. induction evs as [|[w a] evs IH]; intros W HW; [done|].
    cbn [foldl fst snd]. apply IH. exact (logs_extend_tagged w _ _ (step_logs w a W) HW). }
  apply Hrun. destruct r as [|w]; [by split|].
  apply (logs_extend_tagged w Sys_init); [apply module_init_logs|by split].
Qed.

(** X18: nothing is ever taken off the log queue or the console: over any
    run from any state, the queue and the console at the start are prefixes
    of the queue and the console at the end. *)
Theorem log_queue_and_console_only_grow (evs : list (window * action)) (W : World) :
  logQueue (sys W) `prefix_of` logQueue (sys (run evs W)) ∧
  console (sys W) `prefix_of` console (sys (run evs W)).
Proof.
  unfold run. revert W. induction evs as [|[w a] evs IH]; intros W; [done|].
  cbn [foldl fst snd]. destruct (IH (step w a W)) as [IHq IHc].
  destruct (step_logs w a W) as (entries & lines & Hq & Hc & _).
  split; (etrans; [|eassumption]); [rewrite Hq|rewrite Hc]; by apply prefix_app_r.
Qed.

(** X19: when the [debug] query parameter is set at the load of the module
    and at every event, [console.log] has printed exactly the log queue;
    when it is unset throughout, [console.log] has printed nothing. *)
Theorem console_mirrors_queue_under_debug (d : bool) (w0 : window)
    (evs : list (window * action)) :
  debug w0 = d →
  Forall (fun ev : window * action => debug ev.1 = d) evs →
  let s := sys (run evs (module_init (Browser w0))) in
  printed (console s) = (if d then logQueue s else []).
Proof.
  intros H0 Hevs. cbv zeta.
  assert (∀ W, printed (console (sys W)) = (if d then logQueue (sys W) else []) →
               printed (console (sys (run evs W)))
               = (if d then logQueue (sys (run evs W)) else [])) as Hrun.
  { unfold run. induction Hevs as [|[w a] evs Hw _ IH]; intros W HW; [done|].
    cbn [foldl fst snd]. apply IH.
    exact (logs_extend_mirror d w _ _ (step_logs w a W) Hw HW). }
  apply Hrun. apply (logs_extend_mirror d w0 Sys_init); [apply module_init_logs|done|].
  by destruct d.
Qed.

Lemma console_mirrors_queue_under_debug_witness :
  let w := {| userAgent := "Mozilla/5.0 Chrome/100.0";
              documentURL := "https://cal.com/pro/30min";
              searchParams := [("embed", "abc"); ("debug", "1")];
              isTop := false;
              CalComPageStatus := JStr "200";
              CalComPlan := JStr "PRO";
              readyState := "complete";
              scrollHeight := 500; scrollWidth := 640;
              offsetHeight := 500; offsetWidth := 640 |} in
  let s := sys (run [(w, RunTask 0); (w, RunTask 0); (w, Message (Some (cal_message "ui" None)))]
                    (module_init (Browser w))) in
  printed (console s) = logQueue s ∧ length (logQueue s) = 5%nat.
Proof.
  intros w. split.
  - apply (console_mirrors_queue_under_debug true w
             [(w, RunTask 0); (w, RunTask 0); (w, Message (Some (cal_message "ui" None)))]).
    + vm_compute; reflexivity.
    + repeat constructor.
  - vm_compute; reflexivity.
Defined.

(** ** The timers *)

Lemma runAsap_timer (s : Sys) (cb : callback) :
  cb = CbInformAboutScroll ∨ cb = CbTryInformingLinkReady →
  (runAsap s cb).1 = timer_of (isSafariBrowser s) (runAsap s cb).2.
Proof. intros [-> | ->]; unfold runAsap; by destruct (isSafariBrowser s). Qed.

Lemma run_informAboutScroll_paced (w : window) (s : Sys) :
  isSafariBrowser (after (run_informAboutScroll w s)) = isSafariBrowser s ∧
  Forall (fun t : task => t.1 = timer_of (isSafariBrowser s) t.2)
         (scheduled (run_informAboutScroll w s)).
Proof.
  rewrite run_informAboutScroll_blocks.
  destruct (negb _).
  { split; [done|]. apply Forall_singleton. apply runAsap_timer. by left. }
  destruct (negb _).
  { split; [done|]. by apply Forall_singleton. }
  destruct (announce_load_frame w s) as (_ & H1 & _).
  set (s1 := announce_load w s) in *. clearbody s1.
  assert (isSafariBrowser (measure_and_report w s1) = isSafariBrowser s1) as H2.
  { unfold measure_and_report. cbv zeta. case_decide; by sys_simpl. }
  set (s2 := measure_and_report w s1) in *. clearbody s2.
  unfold reschedule_or_stop. destruct (Nat.ltb 50 _); cbn [after scheduled finished later].
  - split; [simpl; congruence|done].
  - split; [congruence|]. apply Forall_singleton. rewrite <- H1, <- H2.
    apply runAsap_timer. by left.
Qed.

Lemma methods_ui_paced (w : window) (c : option UiConfig) (s : Sys) :
  isSafariBrowser (after (methods_ui w c s)) = isSafariBrowser s ∧
  Forall (fun t : task => t.1 = timer_of (isSafariBrowser s) t.2)
         (scheduled (methods_ui w c s)).
Proof.
  unfold methods_ui. cbv zeta. destruct (_ && _); cbn [after scheduled finished].
  { split; [by sys_simpl|done]. }
  destruct c as [c|]; cbn [after scheduled throw]; [|split; [by sys_simpl|done]].
  destruct (negb _); cbn [after scheduled later finished].
  - split; [by sys_simpl|]. by apply Forall_singleton.
  - split; [|done]. unfold setEmbedStyles. destruct (body_background_of _); by sys_simpl.
Qed.

Lemma run_callback_paced (w : window) (cb : callback) (s : Sys) :
  isSafariBrowser (after (run_callback w cb s)) = isSafariBrowser s ∧
  Forall (fun t : task => t.1 = timer_of (isSafariBrowser s) t.2)
         (scheduled (run_callback w cb s)).
Proof.
  destruct cb as [| | | |c]; cbn [run_callback].
  - apply run_informAboutScroll_paced.
  - unfold run_windowLoadSettled.
    apply (run_informAboutScroll_paced w (set_isWindowLoadComplete true s)).
  - unfold run_tryInformingLinkReady. destruct (negb _); cbn [after scheduled later].
    + split; [done|]. apply Forall_singleton. apply runAsap_timer. by right.
    + split; [by sys_simpl|]. by apply Forall_singleton.
  - done.
  - apply methods_ui_paced.
Qed.

Lemma on_message_paced (w : window) (data : option message_data) (s : Sys) :
  isSafariBrowser (after (on_message w data s)) = isSafariBrowser s ∧
  Forall (fun t : task => t.1 = timer_of (isSafariBrowser s) t.2)
         (scheduled (on_message w data s)).
Proof.
  unfold on_message, call_method.
  repeat case_match; cbn [after scheduled finished throw]; try done.
  - apply methods_ui_paced.
  - unfold methods_parentKnowsIframeReady. cbv zeta. cbn [after scheduled later].
    split; [by sys_simpl|]. apply Forall_singleton.
    rewrite <- (log_isSafariBrowser (Browser w) [LText TextMethodParentKnowsIframeReadyCalled] s).
    apply runAsap_timer. by right.
Qed.

Lemma paced_step (safari : bool) (w : window) (a : action) (W : World) :
  paced safari W → paced safari (step w a W).
Proof.
  intros [Hsaf Hpend]. unfold paced.
  destruct a as [i|data|q| |name setter|name]; cbn [step].
  - destruct (pending W !! i) as [[t cb]|]; [|done]. cbn [enqueue sys pending].
    destruct (run_callback_paced w cb (sys W)) as [H1 H2]. rewrite Hsaf in *.
    split; [done|]. apply Forall_app. split; [|done]. by apply Forall_delete.
  - destruct (messageListener (sys W)); [|done]. cbn [enqueue sys pending].
    destruct (on_message_paced w data (sys W)) as [H1 H2]. rewrite Hsaf in *.
    split; [done|]. by apply Forall_app.
  - cbn [sys pending]. split; [|done]. unfold useEmbedTheme. by destruct (truthy _).
  - cbn [sys pending]. split; [|done]. unfold isEmbed.
    destruct (getNamespace_shape (Browser w) (sys W)) as (ns & Hs & _).
    destruct (getNamespace (Browser w) (sys W)) as [v s1]. cbn [fst snd] in *. by subst s1.
  - done.
  - done.
Qed.

Lemma paced_init (w : window) : paced (detectSafari w) (module_init (Browser w)).
Proof.
  unfold module_init, paced. cbv zeta. cbn [enqueue sys pending app].
  set (s2 := if isSafariBrowser _ then _ else _).
  assert (isSafariBrowser s2 = detectSafari w) as H2.
  { subst s2. destruct (isSafariBrowser (set_isSafariBrowser _ _)); by sys_simpl. }
  clearbody s2. unfold bootstrap, isEmbed. destruct (negb _); [|done].
  destruct (getNamespace_shape (Browser w) s2) as (ns & Hs & _).
  destruct (getNamespace (Browser w) s2) as [v s1]. cbn [fst snd] in *. subst s1.
  destruct (isValidNamespace v); [|done].
  cbv zeta. unfold keepParentInformedAboutDimensionChanges, unhideBody.
  destruct (_ || _), (isTop w); cbn [after scheduled later finished]; sys_simpl;
    (split; [done|]); try done;
    apply Forall_singleton; unfold runAsap; cbn; rewrite H2; by destruct (detectSafari w).
Qed.

(** X20: the user agent is looked at once, when the module loads.  From
    then on, in every run, the two polling loops ([informAboutScroll] and
    [tryInformingLinkReady]) wait on a 50 ms timeout in Safari and on an
    animation frame elsewhere, the settling of the window load on a 10 ms
    timeout, and the unhiding of the body and the retry of [ui] on an
    animation frame. *)
Theorem pending_tasks_use_the_timer_of_the_browser (w0 : window)
    (evs : list (window * action)) :
  let W := run evs (module_init (Browser w0)) in
  isSafariBrowser (sys W) = detectSafari w0 ∧
  Forall (fun t : task => t.1 = timer_of (detectSafari w0) t.2) (pending W).
Proof.
  cbv zeta. change (paced (detectSafari w0) (run evs (module_init (Browser w0)))).
  generalize (paced_init w0). generalize (module_init (Browser w0)) as W.
  unfold run. induction evs as [|[w a] evs IH]; intros W HW; [done|].
  cbn [foldl fst snd]. apply IH. by apply paced_step.
Qed.

(** * The Jitsi adapter *)

Lemma string_app_inj (p a b : string) : (p ++ a)%string = (p ++ b)%string → a = b.
Proof. induction p as [|c p IH]; simpl; [done|]. intros H. injection H as H. by apply IH. Qed.

(** X21: the meetings [createMeeting] makes from two identifiers have the
    same URL only if the identifiers are the same: a room is shared only
    when [uuidv4()] repeats itself; and the identifier of a meeting is what
    follows ["https://meet.jit.si/cal/"] in its URL. *)
Theorem createMeeting_url_determines_id (a b : string) :
  (Jitsi.url (Jitsi.createMeeting a) = Jitsi.url (Jitsi.createMeeting b) ↔ a = b) ∧
  String.substring 24 (String.length a) (Jitsi.url (Jitsi.createMeeting a))
  = Jitsi.id (Jitsi.createMeeting a).
Proof.
  split.
  - split; [|by intros ->]. unfold Jitsi.createMeeting. cbn [Jitsi.url].
    apply string_app_inj.
  - unfold Jitsi.createMeeting. cbn [Jitsi.url Jitsi.id].
    change (String.substring 0 (String.length a) a = a).
    induction a as [|c a IH]; [done|]. simpl. by rewrite IH.
Qed.

(** * Messages of other senders *)

Lemma step_foreign_message (w : window) (data : option message_data) (W : World) :
  (∀ d, data = Some d → originator d ≠ JStr "CAL" ∨ ∀ name, method d ≠ JStr name) →
  step w (Message data) W = W.
Proof.
  intros Hd. cbn [step]. destruct (messageListener (sys W)); [|done].
  rewrite on_message_ignores_foreign by done.
  destruct W as [s p]. unfold enqueue, finished. cbn. by rewrite app_nil_r.
Qed.

(** X22: window messages whose [originator] is not ["CAL"], or whose
    [method] is not a string, or that carry no data, do nothing at all: a
    run of such messages leaves the module, the page and the scheduled
    callbacks exactly as they were. *)
Theorem foreign_messages_change_nothing (msgs : list (window * option message_data))
    (W : World) :
  Forall (fun m : window * option message_data =>
            ∀ d, m.2 = Some d → originator d ≠ JStr "CAL" ∨ ∀ name, method d ≠ JStr name)
         msgs →
  run (map (fun m : window * option message_data => (m.1, Message m.2)) msgs) W = W.
Proof.
  intros Hmsgs. unfold run. induction Hmsgs as [|[w data] msgs Hm _ IH]; [done|].
  cbn [map foldl fst snd]. by rewrite step_foreign_message.
Qed.

Lemma foreign_messages_change_nothing_witness :
  let w := example_window [("embed", "abc")] (JStr "PRO") 500 in
  let W := module_init (Browser w) in
  run (map (fun m : window * option message_data => (m.1, Message m.2))
           [(w, None);
            (w, Some {| originator := JStr "other"; method := JStr "ui"; arg := None |});
            (w, Some {| originator := JStr "CAL"; method := JUndefined; arg := None |})]) W
  = W.
Proof.
  intros w W.
  apply (foreign_messages_change_nothing
           [(w, None);
            (w, Some {| originator := JStr "other"; method := JStr "ui"; arg := None |});
            (w, Some {| originator := JStr "CAL"; method := JUndefined; arg := None |})] W).
  apply Forall_cons_2; [intros d Hd; discriminate Hd|].
  apply Forall_cons_2; [intros d Hd; injection Hd as <-; left; discriminate|].
  apply Forall_cons_2; [intros d Hd; injection Hd as <-; right; intros name; discriminate|].
  apply Forall_nil_2.
Defined.
